(** * Motion planner of motion-planning-with-carla: per-cycle decision core

    Shallow embedding of [motion_planner/src/motion_planner.cpp]
    (class [planning::MotionPlanner]) and the properties of its
    stitching, emergency-stop, obstacle-selection and planning-target code.

    Numeric model.  A C++ [double] is an exact real number ([R]): rounding,
    NaN and infinities are not modelled, [std::cos], [std::sin], [std::hypot]
    and [std::fabs] are the real functions.  [ros::Time] is a real number of
    seconds.  [size_t] and [int] are integers ([Z]) with the wrap-around
    written out where the source relies on it.  The concrete inputs at which
    the code is evaluated below are exactly representable doubles, and every
    comparison made on them holds with a margin.

    Undefined behaviour and uncaught exceptions of the C++ code (an invalid
    iterator range, [back()] of an empty vector, [at] on a missing key,
    a failed [ROS_ASSERT]) are the [None] of the option monad. *)

From Stdlib Require Import Reals Lra Lia ZArith List Bool.
From stdpp Require Import base option list gmap.

Set Default Proof Using "Type".
Local Open Scope R_scope.

(** ** Comparisons on doubles, as booleans *)

Definition Rltb (a b : R) : bool := if Rlt_dec a b then true else false.
Definition Rleb (a b : R) : bool := if Rle_dec a b then true else false.

(** [std::min(a, b)] returns [b] when [b < a] and [a] otherwise. *)
Definition std_min (a b : R) : R := if Rltb b a then b else a.

(** [std::numeric_limits<double>::max()], the largest finite binary64 value:
    (2^53 - 1) * 2^971. *)
Definition DBL_MAX : R := IZR ((2 ^ 53 - 1) * 2 ^ 971).

(** [static_cast<int>(d)] for a double [d]: truncation toward zero.  The
    conversion is undefined when the truncated value does not fit an [int]. *)
Definition Rtrunc (d : R) : Z :=
  if Rleb 0 d then Int_part d else (- Int_part (- d))%Z.

Definition double_to_int (d : R) : option Z :=
  let n := Rtrunc d in
  if ((- 2 ^ 31 <=? n) && (n <? 2 ^ 31))%Z then Some n else None.

(** ** Messages *)

(** [planning_msgs::PathPoint] *)
Module PathPoint.
Record t : Type := Build
    { x : R; y : R; theta : R; kappa : R; dkappa : R; s : R }.
(** The generated ROS message constructor sets every field to zero. *)
Definition default : t := Build 0 0 0 0 0 0.
End PathPoint.

(** [planning_msgs::TrajectoryPoint] *)
Module TrajectoryPoint.
Record t : Type := Build
    { path_point : PathPoint.t;
      vel : R; acc : R; jerk : R; steer_angle : R; relative_time : R }.
Definition default : t := Build PathPoint.default 0 0 0 0 0.
End TrajectoryPoint.

(** [planning_msgs::Trajectory]: the status constants, and the message with
    [header.stamp], [status] and [trajectory_points]. *)
Inductive TrajectoryStatus : Type := NORMAL | EMPTY | EMERGENCYSTOP.

Module Trajectory.
Record t : Type := Build
    { stamp : R;
      status : TrajectoryStatus;
      trajectory_points : list TrajectoryPoint.t }.
End Trajectory.

(** [vehicle_state::KinoDynamicState] *)
Module KinoDynamicState.
Record t : Type := Build
    { x : R; y : R; z : R; theta : R; kappa : R; v : R; a : R }.
End KinoDynamicState.

(** [PlanningConfig::Instance()]: the configuration singleton, read through
    its accessors.  The class is declared outside this file; its values are
    a parameter of every function that reads them. *)
Module PlanningConfig.
Record t : Type := Build
    { max_lookahead_time : R;
      delta_t : R;
      max_lon_acc : R;
      max_lat_acc : R;
      desired_velocity : R;
      loop_rate : Z;
      preserve_history_trajectory_point_num : Z;
      max_replan_lat_distance_threshold : R;
      max_replan_lon_distance_threshold : R }.
End PlanningConfig.

(** ** MotionPlanner::GenerateEmergencyStopTrajectory *)

(** The local variables that the loop carries from one iteration to the
    next. *)
Record EmergencyStopLoop : Type := MkEmergencyStopLoop
  { last_x : R; last_y : R; last_v : R; last_a : R;
    last_theta : R; last_s : R }.

(** The body of [for (int i = 1; i < num_traj_point; ++i)] at index [i]:
    the point it pushes and the updated locals. *)
Definition EmergencyStopStep
    (kTimeGap max_decel stop_time : R)
    (init_trajectory_point : TrajectoryPoint.t)
    (i : Z) (st : EmergencyStopLoop) : TrajectoryPoint.t * EmergencyStopLoop :=
  let t := IZR i * kTimeGap + TrajectoryPoint.relative_time init_trajectory_point in
  let tp_vel := TrajectoryPoint.vel init_trajectory_point - last_a st * kTimeGap in
  let tp_acc := if Rleb t stop_time then - max_decel else 0 in
  let ds := (0.5 * last_a st * kTimeGap + last_v st) * kTimeGap in
  let tp_x := last_x st + cos (last_theta st) * ds in
  let tp_y := last_y st + sin (last_theta st) * ds in
  let tp_s := last_s st + ds in
  let tp :=
    TrajectoryPoint.Build
      (PathPoint.Build tp_x tp_y (last_theta st) 0 0 tp_s)
      tp_vel tp_acc 0
      (TrajectoryPoint.steer_angle init_trajectory_point) t in
  (tp, MkEmergencyStopLoop tp_x tp_y tp_vel tp_acc (last_theta st) tp_s).

(** [count] iterations of the loop starting at index [i]. *)
Fixpoint EmergencyStopLoopFrom
    (kTimeGap max_decel stop_time : R)
    (init_trajectory_point : TrajectoryPoint.t)
    (count : nat) (i : Z) (st : EmergencyStopLoop) : list TrajectoryPoint.t :=
  match count with
  | O => []
  | S count' =>
      let '(tp, st') :=
        EmergencyStopStep kTimeGap max_decel stop_time init_trajectory_point i st in
      tp :: EmergencyStopLoopFrom kTimeGap max_decel stop_time
              init_trajectory_point count' (i + 1)%Z st'
  end.

(** MotionPlanner::GenerateEmergencyStopTrajectory.  The function writes
    only the [trajectory_points] of its out-parameter; the result is the
    vector it leaves there: [clear()], then [resize(num_traj_point)] (that
    many default-constructed points), then one [push_back] of the modified
    origin and one per loop iteration.  [resize] with a negative [int]
    converted to [size_t] throws [std::length_error]. *)
Definition GenerateEmergencyStopTrajectory
    (cfg : PlanningConfig.t) (init_trajectory_point : TrajectoryPoint.t)
    : option (list TrajectoryPoint.t) :=
  let kMaxTrajectoryTime := PlanningConfig.max_lookahead_time cfg in
  let kTimeGap := PlanningConfig.delta_t cfg in
  num_traj_point ← double_to_int (kMaxTrajectoryTime / kTimeGap);
  if (num_traj_point <? 0)%Z then None else
  let resized := replicate (Z.to_nat num_traj_point) TrajectoryPoint.default in
  let max_decel := PlanningConfig.max_lon_acc cfg in
  let stop_time := TrajectoryPoint.vel init_trajectory_point / max_decel in
  let st :=
    MkEmergencyStopLoop
      (PathPoint.x (TrajectoryPoint.path_point init_trajectory_point))
      (PathPoint.y (TrajectoryPoint.path_point init_trajectory_point))
      (TrajectoryPoint.vel init_trajectory_point)
      max_decel
      (PathPoint.theta (TrajectoryPoint.path_point init_trajectory_point))
      (PathPoint.s (TrajectoryPoint.path_point init_trajectory_point)) in
  let tp :=
    TrajectoryPoint.Build
      (TrajectoryPoint.path_point init_trajectory_point)
      (TrajectoryPoint.vel init_trajectory_point)
      (- max_decel)
      (TrajectoryPoint.jerk init_trajectory_point)
      (TrajectoryPoint.steer_angle init_trajectory_point)
      0.0 in
  Some (resized ++ tp ::
        EmergencyStopLoopFrom kTimeGap max_decel stop_time init_trajectory_point
          (Z.to_nat (num_traj_point - 1)) 1%Z st).

(** ** Index matching on a trajectory *)

(** [std::lower_bound(first, last, value, comp)] as the standard library
    implements it, by bisection; [comp] is already applied to [value].
    [len] strictly decreases, so [length l] iterations are enough. *)
Fixpoint lower_bound_loop {A : Type} (comp : A -> bool) (l : list A)
    (fuel first len : nat) : nat :=
  match fuel with
  | O => first
  | S fuel' =>
      if (len =? 0)%nat then first
      else
        let half := Nat.div2 len in
        let middle := (first + half)%nat in
        match l !! middle with
        | Some a =>
            if comp a
            then lower_bound_loop comp l fuel' (S middle) (len - half - 1)%nat
            else lower_bound_loop comp l fuel' first half
        | None => first
        end
  end.

Definition lower_bound {A : Type} (comp : A -> bool) (l : list A) : nat :=
  lower_bound_loop comp l (length l) 0%nat (length l).

(** MotionPlanner::GetTimeMatchIndex *)
Definition GetTimeMatchIndex (relative eps : R)
    (trajectory : list TrajectoryPoint.t) : option nat :=
  back ← last trajectory;
  if Rltb (TrajectoryPoint.relative_time back) relative
  then Some (length trajectory - 1)%nat
  else
    let cmp (tp : TrajectoryPoint.t) :=
      Rltb (TrajectoryPoint.relative_time tp + eps) relative in
    Some (lower_bound cmp trajectory).

(** MotionPlanner::GetPositionMatchedIndex *)
Definition kEps : R := 1.0e-5.

Definition dist_sqr (xy : R * R) (tp : TrajectoryPoint.t) : R :=
  (PathPoint.x (TrajectoryPoint.path_point tp) - xy.1)
  * (PathPoint.x (TrajectoryPoint.path_point tp) - xy.1)
  + (PathPoint.y (TrajectoryPoint.path_point tp) - xy.2)
    * (PathPoint.y (TrajectoryPoint.path_point tp) - xy.2).

(** The scan over [trajectory[i]], [trajectory[i+1]], ... with the running
    [min_dist_sqr] and [min_index]. *)
Fixpoint PositionMatchLoop (xy : R * R) (rest : list TrajectoryPoint.t)
    (i : nat) (min_dist_sqr : R) (min_index : nat) : nat :=
  match rest with
  | [] => min_index
  | tp :: rest' =>
      if Rltb (dist_sqr xy tp) (min_dist_sqr + kEps)
      then PositionMatchLoop xy rest' (S i) (dist_sqr xy tp) i
      else PositionMatchLoop xy rest' (S i) min_dist_sqr min_index
  end.

Definition GetPositionMatchedIndex (xy : R * R)
    (trajectory : list TrajectoryPoint.t) : option nat :=
  match trajectory with
  | [] => None
  | _ => Some (PositionMatchLoop xy trajectory 0 DBL_MAX 0)
  end.

(** MotionPlanner::GetLatAndLonDistFromRefPoint *)
Definition GetLatAndLonDistFromRefPoint (x y : R) (point : PathPoint.t)
    : R * R :=
  let v := (x - PathPoint.x point, y - PathPoint.y point) in
  let n := (cos (PathPoint.theta point), sin (PathPoint.theta point)) in
  (v.1 * n.1 + n.2 + v.2 + PathPoint.s point,
   v.1 * n.2 - v.2 * n.1).

(** ** Reinitialisation *)

(** [KinoDynamicState::GetNextStateAfterTime], the motion model of the
    vehicle-state library. *)
Class VehicleModel : Type :=
  { GetNextStateAfterTime : KinoDynamicState.t -> R -> KinoDynamicState.t }.

(** MotionPlanner::ComputeTrajectoryPointFromVehicleState: [dkappa] and
    [steer_angle] keep the value of the default-constructed point. *)
Definition ComputeTrajectoryPointFromVehicleState
    (planning_cycle_time : R) (kinodynamic_state : KinoDynamicState.t)
    : TrajectoryPoint.t :=
  TrajectoryPoint.Build
    (PathPoint.Build
       (KinoDynamicState.x kinodynamic_state)
       (KinoDynamicState.y kinodynamic_state)
       (KinoDynamicState.theta kinodynamic_state)
       (KinoDynamicState.kappa kinodynamic_state)
       (PathPoint.dkappa PathPoint.default)
       0.0)
    (KinoDynamicState.v kinodynamic_state)
    (KinoDynamicState.a kinodynamic_state)
    0.0
    (TrajectoryPoint.steer_angle TrajectoryPoint.default)
    planning_cycle_time.

(** MotionPlanner::ComputeReinitStitchingTrajectory *)
Definition ComputeReinitStitchingTrajectory `{VehicleModel}
    (planning_cycle_time : R) (kino_dynamic_state : KinoDynamicState.t)
    : list TrajectoryPoint.t :=
  let kEpsilon_v := 0.1 in
  let kEpsilon_a := 0.4 in
  let reinit_point :=
    if Rltb (Rabs (KinoDynamicState.a kino_dynamic_state)) kEpsilon_a
       && Rltb (Rabs (KinoDynamicState.v kino_dynamic_state)) kEpsilon_v
    then ComputeTrajectoryPointFromVehicleState planning_cycle_time
           kino_dynamic_state
    else ComputeTrajectoryPointFromVehicleState planning_cycle_time
           (GetNextStateAfterTime kino_dynamic_state planning_cycle_time) in
  [reinit_point].

(** ** MotionPlanner::GetStitchingTrajectory *)

(** [a - b] on [size_t]: the difference modulo 2^64. *)
Definition size_t_sub (a b : Z) : Z := ((a - b) mod 2 ^ 64)%Z.

(** [static_cast<int>(z)] for a [size_t]: the low 32 bits, read as a
    two's-complement number. *)
Definition size_t_to_int (z : Z) : Z :=
  ((z + 2 ^ 31) mod 2 ^ 32 - 2 ^ 31)%Z.

(** The offset added to [begin()] for the start of the slice:
    [std::max(0, static_cast<int>(matched_index - preserve_points_num))]. *)
Definition StitchingStartIndex (matched_index preserve_points_num : Z) : Z :=
  Z.max 0 (size_t_to_int (size_t_sub matched_index preserve_points_num)).

(** The loop that re-bases the slice. *)
Definition RebaseTrajectoryPoint (time_shift zero_s : R)
    (tp : TrajectoryPoint.t) : TrajectoryPoint.t :=
  TrajectoryPoint.Build
    (PathPoint.Build
       (PathPoint.x (TrajectoryPoint.path_point tp))
       (PathPoint.y (TrajectoryPoint.path_point tp))
       (PathPoint.theta (TrajectoryPoint.path_point tp))
       (PathPoint.kappa (TrajectoryPoint.path_point tp))
       (PathPoint.dkappa (TrajectoryPoint.path_point tp))
       (PathPoint.s (TrajectoryPoint.path_point tp) - zero_s))
    (TrajectoryPoint.vel tp) (TrajectoryPoint.acc tp)
    (TrajectoryPoint.jerk tp) (TrajectoryPoint.steer_angle tp)
    (TrajectoryPoint.relative_time tp + time_shift).

(** [vector::assign(begin() + start, begin() + stop)]: the elements at
    [start], ..., [stop - 1]; undefined unless [start <= stop <= size()]. *)
Definition vector_slice {A : Type} (l : list A) (start stop : nat)
    : option (list A) :=
  if ((start <=? stop) && (stop <=? length l))%nat
  then Some (take (stop - start) (drop start l))
  else None.

(** The last statements of [GetStitchingTrajectory], from
    [double forward_rel_time = ...] to the [return]: the slice of the
    history from the start index to the forward match, re-based on its last
    point.  [back()] of an empty slice is undefined. *)
Definition StitchHistory (history_trajectory_ : Trajectory.t)
    (current_time_stamp planning_cycle_time : R) (preserve_points_num : Z)
    (position_matched_index time_matched_index : nat)
    : option (list TrajectoryPoint.t) :=
  let points := Trajectory.trajectory_points history_trajectory_ in
  let relative_time := current_time_stamp - Trajectory.stamp history_trajectory_ in
  let forward_rel_time := relative_time + planning_cycle_time in
  forward_rel_matched_index ← GetTimeMatchIndex forward_rel_time 1.0e-5 points;
  let matched_index := Nat.min position_matched_index time_matched_index in
  let start :=
    StitchingStartIndex (Z.of_nat matched_index) preserve_points_num in
  stitching_trajectory ←
    vector_slice points (Z.to_nat start) (forward_rel_matched_index + 1);
  back ← last stitching_trajectory;
  let zero_s := PathPoint.s (TrajectoryPoint.path_point back) in
  let time_shift := Trajectory.stamp history_trajectory_ - current_time_stamp in
  Some (map (RebaseTrajectoryPoint time_shift zero_s) stitching_trajectory).

(** MotionPlanner::GetStitchingTrajectory.  The members of the planner that
    stitching reads are arguments: the state reported by
    [vehicle_state_->GetKinoDynamicVehicleState()], the history flag and the
    history trajectory. *)
Definition GetStitchingTrajectory `{VehicleModel}
    (cfg : PlanningConfig.t)
    (state : KinoDynamicState.t)
    (has_history_trajectory_ : bool) (history_trajectory_ : Trajectory.t)
    (current_time_stamp : R) (planning_cycle_time : R)
    (preserve_points_num : Z) : option (list TrajectoryPoint.t) :=
  let reinit := ComputeReinitStitchingTrajectory planning_cycle_time state in
  let points := Trajectory.trajectory_points history_trajectory_ in
  if negb has_history_trajectory_ then Some reinit else
  match points with
  | [] => Some reinit
  | front :: _ =>
    let relative_time := current_time_stamp - Trajectory.stamp history_trajectory_ in
    time_matched_index ← GetTimeMatchIndex relative_time 1.0e-5 points;
    if (time_matched_index =? 0)%nat
       && Rltb relative_time (TrajectoryPoint.relative_time front)
    then Some reinit else
    if (length points - 1 <=? time_matched_index)%nat then Some reinit else
    time_matched_tp ← points !! time_matched_index;
    position_matched_index ←
      GetPositionMatchedIndex (KinoDynamicState.x state, KinoDynamicState.y state) points;
    position_matched_tp ← points !! position_matched_index;
    let sd :=
      GetLatAndLonDistFromRefPoint (KinoDynamicState.x state)
        (KinoDynamicState.y state)
        (TrajectoryPoint.path_point position_matched_tp) in
    let lon_diff := PathPoint.s (TrajectoryPoint.path_point time_matched_tp) - sd.1 in
    let lat_diff := sd.2 in
    if Rltb (PlanningConfig.max_replan_lat_distance_threshold cfg) (Rabs lat_diff)
    then Some reinit else
    if Rltb (PlanningConfig.max_replan_lon_distance_threshold cfg) (Rabs lon_diff)
    then Some reinit else
    StitchHistory history_trajectory_ current_time_stamp planning_cycle_time
      preserve_points_num position_matched_index time_matched_index
  end.

(** ** World snapshot and obstacles *)

(** [geometry_msgs::Point] *)
Module Point.
Record t : Type := Build { x : R; y : R; z : R }.
End Point.

(** [derived_object_msgs::Object]: the identity and [pose.position]. *)
Module Object.
Record t : Type := Build { id : Z; pose_position : Point.t }.
End Object.

(** [carla_msgs::CarlaTrafficLightStatus] and its [state] constants. *)
Inductive TrafficLightState : Type := RED | YELLOW | GREEN | OFF | UNKNOWN.

Module CarlaTrafficLightStatus.
Record t : Type := Build { id : Z; state : TrafficLightState }.
End CarlaTrafficLightStatus.

(** [carla_msgs::CarlaTrafficLightInfo]: the identity and
    [trigger_volume.center]. *)
Module CarlaTrafficLightInfo.
Record t : Type := Build { id : Z; trigger_volume_center : Point.t }.
End CarlaTrafficLightInfo.

(** Modelled from the spec: the [Obstacle] class is declared outside this
    file.  An obstacle is built either from a dynamic object or from a traffic
    signal (its geometry and its status), and [PredictTrajectory(horizon,
    time_step)] attaches the predicted trajectory to it; the prediction
    itself is the external collaborator. *)
Inductive ObstacleSource : Type :=
  | DYNAMIC_OBJECT (object : Object.t)
  | TRAFFIC_SIGNAL (light_info : CarlaTrafficLightInfo.t)
                   (light_status : CarlaTrafficLightStatus.t).

Module Obstacle.
Record t : Type := Build
    { source : ObstacleSource; trajectory : list TrajectoryPoint.t }.
End Obstacle.

Class ObstaclePrediction : Type :=
  { PredictTrajectory : ObstacleSource -> R -> R -> list TrajectoryPoint.t }.

Definition make_obstacle `{ObstaclePrediction} (cfg : PlanningConfig.t)
    (src : ObstacleSource) : Obstacle.t :=
  Obstacle.Build src
    (PredictTrajectory src (PlanningConfig.max_lookahead_time cfg)
       (PlanningConfig.delta_t cfg)).

(** [std::hypot] *)
Definition std_hypot (a b : R) : R := sqrt (a * a + b * b).

(** The gate both loops of [GetKeyObstacle] apply to a position: [dist]
    and [height_diff] of the loop bodies, against [radius] and 1.5. *)
Definition radius : R := 50.0.

Definition PlanarDistance (trajectory_point : TrajectoryPoint.t) (p : Point.t)
    : R :=
  std_hypot
    (PathPoint.x (TrajectoryPoint.path_point trajectory_point) - Point.x p)
    (PathPoint.y (TrajectoryPoint.path_point trajectory_point) - Point.y p).

Definition HeightDifference (ego_object : Object.t) (p : Point.t) : R :=
  Rabs (Point.z p - Point.z (Object.pose_position ego_object)).

Definition InKeyRange (trajectory_point : TrajectoryPoint.t)
    (ego_object : Object.t) (p : Point.t) : bool :=
  let dist := PlanarDistance trajectory_point p in
  let height_diff := HeightDifference ego_object p in
  Rltb dist radius && Rltb height_diff 1.5.

(** The body of [for (const auto &object : objects)]. *)
Definition KeyObstacleOfObject `{ObstaclePrediction} (cfg : PlanningConfig.t)
    (trajectory_point : TrajectoryPoint.t) (ego_object : Object.t) (ego_id : Z)
    (object : Z * Object.t) : option Obstacle.t :=
  if bool_decide (object.1 = ego_id) then None
  else if InKeyRange trajectory_point ego_object (Object.pose_position object.2)
  then Some (make_obstacle cfg (DYNAMIC_OBJECT object.2))
  else None.

(** The body of [for (const auto &light_info : traffic_lights_info_list)]. *)
Definition KeyObstacleOfLight `{ObstaclePrediction} (cfg : PlanningConfig.t)
    (traffic_light_status_list : gmap Z CarlaTrafficLightStatus.t)
    (trajectory_point : TrajectoryPoint.t) (ego_object : Object.t)
    (light_info : Z * CarlaTrafficLightInfo.t) : option Obstacle.t :=
  match traffic_light_status_list !! light_info.1 with
  | None => None
  | Some light_status =>
      match CarlaTrafficLightStatus.state light_status with
      | GREEN | UNKNOWN => None
      | _ =>
          if InKeyRange trajectory_point ego_object
               (CarlaTrafficLightInfo.trigger_volume_center light_info.2)
          then Some (make_obstacle cfg (TRAFFIC_SIGNAL light_info.2 light_status))
          else None
      end
  end.

(** MotionPlanner::GetKeyObstacle.  The maps are [std::unordered_map<int, _>];
    the loops visit their entries in the order of [map_to_list].
    [objects.at(ego_id)] throws when the ego is missing. *)
Definition GetKeyObstacle `{ObstaclePrediction} (cfg : PlanningConfig.t)
    (objects : gmap Z Object.t)
    (traffic_light_status_list : gmap Z CarlaTrafficLightStatus.t)
    (traffic_lights_info_list : gmap Z CarlaTrafficLightInfo.t)
    (trajectory_point : TrajectoryPoint.t) (ego_id : Z)
    : option (list Obstacle.t) :=
  ego_object ← objects !! ego_id;
  Some (omap (KeyObstacleOfObject cfg trajectory_point ego_object ego_id)
          (map_to_list objects)
        ++ omap (KeyObstacleOfLight cfg traffic_light_status_list
                   trajectory_point ego_object)
             (map_to_list traffic_lights_info_list)).

(** ** Planning targets *)

(** [common::SLPoint] *)
Module SLPoint.
Record t : Type := Build { s : R; l : R }.
End SLPoint.

(** The operations of [ReferenceLine] that the planner calls; the class
    belongs to the reference-line library.  [XYToSL] is [None] when the
    C++ function returns false; [ReferencePointKappa line s] is
    [line.GetReferencePoint(s).kappa()]. *)
Class ReferenceLineOps (ReferenceLine : Type) : Type :=
  { XYToSL : ReferenceLine -> R -> R -> option SLPoint.t;
    Length : ReferenceLine -> R;
    IsOnLane : ReferenceLine -> SLPoint.t -> bool;
    ReferencePointKappa : ReferenceLine -> R -> R }.

Module PlanningTarget.
Record t (ReferenceLine : Type) : Type := Build
    { ref_lane : ReferenceLine;
      has_stop_point : bool;
      stop_s : R;
      is_best_behaviour : bool;
      desired_vel : R }.
Arguments Build {ReferenceLine}.
Arguments ref_lane {ReferenceLine}.
Arguments has_stop_point {ReferenceLine}.
Arguments stop_s {ReferenceLine}.
Arguments is_best_behaviour {ReferenceLine}.
Arguments desired_vel {ReferenceLine}.
End PlanningTarget.

(** The curvature-limited speed bound of a line at arc length [s]:
    max_lat_acc / (|kappa| + 1e-4). *)
Definition CurvatureSpeedBound `{ReferenceLineOps ReferenceLine}
    (cfg : PlanningConfig.t) (ref_line : ReferenceLine) (s : R) : R :=
  PlanningConfig.max_lat_acc cfg / (Rabs (ReferencePointKappa ref_line s) + 1e-4).

(** The body of [for (const auto &ref_line : ref_lines)]: [None] is the
    [continue]. *)
Definition PlanningTargetOfLine `{ReferenceLineOps ReferenceLine}
    (cfg : PlanningConfig.t) (init_point : TrajectoryPoint.t)
    (ref_line : ReferenceLine) : option (PlanningTarget.t ReferenceLine) :=
  match XYToSL ref_line
          (PathPoint.x (TrajectoryPoint.path_point init_point))
          (PathPoint.y (TrajectoryPoint.path_point init_point)) with
  | None => None
  | Some sl_point =>
      let has_stop_point := Rltb (Length ref_line) (SLPoint.s sl_point + 50.0) in
      Some (PlanningTarget.Build ref_line
              has_stop_point
              (if has_stop_point then Length ref_line else DBL_MAX)
              (IsOnLane ref_line sl_point)
              (std_min (PlanningConfig.desired_velocity cfg)
                 (PlanningConfig.max_lat_acc cfg
                  / (Rabs (ReferencePointKappa ref_line (SLPoint.s sl_point))
                     + 1e-4))))
  end.

(** MotionPlanner::GetPlanningTargets *)
Definition GetPlanningTargets `{ReferenceLineOps ReferenceLine}
    (cfg : PlanningConfig.t) (ref_lines : list ReferenceLine)
    (init_point : TrajectoryPoint.t) : list (PlanningTarget.t ReferenceLine) :=
  omap (PlanningTargetOfLine cfg init_point) ref_lines.

(** ** The planning cycle *)

(** [vehicle_state::VehicleState]: [Update] and
    [GetKinoDynamicVehicleState], from the vehicle-state library. *)
Class VehicleStateOps (VehicleState EgoStatus EgoInfo : Type) : Type :=
  { Update : VehicleState -> EgoStatus -> EgoInfo -> Object.t -> VehicleState;
    GetKinoDynamicVehicleState : VehicleState -> KinoDynamicState.t }.

(** The members of [MotionPlanner] that a cycle reads or writes. *)
Module MotionPlanner.
Record t (VehicleState EgoStatus EgoInfo : Type) : Type := Build
    { ego_vehicle_id_ : Z;
      objects_map_ : gmap Z Object.t;
      traffic_light_status_list_ : gmap Z CarlaTrafficLightStatus.t;
      traffic_lights_info_list_ : gmap Z CarlaTrafficLightInfo.t;
      ego_vehicle_status_ : EgoStatus;
      ego_vehicle_info_ : EgoInfo;
      ego_object_ : Object.t;
      vehicle_state_ : VehicleState;
      has_history_trajectory_ : bool;
      history_trajectory_ : Trajectory.t }.
Arguments Build {VehicleState EgoStatus EgoInfo}.
Arguments ego_vehicle_id_ {VehicleState EgoStatus EgoInfo}.
Arguments objects_map_ {VehicleState EgoStatus EgoInfo}.
Arguments traffic_light_status_list_ {VehicleState EgoStatus EgoInfo}.
Arguments traffic_lights_info_list_ {VehicleState EgoStatus EgoInfo}.
Arguments ego_vehicle_status_ {VehicleState EgoStatus EgoInfo}.
Arguments ego_vehicle_info_ {VehicleState EgoStatus EgoInfo}.
Arguments ego_object_ {VehicleState EgoStatus EgoInfo}.
Arguments vehicle_state_ {VehicleState EgoStatus EgoInfo}.
Arguments has_history_trajectory_ {VehicleState EgoStatus EgoInfo}.
Arguments history_trajectory_ {VehicleState EgoStatus EgoInfo}.
End MotionPlanner.

Section Cycle.
Context {ReferenceLine VehicleState EgoStatus EgoInfo : Type}.
Context `{!ReferenceLineOps ReferenceLine}.
Context `{!VehicleStateOps VehicleState EgoStatus EgoInfo}.
Context `{!VehicleModel} `{!ObstaclePrediction}.

Local Abbreviation planner := (MotionPlanner.t VehicleState EgoStatus EgoInfo).

(** What the collaborators answer during one cycle:
    [reference_generator_->GetReferenceLines(&ref_lines)] (its return
    value and the lines it wrote) and [trajectory_planner_->Process]
    (its return value and the trajectory it wrote). *)
Record CycleEnv : Type := MkCycleEnv
  { GetReferenceLines : bool * list ReferenceLine;
    Process : list Obstacle.t -> TrajectoryPoint.t ->
              list (PlanningTarget.t ReferenceLine) -> bool * Trajectory.t }.

(** The two failure branches of [RunOnce]: the emergency-stop trajectory
    is generated, the history flag is cleared, stamp and status are set,
    and the trajectory is published. *)
Definition PublishEmergencyStop (cfg : PlanningConfig.t) (mp : planner)
    (current_time_stamp : R) (init_trajectory_point : TrajectoryPoint.t)
    : option (planner * option Trajectory.t) :=
  pts ← GenerateEmergencyStopTrajectory cfg init_trajectory_point;
  let optimal_trajectory :=
    Trajectory.Build current_time_stamp EMERGENCYSTOP pts in
  Some (MotionPlanner.Build
          (MotionPlanner.ego_vehicle_id_ mp)
          (MotionPlanner.objects_map_ mp)
          (MotionPlanner.traffic_light_status_list_ mp)
          (MotionPlanner.traffic_lights_info_list_ mp)
          (MotionPlanner.ego_vehicle_status_ mp)
          (MotionPlanner.ego_vehicle_info_ mp)
          (MotionPlanner.ego_object_ mp)
          (MotionPlanner.vehicle_state_ mp)
          false
          (MotionPlanner.history_trajectory_ mp),
        Some optimal_trajectory).

(** MotionPlanner::RunOnce: the planner after the cycle and the
    trajectory handed to [trajectory_publisher_], if any.  The calls that
    only reach a collaborator or the display
    ([reference_generator_->UpdateVehicleState], the [Visualize...]
    functions, the print of the number of lines) leave the planner as it
    is. *)
Definition RunOnce (cfg : PlanningConfig.t) (env : CycleEnv)
    (current_time_stamp : R) (mp : planner)
    : option (planner * option Trajectory.t) :=
  if bool_decide (MotionPlanner.ego_vehicle_id_ mp = (-1)%Z)
  then Some (mp, None) else
  match MotionPlanner.objects_map_ mp !! MotionPlanner.ego_vehicle_id_ mp with
  | None => Some (mp, None)
  | Some ego_object =>
    let vehicle_state :=
      Update (MotionPlanner.vehicle_state_ mp)
        (MotionPlanner.ego_vehicle_status_ mp)
        (MotionPlanner.ego_vehicle_info_ mp) ego_object in
    let mp1 :=
      MotionPlanner.Build
        (MotionPlanner.ego_vehicle_id_ mp)
        (MotionPlanner.objects_map_ mp)
        (MotionPlanner.traffic_light_status_list_ mp)
        (MotionPlanner.traffic_lights_info_list_ mp)
        (MotionPlanner.ego_vehicle_status_ mp)
        (MotionPlanner.ego_vehicle_info_ mp)
        ego_object
        vehicle_state
        (MotionPlanner.has_history_trajectory_ mp)
        (MotionPlanner.history_trajectory_ mp) in
    stitching_trajectory ←
      GetStitchingTrajectory cfg
        (GetKinoDynamicVehicleState vehicle_state)
        (MotionPlanner.has_history_trajectory_ mp1)
        (MotionPlanner.history_trajectory_ mp1)
        current_time_stamp
        (1.0 / IZR (PlanningConfig.loop_rate cfg))
        (PlanningConfig.preserve_history_trajectory_point_num cfg);
    init_trajectory_point ← last stitching_trajectory;
    let '(ok_lines, ref_lines) := GetReferenceLines env in
    if negb ok_lines
    then PublishEmergencyStop cfg mp1 current_time_stamp init_trajectory_point
    else
      obstacles ←
        GetKeyObstacle cfg
          (MotionPlanner.objects_map_ mp1)
          (MotionPlanner.traffic_light_status_list_ mp1)
          (MotionPlanner.traffic_lights_info_list_ mp1)
          init_trajectory_point
          (MotionPlanner.ego_vehicle_id_ mp1);
      let planning_targets :=
        GetPlanningTargets cfg ref_lines init_trajectory_point in
      let '(ok_plan, planned) :=
        Process env obstacles init_trajectory_point planning_targets in
      if negb ok_plan
      then PublishEmergencyStop cfg mp1 current_time_stamp init_trajectory_point
      else
        let points :=
          take (length stitching_trajectory - 1) stitching_trajectory
          ++ Trajectory.trajectory_points planned in
        let optimal_trajectory :=
          Trajectory.Build current_time_stamp
            (match points with [] => EMPTY | _ => NORMAL end)
            points in
        Some (MotionPlanner.Build
                (MotionPlanner.ego_vehicle_id_ mp1)
                (MotionPlanner.objects_map_ mp1)
                (MotionPlanner.traffic_light_status_list_ mp1)
                (MotionPlanner.traffic_lights_info_list_ mp1)
                (MotionPlanner.ego_vehicle_status_ mp1)
                (MotionPlanner.ego_vehicle_info_ mp1)
                (MotionPlanner.ego_object_ mp1)
                (MotionPlanner.vehicle_state_ mp1)
                true
                optimal_trajectory,
              Some optimal_trajectory)
  end.
End Cycle.

(** ** Vocabulary of the stitching claims *)

(** The invariant of a trajectory: relative times do not decrease along
    the points.  It is also what [std::lower_bound] requires of the range
    it searches. *)
Definition TimeOrdered (trajectory : list TrajectoryPoint.t) : Prop :=
  forall (i j : nat) (a b : TrajectoryPoint.t),
    (i <= j)%nat -> trajectory !! i = Some a -> trajectory !! j = Some b ->
    TrajectoryPoint.relative_time a <= TrajectoryPoint.relative_time b.

(** [time_matched_index] of [GetStitchingTrajectory]. *)
Definition TimeMatchedIndex (history_trajectory_ : Trajectory.t)
    (current_time_stamp : R) : option nat :=
  GetTimeMatchIndex (current_time_stamp - Trajectory.stamp history_trajectory_)
    1.0e-5 (Trajectory.trajectory_points history_trajectory_).

(** [forward_rel_matched_index] of [GetStitchingTrajectory]. *)
Definition ForwardMatchedIndex (history_trajectory_ : Trajectory.t)
    (current_time_stamp planning_cycle_time : R) : option nat :=
  GetTimeMatchIndex
    (current_time_stamp - Trajectory.stamp history_trajectory_
     + planning_cycle_time)
    1.0e-5 (Trajectory.trajectory_points history_trajectory_).

(** [position_matched_index] of [GetStitchingTrajectory]. *)
Definition PositionMatchedIndex (state : KinoDynamicState.t)
    (history_trajectory_ : Trajectory.t) : option nat :=
  GetPositionMatchedIndex (KinoDynamicState.x state, KinoDynamicState.y state)
    (Trajectory.trajectory_points history_trajectory_).

(** [(lat_diff, lon_diff)] of [GetStitchingTrajectory], computed from the
    time-matched and the position-matched point as the function does. *)
Definition StitchingDeviation (state : KinoDynamicState.t)
    (history_trajectory_ : Trajectory.t) (current_time_stamp : R)
    : option (R * R) :=
  let points := Trajectory.trajectory_points history_trajectory_ in
  time_matched_index ← TimeMatchedIndex history_trajectory_ current_time_stamp;
  time_matched_tp ← points !! time_matched_index;
  position_matched_index ← PositionMatchedIndex state history_trajectory_;
  position_matched_tp ← points !! position_matched_index;
  let sd :=
    GetLatAndLonDistFromRefPoint (KinoDynamicState.x state)
      (KinoDynamicState.y state)
      (TrajectoryPoint.path_point position_matched_tp) in
  Some (sd.2, PathPoint.s (TrajectoryPoint.path_point time_matched_tp) - sd.1).

(** The five returns of [ComputeReinitStitchingTrajectory] in
    [GetStitchingTrajectory], as the code decides them: no history, an empty
    history, a time match at index 0 with the current time before the first
    point, a time match on the last index, or [lat_diff] or [lon_diff], as
    the function computes them, over the threshold. *)
Definition ReinitCondition (cfg : PlanningConfig.t) (state : KinoDynamicState.t)
    (has_history_trajectory_ : bool) (history_trajectory_ : Trajectory.t)
    (current_time_stamp : R) : Prop :=
  let points := Trajectory.trajectory_points history_trajectory_ in
  has_history_trajectory_ = false
  \/ points = []
  \/ (exists front,
        head points = Some front
        /\ current_time_stamp - Trajectory.stamp history_trajectory_
           < TrajectoryPoint.relative_time front)
  \/ TimeMatchedIndex history_trajectory_ current_time_stamp
     = Some (length points - 1)%nat
  \/ (exists lat_diff lon_diff,
        StitchingDeviation state history_trajectory_ current_time_stamp
        = Some (lat_diff, lon_diff)
        /\ (PlanningConfig.max_replan_lat_distance_threshold cfg < Rabs lat_diff
            \/ PlanningConfig.max_replan_lon_distance_threshold cfg < Rabs lon_diff)).

(** ** Example inputs *)

(** A configuration with a 4 s horizon sampled every 0.5 s and a maximal
    deceleration of 3; cycle rate 10 Hz, 20 preserved points, replanning
    thresholds 0.5 (lateral) and 2.5 (longitudinal). *)
Definition example_config : PlanningConfig.t :=
  PlanningConfig.Build 4 0.5 3 2 10 10 20 0.5 2.5.

(** An origin at (0, 0) with heading 0, arc length 0 and the given
    velocity. *)
Definition example_origin (v : R) : TrajectoryPoint.t :=
  TrajectoryPoint.Build (PathPoint.Build 0 0 0 0 0 0) v 0 0 0 0.

(** A trajectory point at (x, y) with heading 0, arc length [s] and
    relative time [t]. *)
Definition example_point (x y s t : R) : TrajectoryPoint.t :=
  TrajectoryPoint.Build (PathPoint.Build x y 0 0 0 s) 0 0 0 0 t.

(** ** Position matching as the specification words it *)

(** [i] is the earliest index of [trajectory] that attains the minimal
    distance to [xy]. *)
Definition EarliestNearestIndex (xy : R * R)
    (trajectory : list TrajectoryPoint.t) (i : nat) : Prop :=
  exists p,
    trajectory !! i = Some p
    /\ (forall j q, trajectory !! j = Some q -> dist_sqr xy p <= dist_sqr xy q)
    /\ (forall j q, (j < i)%nat -> trajectory !! j = Some q ->
                    dist_sqr xy p < dist_sqr xy q).

(** ** Reinitialisation as the specification words it *)

(** The projected arc length of (x, y) in the frame of a path point: the dot
    product of the offset and the heading, added to the arc length of the
    point. *)
Definition ProjectedArcLength (x y : R) (point : PathPoint.t) : R :=
  (x - PathPoint.x point) * cos (PathPoint.theta point)
  + (y - PathPoint.y point) * sin (PathPoint.theta point)
  + PathPoint.s point.

(** The signed perpendicular offset of (x, y) from a path point: the cross
    product of the offset and the heading. *)
Definition PerpendicularOffset (x y : R) (point : PathPoint.t) : R :=
  (x - PathPoint.x point) * sin (PathPoint.theta point)
  - (y - PathPoint.y point) * cos (PathPoint.theta point).

(** The reinit triggers as the specification lists them: no history, an
    empty history, a current time before the first point, a time match on
    the last index, or a deviation over its threshold, where the lateral
    deviation is the perpendicular offset of the vehicle from the nearest
    history point and the longitudinal deviation is the arc length of the
    time-matched point less the projected arc length of the vehicle in the
    frame of the nearest point. *)
Definition ReinitTrigger (cfg : PlanningConfig.t) (state : KinoDynamicState.t)
    (has_history_trajectory_ : bool) (history_trajectory_ : Trajectory.t)
    (current_time_stamp : R) : Prop :=
  let points := Trajectory.trajectory_points history_trajectory_ in
  let x := KinoDynamicState.x state in
  let y := KinoDynamicState.y state in
  has_history_trajectory_ = false
  \/ points = []
  \/ (exists front,
        head points = Some front
        /\ current_time_stamp - Trajectory.stamp history_trajectory_
           < TrajectoryPoint.relative_time front)
  \/ TimeMatchedIndex history_trajectory_ current_time_stamp
     = Some (length points - 1)%nat
  \/ (exists time_matched_index time_matched_tp nearest_index nearest_tp,
        TimeMatchedIndex history_trajectory_ current_time_stamp
        = Some time_matched_index
        /\ points !! time_matched_index = Some time_matched_tp
        /\ EarliestNearestIndex (x, y) points nearest_index
        /\ points !! nearest_index = Some nearest_tp
        /\ (PlanningConfig.max_replan_lat_distance_threshold cfg
            < Rabs (PerpendicularOffset x y (TrajectoryPoint.path_point nearest_tp))
            \/ PlanningConfig.max_replan_lon_distance_threshold cfg
               < Rabs (PathPoint.s (TrajectoryPoint.path_point time_matched_tp)
                       - ProjectedArcLength x y
                           (TrajectoryPoint.path_point nearest_tp)))).

(** A prediction collaborator that predicts nothing, and a world of two
    objects: the ego (id 1) at the origin and a vehicle (id 2) at (3, 4),
    both at height 0. *)
Definition example_prediction : ObstaclePrediction :=
  {| PredictTrajectory := fun _ _ _ => [] |}.

Definition example_ego_object : Object.t :=
  Object.Build 1 (Point.Build 0 0 0).

Definition example_objects : gmap Z Object.t :=
  <[1%Z := example_ego_object]>
    (<[2%Z := Object.Build 2 (Point.Build 3 4 0)]> ∅).

(** A straight-line, constant-speed motion model. *)
Definition example_vehicle_model : VehicleModel :=
  {| GetNextStateAfterTime := fun st t =>
       KinoDynamicState.Build
         (KinoDynamicState.x st
          + KinoDynamicState.v st * t * cos (KinoDynamicState.theta st))
         (KinoDynamicState.y st
          + KinoDynamicState.v st * t * sin (KinoDynamicState.theta st))
         (KinoDynamicState.z st) (KinoDynamicState.theta st)
         (KinoDynamicState.kappa st) (KinoDynamicState.v st)
         (KinoDynamicState.a st) |}.

(** A history stamped at time 0 with four points one second and one metre
    apart along the x axis, and a vehicle at (1, 0) moving at speed 1. *)
Definition example_history : Trajectory.t :=
  Trajectory.Build 0 NORMAL
    [example_point 0 0 0 0; example_point 1 0 1 1;
     example_point 2 0 2 2; example_point 3 0 3 3].

Definition example_state : KinoDynamicState.t :=
  KinoDynamicState.Build 1 0 0 0 0 1 0.

(** The vehicle drifted behind the history and to its side, at
    (-1.75, 0.375). *)
Definition example_state_drifted : KinoDynamicState.t :=
  KinoDynamicState.Build (-1.75) 0.375 0 0 0 1 0.

(** Reference lines of constant curvature and length 100 on which every
    point projects to (x, y); a vehicle-state object that is the
    kinodynamic state itself and that [Update] leaves alone. *)
Definition example_reference_ops : ReferenceLineOps R :=
  {| XYToSL := fun _ x y => Some (SLPoint.Build x y);
     Length := fun _ => 100;
     IsOnLane := fun _ _ => true;
     ReferencePointKappa := fun kappa _ => kappa |}.

Definition example_vehicle_state_ops
    : VehicleStateOps KinoDynamicState.t unit unit :=
  {| Update := fun vs _ _ _ => vs;
     GetKinoDynamicVehicleState := fun vs => vs |}.

(** A planner that knows its ego (id 1), sees the example world and has no
    history yet; collaborators that return no reference line and a planner
    that fails. *)
Definition example_planner : MotionPlanner.t KinoDynamicState.t unit unit :=
  MotionPlanner.Build 1 example_objects ∅ ∅ tt tt example_ego_object
    example_state false example_history.

Definition example_env : @CycleEnv R :=
  MkCycleEnv (false, [])
    (fun _ _ _ => (false, Trajectory.Build 0 EMPTY [])).

(** ** Subscriber callbacks *)

(** [std::unordered_map::emplace]: the entry is inserted unless the key is
    already present. *)
Definition map_emplace {A : Type} (m : gmap Z A) (k : Z) (v : A) : gmap Z A :=
  match m !! k with
  | Some _ => m
  | None => <[k := v]> m
  end.

(** The loop [for (const auto &a : list) map.emplace(a.id, a);] on a map
    that was emptied first. *)
Definition emplace_all {A : Type} (key : A -> Z) (l : list A) : gmap Z A :=
  fold_left (fun m a => map_emplace m (key a) a) l ∅.

(** The callbacks of [InitSubscriber] for the object array, the traffic
    light status list and the traffic light info list: the map each one
    leaves in [objects_map_], [traffic_light_status_list_] and
    [traffic_lights_info_list_]. *)
Definition ObjectsCallback (objects : list Object.t) : gmap Z Object.t :=
  emplace_all Object.id objects.

Definition TrafficLightsCallback (traffic_lights : list CarlaTrafficLightStatus.t)
    : gmap Z CarlaTrafficLightStatus.t :=
  emplace_all CarlaTrafficLightStatus.id traffic_lights.

Definition TrafficLightsInfoCallback (traffic_lights : list CarlaTrafficLightInfo.t)
    : gmap Z CarlaTrafficLightInfo.t :=
  emplace_all CarlaTrafficLightInfo.id traffic_lights.

(** ** Potential reference lines of an agent *)

(** [planning_msgs::Lane]: its [way_points]. *)
Module Lane.
Record t (WayPoint : Type) : Type := Build { way_points : list WayPoint }.
Arguments Build {WayPoint}.
Arguments way_points {WayPoint}.
End Lane.

(** [ReferenceGenerator::RetriveReferenceLine], of the reference-generator
    library: [None] when it returns false, otherwise the line it wrote. *)
Class ReferenceRetrieval (ReferenceLine WayPoint : Type) : Type :=
  { RetriveReferenceLine :
      KinoDynamicState.t -> list WayPoint -> R -> R -> option ReferenceLine }.

(** MotionPlanner::AddAgentPotentialReferenceLines.  The pointer argument is
    [None] when null; the result is the return value and the vector behind
    the pointer afterwards. *)
Definition AddAgentPotentialReferenceLines
    {ReferenceLine WayPoint : Type} `{!ReferenceRetrieval ReferenceLine WayPoint}
    (state : KinoDynamicState.t) (lane : Lane.t WayPoint)
    (lookahead_length lookback_length : R) (smooth : bool)
    (ptr_potential_lanes : option (list ReferenceLine))
    : bool * option (list ReferenceLine) :=
  match ptr_potential_lanes with
  | None => (false, None)
  | Some potential_lanes =>
      match Lane.way_points lane with
      | [] => (false, Some potential_lanes)
      | _ =>
          match RetriveReferenceLine state (Lane.way_points lane)
                  lookahead_length lookback_length with
          | None => (false, Some potential_lanes)
          | Some ref_lane => (true, Some (potential_lanes ++ [ref_lane]))
          end
      end
  end.

(** MotionPlanner::GetAgentPotentialRefLanes.  [service] is
    [get_agent_potential_routes_client_.call]: [None] when the call fails,
    otherwise the lanes of the response. *)
Definition GetAgentPotentialRefLanes
    {ReferenceLine WayPoint : Type} `{!ReferenceRetrieval ReferenceLine WayPoint}
    (service : Z -> option (list (Lane.t WayPoint)))
    (agent_state : KinoDynamicState.t) (agent_id : Z)
    (lookahead_length lookback_length : R)
    (potential_reference_lines : option (list ReferenceLine))
    : bool * option (list ReferenceLine) :=
  match potential_reference_lines with
  | None => (false, None)
  | Some _ =>
      match service agent_id with
      | None => (false, potential_reference_lines)
      | Some lane_arrays =>
          (true,
           fold_left
             (fun ptr lane =>
                (AddAgentPotentialReferenceLines agent_state lane
                   lookahead_length lookback_length false ptr).2)
             lane_arrays potential_reference_lines)
      end
  end.

(** ** Further vocabulary and example inputs *)

(** Arc lengths do not decrease along the points. *)
Definition ArcLengthOrdered (trajectory : list TrajectoryPoint.t) : Prop :=
  forall (i j : nat) (a b : TrajectoryPoint.t),
    (i <= j)%nat -> trajectory !! i = Some a -> trajectory !! j = Some b ->
    PathPoint.s (TrajectoryPoint.path_point a)
    <= PathPoint.s (TrajectoryPoint.path_point b).

(** The origin that [GenerateEmergencyStopTrajectory] pushes after the
    resized points: the given origin with relative time 0 and acceleration
    [-max_decel]. *)
Definition EmergencyStopOrigin (cfg : PlanningConfig.t)
    (init_trajectory_point : TrajectoryPoint.t) : TrajectoryPoint.t :=
  TrajectoryPoint.Build
    (TrajectoryPoint.path_point init_trajectory_point)
    (TrajectoryPoint.vel init_trajectory_point)
    (- PlanningConfig.max_lon_acc cfg)
    (TrajectoryPoint.jerk init_trajectory_point)
    (TrajectoryPoint.steer_angle init_trajectory_point)
    0.0.

(** Collaborators that return one reference line of curvature 0.5 and a
    planner that succeeds with the origin followed by one more point. *)
Definition example_env_ok : @CycleEnv R :=
  MkCycleEnv (true, [0.5])
    (fun _ init _ =>
       (true, Trajectory.Build 0 NORMAL [init; example_point 5 0 5 5])).

(** A retrieval that turns the way points (numbers) into the line whose
    curvature is their first element, and fails on a first element 0. *)
Definition example_retrieval : ReferenceRetrieval R R :=
  {| RetriveReferenceLine := fun _ way_points _ _ =>
       match way_points with
       | [] => None
       | w :: _ => if Rltb 0 w then Some w else None
       end |}.

(** * Properties *)

(** ** Comparisons *)

Lemma Rltb_true (a b : R) : a < b -> Rltb a b = true.
Proof. intros Hab. unfold Rltb. destruct (Rlt_dec a b); [reflexivity | contradiction]. Qed.

Lemma Rltb_false (a b : R) : b <= a -> Rltb a b = false.
Proof. intros Hba. unfold Rltb. destruct (Rlt_dec a b); [lra | reflexivity]. Qed.

Lemma Rltb_spec (a b : R) : Rltb a b = true <-> a < b.
Proof.
  split; [| apply Rltb_true].
  unfold Rltb. destruct (Rlt_dec a b); [trivial | discriminate].
Qed.

Lemma Rltb_spec_false (a b : R) : Rltb a b = false <-> b <= a.
Proof.
  split; [| apply Rltb_false].
  unfold Rltb. destruct (Rlt_dec a b); [discriminate | lra].
Qed.

Lemma Rleb_true (a b : R) : a <= b -> Rleb a b = true.
Proof. intros Hab. unfold Rleb. destruct (Rle_dec a b); [reflexivity | contradiction]. Qed.

Lemma Rleb_false (a b : R) : b < a -> Rleb a b = false.
Proof. intros Hba. unfold Rleb. destruct (Rle_dec a b); [lra | reflexivity]. Qed.

(** Decide every comparison of the goal whose operands are numerals. *)
Ltac Rcompare :=
  repeat match goal with
    | |- context [Rltb ?a ?b] =>
        first [ rewrite (Rltb_true a b) by lra
              | rewrite (Rltb_false a b) by lra ]
    | |- context [Rleb ?a ?b] =>
        first [ rewrite (Rleb_true a b) by lra
              | rewrite (Rleb_false a b) by lra ]
    end.

Lemma std_min_Rmin (a b : R) : std_min a b = Rmin a b.
Proof.
  unfold std_min, Rmin, Rltb.
  destruct (Rlt_dec b a), (Rle_dec a b); lra.
Qed.

Lemma Rtrunc_IZR (d : R) (n : Z) : (0 <= n)%Z -> d = IZR n -> Rtrunc d = n.
Proof.
  intros Hn ->. unfold Rtrunc.
  rewrite Rleb_true by (apply IZR_le in Hn; exact Hn).
  symmetry. apply Int_part_spec. lra.
Qed.

Lemma Rtrunc_floor (d : R) : 0 <= d -> Rtrunc d = Int_part d.
Proof. intros Hd. unfold Rtrunc. now rewrite Rleb_true. Qed.

(** ** The deviation from a reference point *)

(** What [GetLatAndLonDistFromRefPoint] computes, for every input. *)
Lemma GetLatAndLonDistFromRefPoint_eq (x y : R) (p : PathPoint.t) :
  GetLatAndLonDistFromRefPoint x y p
  = ((x - PathPoint.x p) * cos (PathPoint.theta p)
     + sin (PathPoint.theta p) + (y - PathPoint.y p) + PathPoint.s p,
     (x - PathPoint.x p) * sin (PathPoint.theta p)
     - (y - PathPoint.y p) * cos (PathPoint.theta p)).
Proof. reflexivity. Qed.

(** C5.  The lateral component is the cross product of the offset and the
    heading for every input, but the longitudinal component is not the
    projection [(x - p.x) cos(p.theta) + (y - p.y) sin(p.theta) + p.s]: for
    the query point (0, 1) and the reference point at the origin with heading
    0 and arc length 0 the code returns 1 where the projection is 0. *)
Theorem GetLatAndLonDistFromRefPoint_longitudinal_slip :
  (forall (x y : R) (p : PathPoint.t),
      (GetLatAndLonDistFromRefPoint x y p).2
      = (x - PathPoint.x p) * sin (PathPoint.theta p)
        - (y - PathPoint.y p) * cos (PathPoint.theta p))
  /\ (let p := PathPoint.Build 0 0 0 0 0 0 in
      (GetLatAndLonDistFromRefPoint 0 1 p).1 = 1
      /\ (0 - PathPoint.x p) * cos (PathPoint.theta p)
         + (1 - PathPoint.y p) * sin (PathPoint.theta p) + PathPoint.s p = 0).
Proof.
  split; [reflexivity |].
  cbn. rewrite cos_0, sin_0. split; lra.
Qed.

(** ** Planning targets *)

Section PlanningTargets.
Context {ReferenceLine : Type} `{!ReferenceLineOps ReferenceLine}.
Variable cfg : PlanningConfig.t.

Lemma PlanningTargetOfLine_desired_vel
    (init_point : TrajectoryPoint.t) (ref_line : ReferenceLine)
    (target : PlanningTarget.t ReferenceLine) :
  PlanningTargetOfLine cfg init_point ref_line = Some target ->
  exists sl_point,
    XYToSL ref_line
      (PathPoint.x (TrajectoryPoint.path_point init_point))
      (PathPoint.y (TrajectoryPoint.path_point init_point)) = Some sl_point
    /\ PlanningTarget.ref_lane target = ref_line
    /\ PlanningTarget.desired_vel target
       = Rmin (PlanningConfig.desired_velocity cfg)
           (CurvatureSpeedBound cfg ref_line (SLPoint.s sl_point)).
Proof.
  unfold PlanningTargetOfLine.
  destruct (XYToSL ref_line _ _) as [sl_point |]; [| discriminate].
  intros [= <-]. exists sl_point. cbn.
  rewrite std_min_Rmin. auto.
Qed.

(** C9.  Every target returned by [GetPlanningTargets] comes from one of the
    reference lines, on which the origin projects to some [sl_point]; its
    desired velocity is the minimum of the configured cap and of
    max_lat_acc / (|kappa at sl_point.s| + 1e-4), hence at most the cap
    and at most that bound. *)
Theorem GetPlanningTargets_desired_vel
    (ref_lines : list ReferenceLine) (init_point : TrajectoryPoint.t) :
  Forall
    (fun target : PlanningTarget.t ReferenceLine =>
       exists sl_point,
         PlanningTarget.ref_lane target ∈ ref_lines
         /\ XYToSL (PlanningTarget.ref_lane target)
              (PathPoint.x (TrajectoryPoint.path_point init_point))
              (PathPoint.y (TrajectoryPoint.path_point init_point))
            = Some sl_point
         /\ PlanningTarget.desired_vel target
            = Rmin (PlanningConfig.desired_velocity cfg)
                (CurvatureSpeedBound cfg (PlanningTarget.ref_lane target)
                   (SLPoint.s sl_point))
         /\ PlanningTarget.desired_vel target
            <= PlanningConfig.desired_velocity cfg
         /\ PlanningTarget.desired_vel target
            <= CurvatureSpeedBound cfg (PlanningTarget.ref_lane target)
                 (SLPoint.s sl_point))
    (GetPlanningTargets cfg ref_lines init_point).
Proof.
  apply Forall_forall. intros target Hin.
  unfold GetPlanningTargets in Hin.
  apply list_elem_of_omap in Hin as (ref_line & Hline & Htarget).
  apply PlanningTargetOfLine_desired_vel in Htarget
    as (sl_point & Hsl & Hlane & Hvel).
  exists sl_point. rewrite Hlane, Hvel.
  repeat split; auto using Rmin_l, Rmin_r.
Qed.

End PlanningTargets.

(** On the example configuration (cap 10, lateral acceleration 2) a line of
    curvature 0.5 yields one target, with the curvature-limited velocity
    2 / 0.5001, below the cap. *)
Lemma GetPlanningTargets_example :
  exists target,
    @GetPlanningTargets R example_reference_ops example_config [0.5]
      (example_origin 0) = [target]
    /\ PlanningTarget.desired_vel target = 2 / 0.5001
    /\ PlanningTarget.desired_vel target < 10.
Proof.
  eexists. split; [reflexivity |].
  cbn [PlanningTarget.desired_vel example_reference_ops ReferencePointKappa
       example_config PlanningConfig.desired_velocity
       PlanningConfig.max_lat_acc SLPoint.s].
  rewrite std_min_Rmin, (Rabs_pos_eq 0.5) by lra.
  assert (Hbound : 2 / (0.5 + 1e-4) = 2 / 0.5001) by (f_equal; lra).
  assert (Hlt : 2 / 0.5001 < 10).
  { apply Rmult_lt_reg_r with 0.5001; [lra |].
    unfold Rdiv. rewrite Rmult_assoc, Rinv_l by lra. lra. }
  rewrite Hbound, Rmin_right by lra. split; [reflexivity | exact Hlt].
Qed.

(** ** The emergency-stop trajectory *)

Lemma EmergencyStopLoopFrom_length
    (kTimeGap max_decel stop_time : R) (init : TrajectoryPoint.t)
    (count : nat) (i : Z) (st : EmergencyStopLoop) :
  length (EmergencyStopLoopFrom kTimeGap max_decel stop_time init count i st)
  = count.
Proof.
  revert i st. induction count as [| count IH]; intros i st; cbn; [reflexivity |].
  now rewrite IH.
Qed.

(** For a horizon of [n >= 1] steps the generator returns [2 * n] points, the
    first [n] of which are default-constructed. *)
Lemma GenerateEmergencyStopTrajectory_points
    (cfg : PlanningConfig.t) (init : TrajectoryPoint.t) (n : Z) :
  double_to_int (PlanningConfig.max_lookahead_time cfg / PlanningConfig.delta_t cfg)
  = Some n ->
  (1 <= n)%Z ->
  exists pts,
    GenerateEmergencyStopTrajectory cfg init = Some pts
    /\ length pts = Z.to_nat (2 * n)
    /\ take (Z.to_nat n) pts = replicate (Z.to_nat n) TrajectoryPoint.default.
Proof.
  intros Hn Hpos. unfold GenerateEmergencyStopTrajectory.
  rewrite Hn. cbn [mbind option_bind].
  destruct (Z.ltb_spec n 0) as [Hneg | _]; [lia |].
  eexists. split; [reflexivity |]. split.
  - rewrite length_app, length_replicate. cbn [length].
    rewrite EmergencyStopLoopFrom_length. lia.
  - rewrite take_app_length'; [reflexivity | now rewrite length_replicate].
Qed.

Lemma example_config_num_traj_point :
  double_to_int
    (PlanningConfig.max_lookahead_time example_config
     / PlanningConfig.delta_t example_config) = Some 8%Z.
Proof.
  unfold double_to_int. cbn [example_config PlanningConfig.max_lookahead_time
    PlanningConfig.delta_t].
  rewrite (Rtrunc_IZR _ 8) by (lia || lra). reflexivity.
Qed.

(** C3.  With a horizon of 4 and a time step of 0.5, floor(4 / 0.5) = 8, but
    the trajectory generated for an origin of velocity 9 has 16 points; its
    first point is the default-constructed point (velocity 0), and the origin
    with relative time 0 and acceleration -3 is only the ninth point. *)
Theorem GenerateEmergencyStopTrajectory_resize_slip :
  exists pts,
    GenerateEmergencyStopTrajectory example_config (example_origin 9) = Some pts
    /\ Int_part (PlanningConfig.max_lookahead_time example_config
                 / PlanningConfig.delta_t example_config) = 8%Z
    /\ length pts = 16%nat
    /\ pts !! 0%nat = Some TrajectoryPoint.default
    /\ TrajectoryPoint.vel TrajectoryPoint.default = 0
    /\ pts !! 8%nat
       = Some (TrajectoryPoint.Build (PathPoint.Build 0 0 0 0 0 0) 9 (- 3) 0 0 0).
Proof.
  unfold GenerateEmergencyStopTrajectory.
  rewrite example_config_num_traj_point. cbn [mbind option_bind].
  eexists. split; [reflexivity |].
  split; [symmetry; apply Int_part_spec; cbn; lra |].
  split; [reflexivity |].
  split; [reflexivity |].
  split; [reflexivity |].
  change (Z.to_nat 8) with 8%nat. cbn. repeat f_equal; lra.
Qed.

(** Evaluate the generator on the example configuration. *)
Ltac eval_emergency_stop :=
  unfold GenerateEmergencyStopTrajectory;
  rewrite example_config_num_traj_point; cbn [mbind option_bind];
  change (Z.to_nat 8) with 8%nat; change (Z.to_nat (8 - 1)) with 7%nat;
  cbn; rewrite ?plus_IZR; Rcompare; cbn.

(** C1.  On the example configuration (horizon 4, step 0.5, deceleration 3):
    from an origin of velocity 9 the velocities after the eight default
    points are 9, 7.5 and then 10.5 six times, so the velocity rises above
    the origin's and never reaches zero; from an origin of velocity 0 the
    next velocity is -1.5 and the arc length falls from 0.375 to -0.375. *)
Theorem GenerateEmergencyStopTrajectory_velocity_slip :
  (exists pts,
      GenerateEmergencyStopTrajectory example_config (example_origin 9) = Some pts
      /\ map TrajectoryPoint.vel pts
         = replicate 8 0 ++ [9; 7.5; 10.5; 10.5; 10.5; 10.5; 10.5; 10.5])
  /\ (exists pts,
      GenerateEmergencyStopTrajectory example_config (example_origin 0) = Some pts
      /\ map TrajectoryPoint.vel (drop 8 pts)
         = [0; -1.5; 0; 0; 0; 0; 0; 0]
      /\ map (fun tp => PathPoint.s (TrajectoryPoint.path_point tp)) (drop 8 pts)
         = [0; 0.375; -0.375; -0.375; -0.375; -0.375; -0.375; -0.375]).
Proof.
  split.
  - eval_emergency_stop. eexists. split; [reflexivity |].
    cbn. repeat f_equal; lra.
  - eval_emergency_stop. eexists. split; [reflexivity |].
    cbn. split; repeat f_equal; lra.
Qed.

(** ** Position matching *)

Lemma DBL_MAX_large : 1000 < DBL_MAX.
Proof. unfold DBL_MAX. apply IZR_lt. reflexivity. Qed.

Lemma kEps_pos : 0 < kEps.
Proof. unfold kEps. lra. Qed.

(** The scan over one more point: the last point is taken exactly when its
    squared distance is below the running minimum plus [kEps], and the
    running minimum is the squared distance of the point the scan of the
    others ends on (or the incoming minimum, when it takes none). *)
Lemma PositionMatchLoop_snoc (xy : R * R) (q : TrajectoryPoint.t)
    (rest : list TrajectoryPoint.t) :
  forall (i : nat) (min_dist_sqr : R) (min_index : nat),
    exists best : R,
      PositionMatchLoop xy (rest ++ [q]) i min_dist_sqr min_index
      = (if Rltb (dist_sqr xy q) (best + kEps)
         then (i + length rest)%nat
         else PositionMatchLoop xy rest i min_dist_sqr min_index)
      /\ ((best = min_dist_sqr
           /\ PositionMatchLoop xy rest i min_dist_sqr min_index = min_index)
          \/ (exists k p,
                PositionMatchLoop xy rest i min_dist_sqr min_index = (i + k)%nat
                /\ rest !! k = Some p
                /\ best = dist_sqr xy p)).
Proof.
  induction rest as [| tp rest IH]; intros i m mi;
    cbn [app PositionMatchLoop length].
  - exists m. split; [| left; auto].
    destruct (Rltb (dist_sqr xy q) (m + kEps)); [lia | reflexivity].
  - destruct (Rltb (dist_sqr xy tp) (m + kEps)).
    + destruct (IH (S i) (dist_sqr xy tp) i) as (best & Heq & Hcase).
      exists best. split.
      * rewrite Heq. destruct (Rltb (dist_sqr xy q) (best + kEps));
          [lia | reflexivity].
      * right. destruct Hcase as [[-> Hr] | (k & p & Hr & Hp & ->)].
        -- exists 0%nat, tp. rewrite Hr. split; [lia |]. split; reflexivity.
        -- exists (S k), p. rewrite Hr. split; [lia |]. split; [exact Hp | reflexivity].
    + destruct (IH (S i) m mi) as (best & Heq & Hcase).
      exists best. split.
      * rewrite Heq. destruct (Rltb (dist_sqr xy q) (best + kEps));
          [lia | reflexivity].
      * destruct Hcase as [[-> Hr] | (k & p & Hr & Hp & ->)]; [left; auto |].
        right. exists (S k), p. rewrite Hr. split; [lia |].
        split; [exact Hp | reflexivity].
Qed.

(** The rule of the running best: appending a point to a trajectory moves
    the position match to the new point exactly when its squared distance is
    below that of the current match plus [kEps]. *)
Lemma GetPositionMatchedIndex_snoc (xy : R * R) (first : TrajectoryPoint.t)
    (rest : list TrajectoryPoint.t) (q : TrajectoryPoint.t) :
  dist_sqr xy first <= DBL_MAX ->
  exists i p,
    GetPositionMatchedIndex xy (first :: rest) = Some i
    /\ (first :: rest) !! i = Some p
    /\ GetPositionMatchedIndex xy ((first :: rest) ++ [q])
       = Some (if Rltb (dist_sqr xy q) (dist_sqr xy p + kEps)
               then length (first :: rest) else i).
Proof.
  intros Hfirst. pose proof kEps_pos as Heps.
  cbn [app GetPositionMatchedIndex PositionMatchLoop length].
  rewrite Rltb_true by lra.
  destruct (PositionMatchLoop_snoc xy q rest 1 (dist_sqr xy first) 0)
    as (best & Heq & [[-> Hr] | (k & p & Hr & Hp & ->)]); rewrite Heq, Hr.
  - exists 0%nat, first. repeat split.
  - exists (1 + k)%nat, p. repeat split. exact Hp.
Qed.

(** The position match by induction on the appended points: every later
    point is at least [kEps] farther than the match, and the match is
    farther than an earlier point by less than [kEps] for each index between
    them. *)
Lemma GetPositionMatchedIndex_bounds (xy : R * R) (first : TrajectoryPoint.t)
    (rest : list TrajectoryPoint.t) :
  dist_sqr xy first <= DBL_MAX ->
  exists i p,
    GetPositionMatchedIndex xy (first :: rest) = Some i
    /\ (first :: rest) !! i = Some p
    /\ (forall j q, (i < j)%nat -> (first :: rest) !! j = Some q ->
                    dist_sqr xy p + kEps <= dist_sqr xy q)
    /\ (forall j q, (j < i)%nat -> (first :: rest) !! j = Some q ->
                    dist_sqr xy p < dist_sqr xy q + INR (i - j) * kEps).
Proof.
  intros Hfirst. pose proof kEps_pos as Heps.
  induction rest as [| last_tp rest IH] using rev_ind.
  - exists 0%nat, first. cbn [GetPositionMatchedIndex PositionMatchLoop].
    rewrite Rltb_true by lra. split; [reflexivity |]. split; [reflexivity |].
    split.
    + intros [| j] q Hj Hq; [lia | discriminate].
    + intros j q Hj. lia.
  - destruct IH as (i & p & Hres & Hp & Hlater & Hearlier).
    destruct (GetPositionMatchedIndex_snoc xy first rest last_tp Hfirst)
      as (i' & p' & Hres' & Hp' & Hsnoc).
    rewrite Hres in Hres'. injection Hres' as <-.
    rewrite Hp in Hp'. injection Hp' as <-.
    change (first :: rest ++ [last_tp]) with ((first :: rest) ++ [last_tp]).
    assert (Hi : (i < length (first :: rest))%nat).
    { apply lookup_lt_is_Some. eauto. }
    rewrite Hsnoc.
    destruct (Rltb (dist_sqr xy last_tp) (dist_sqr xy p + kEps)) eqn:Hcmp.
    + apply Rltb_spec in Hcmp.
      exists (length (first :: rest)), last_tp.
      split; [reflexivity |]. split.
      { rewrite lookup_app_r by lia. now rewrite Nat.sub_diag. }
      split.
      * intros j q Hj Hq. apply lookup_lt_Some in Hq.
        rewrite length_app in Hq. cbn [length] in Hq, Hj. lia.
      * intros j q Hj Hq. rewrite lookup_app_l in Hq by exact Hj.
        assert (Hone : 1 <= INR (length (first :: rest) - j)).
        { change 1 with (INR 1). apply le_INR. lia. }
        destruct (Nat.lt_trichotomy j i) as [Hlt | [-> | Hgt]].
        -- specialize (Hearlier j q Hlt Hq).
           assert (Hstep : INR (i - j) + 1 <= INR (length (first :: rest) - j)).
           { rewrite <- S_INR. apply le_INR. lia. }
           pose proof (Rmult_le_compat_r kEps _ _ (Rlt_le _ _ Heps) Hstep).
           lra.
        -- rewrite Hp in Hq. injection Hq as <-.
           pose proof (Rmult_le_compat_r kEps _ _ (Rlt_le _ _ Heps) Hone).
           lra.
        -- specialize (Hlater j q Hgt Hq).
           pose proof (Rmult_le_compat_r kEps _ _ (Rlt_le _ _ Heps) Hone).
           lra.
    + apply Rltb_spec_false in Hcmp.
      exists i, p. split; [reflexivity |]. split.
      { rewrite lookup_app_l by exact Hi. exact Hp. }
      split.
      * intros j q Hj Hq.
        destruct (Nat.lt_ge_cases j (length (first :: rest))) as [Hin | Hout].
        -- rewrite lookup_app_l in Hq by exact Hin. eauto.
        -- rewrite lookup_app_r in Hq by exact Hout.
           destruct (j - length (first :: rest))%nat as [| d];
             [| destruct d; discriminate].
           injection Hq as <-. lra.
      * intros j q Hj Hq. rewrite lookup_app_l in Hq by lia. eauto.
Qed.

(** C6, as the code has it.  On a non-empty trajectory whose first point is
    within the range of a double, [GetPositionMatchedIndex] returns the
    running best of this rule: the first point is the initial best, and an
    appended point becomes the best exactly when its squared distance is
    below that of the current best plus [kEps], so a later point that is
    nearer, that ties, or that is farther by less than [kEps] replaces the
    running best.  Every point after the returned one is farther by at least
    [kEps], and the returned point is farther than an earlier point by less
    than [kEps] for each index between them. *)
Theorem GetPositionMatchedIndex_latest_within_eps
    (xy : R * R) (first : TrajectoryPoint.t) (rest : list TrajectoryPoint.t) :
  dist_sqr xy first <= DBL_MAX ->
  GetPositionMatchedIndex xy [first] = Some 0%nat
  /\ exists i p,
      GetPositionMatchedIndex xy (first :: rest) = Some i
      /\ (first :: rest) !! i = Some p
      /\ (forall q,
            GetPositionMatchedIndex xy ((first :: rest) ++ [q])
            = Some (if Rltb (dist_sqr xy q) (dist_sqr xy p + kEps)
                    then length (first :: rest) else i))
      /\ (forall j q, (i < j)%nat -> (first :: rest) !! j = Some q ->
                      dist_sqr xy p + kEps <= dist_sqr xy q)
      /\ (forall j q, (j < i)%nat -> (first :: rest) !! j = Some q ->
                      dist_sqr xy p < dist_sqr xy q + INR (i - j) * kEps).
Proof.
  intros Hfirst. pose proof kEps_pos as Heps. split.
  { cbn [GetPositionMatchedIndex PositionMatchLoop].
    now rewrite Rltb_true by lra. }
  destruct (GetPositionMatchedIndex_bounds xy first rest Hfirst)
    as (i & p & Hres & Hp & Hlater & Hearlier).
  exists i, p. split; [exact Hres |]. split; [exact Hp |].
  split; [| split; [exact Hlater | exact Hearlier]].
  intros q.
  destruct (GetPositionMatchedIndex_snoc xy first rest q Hfirst)
    as (i' & p' & Hres' & Hp' & Hsnoc).
  rewrite Hres in Hres'. injection Hres' as <-.
  rewrite Hp in Hp'. injection Hp' as <-.
  exact Hsnoc.
Qed.

(** C6, at a concrete input: two points, the second nearer. *)
Lemma GetPositionMatchedIndex_latest_within_eps_witness :
  dist_sqr (0, 0) (example_point 2 0 0 0) <= DBL_MAX
  /\ GetPositionMatchedIndex (0, 0) [example_point 2 0 0 0] = Some 0%nat
  /\ exists i p,
      GetPositionMatchedIndex (0, 0)
        [example_point 2 0 0 0; example_point 1 0 1 1] = Some i
      /\ [example_point 2 0 0 0; example_point 1 0 1 1] !! i = Some p
      /\ (forall q,
            GetPositionMatchedIndex (0, 0)
              ([example_point 2 0 0 0; example_point 1 0 1 1] ++ [q])
            = Some (if Rltb (dist_sqr (0, 0) q) (dist_sqr (0, 0) p + kEps)
                    then length [example_point 2 0 0 0; example_point 1 0 1 1]
                    else i))
      /\ (forall j q, (i < j)%nat ->
            [example_point 2 0 0 0; example_point 1 0 1 1] !! j = Some q ->
            dist_sqr (0, 0) p + kEps <= dist_sqr (0, 0) q)
      /\ (forall j q, (j < i)%nat ->
            [example_point 2 0 0 0; example_point 1 0 1 1] !! j = Some q ->
            dist_sqr (0, 0) p < dist_sqr (0, 0) q + INR (i - j) * kEps).
Proof.
  assert (H : dist_sqr (0, 0) (example_point 2 0 0 0) <= DBL_MAX).
  { pose proof DBL_MAX_large. unfold dist_sqr. cbn. lra. }
  split; [exact H |].
  exact (GetPositionMatchedIndex_latest_within_eps (0, 0)
           (example_point 2 0 0 0) [example_point 1 0 1 1] H).
Defined.

(** C6, counterexample.  For two points at the same position (1, 0) and the
    query (0, 0) the code returns index 1, while the earliest index at
    minimal distance is 0.  And for the points (1, 0) and (1, 0.001953125),
    at squared distances 1 and 1 + 2^-18, the later point is farther, by
    less than [kEps], and replaces the running best: the code returns
    index 1, which does not attain the minimal distance. *)
Lemma GetPositionMatchedIndex_tie_returns_latest :
  (GetPositionMatchedIndex (0, 0)
     [example_point 1 0 0 0; example_point 1 0 0 1] = Some 1%nat
   /\ EarliestNearestIndex (0, 0)
        [example_point 1 0 0 0; example_point 1 0 0 1] 0
   /\ ~ EarliestNearestIndex (0, 0)
        [example_point 1 0 0 0; example_point 1 0 0 1] 1)
  /\ (GetPositionMatchedIndex (0, 0)
        [example_point 1 0 0 0; example_point 1 0.001953125 0 1] = Some 1%nat
      /\ dist_sqr (0, 0) (example_point 1 0 0 0)
         < dist_sqr (0, 0) (example_point 1 0.001953125 0 1)
      /\ EarliestNearestIndex (0, 0)
           [example_point 1 0 0 0; example_point 1 0.001953125 0 1] 0).
Proof.
  pose proof DBL_MAX_large as Hmax. pose proof kEps_pos as Heps.
  split; [split; [| split] | split; [| split]].
  - cbn [GetPositionMatchedIndex PositionMatchLoop]. unfold dist_sqr.
    cbn [example_point fst snd PathPoint.x PathPoint.y TrajectoryPoint.path_point].
    Rcompare. reflexivity.
  - exists (example_point 1 0 0 0). split; [reflexivity |]. split.
    + intros [| [| j]] q Hq; cbn in Hq; try discriminate;
        injection Hq as <-; unfold dist_sqr; cbn; lra.
    + intros j q Hj. lia.
  - intros (p & Hp & _ & Hearlier).
    injection Hp as <-.
    specialize (Hearlier 0%nat (example_point 1 0 0 0) ltac:(lia) eq_refl).
    unfold dist_sqr in Hearlier. cbn in Hearlier. lra.
  - cbn [GetPositionMatchedIndex PositionMatchLoop].
    cbv [dist_sqr kEps example_point fst snd PathPoint.x PathPoint.y
         TrajectoryPoint.path_point].
    Rcompare. reflexivity.
  - cbv [dist_sqr example_point fst snd PathPoint.x PathPoint.y
         TrajectoryPoint.path_point]. lra.
  - exists (example_point 1 0 0 0). split; [reflexivity |]. split.
    + intros [| [| j]] q Hq; cbn in Hq; try discriminate;
        injection Hq as <-;
        cbv [dist_sqr example_point fst snd PathPoint.x PathPoint.y
             TrajectoryPoint.path_point]; lra.
    + intros j q Hj. lia.
Qed.

(** ** Obstacle selection *)

Lemma InKeyRange_spec (trajectory_point : TrajectoryPoint.t)
    (ego_object : Object.t) (p : Point.t) :
  InKeyRange trajectory_point ego_object p = true
  <-> PlanarDistance trajectory_point p < 50
      /\ HeightDifference ego_object p < 1.5.
Proof.
  unfold InKeyRange, radius. rewrite andb_true_iff, !Rltb_spec.
  split; intros [Hd Hh]; split; lra.
Qed.

Section KeyObstacle.
Context `{!ObstaclePrediction}.
Variable cfg : PlanningConfig.t.
Variable objects : gmap Z Object.t.
Variable traffic_light_status_list : gmap Z CarlaTrafficLightStatus.t.
Variable traffic_lights_info_list : gmap Z CarlaTrafficLightInfo.t.
Variable trajectory_point : TrajectoryPoint.t.
Variable ego_id : Z.

Lemma KeyObstacleOfObject_Some (ego_object : Object.t) (entry : Z * Object.t)
    (ob : Obstacle.t) :
  KeyObstacleOfObject cfg trajectory_point ego_object ego_id entry = Some ob
  <-> entry.1 <> ego_id
      /\ InKeyRange trajectory_point ego_object (Object.pose_position entry.2) = true
      /\ ob = make_obstacle cfg (DYNAMIC_OBJECT entry.2).
Proof.
  unfold KeyObstacleOfObject. case_bool_decide as Hid.
  - split; [discriminate | intros [Hne _]; contradiction].
  - destruct (InKeyRange _ _ _).
    + split; [intros [= <-]; auto | intros (_ & _ & ->); reflexivity].
    + split; [discriminate | intros (_ & Hfalse & _); discriminate].
Qed.

Lemma KeyObstacleOfLight_Some (ego_object : Object.t)
    (entry : Z * CarlaTrafficLightInfo.t) (ob : Obstacle.t) :
  KeyObstacleOfLight cfg traffic_light_status_list trajectory_point ego_object
    entry = Some ob ->
  exists light_status,
    traffic_light_status_list !! entry.1 = Some light_status
    /\ InKeyRange trajectory_point ego_object
         (CarlaTrafficLightInfo.trigger_volume_center entry.2) = true
    /\ ob = make_obstacle cfg (TRAFFIC_SIGNAL entry.2 light_status).
Proof.
  unfold KeyObstacleOfLight.
  destruct (traffic_light_status_list !! entry.1) as [light_status |];
    [| discriminate].
  intros Hob. exists light_status.
  destruct (CarlaTrafficLightStatus.state light_status);
    try discriminate;
    destruct (InKeyRange _ _ _); try discriminate;
    injection Hob as <-; auto.
Qed.

(** C8.  When the objects map holds the ego, [GetKeyObstacle] returns a
    list in which every obstacle built from a dynamic object comes from an
    entry whose key is not the ego id, every obstacle (dynamic object or
    traffic signal) lies at planar distance below 50 from the origin point,
    and the obstacle of a non-ego entry is in the list exactly when its
    planar distance is below 50 and its height difference from the ego's
    entry is below 1.5. *)
Theorem GetKeyObstacle_selection (ego_object : Object.t) :
  objects !! ego_id = Some ego_object ->
  exists obstacles,
    GetKeyObstacle cfg objects traffic_light_status_list
      traffic_lights_info_list trajectory_point ego_id = Some obstacles
    /\ Forall
         (fun ob =>
            match Obstacle.source ob with
            | DYNAMIC_OBJECT object =>
                (exists k, k <> ego_id /\ objects !! k = Some object)
                /\ PlanarDistance trajectory_point (Object.pose_position object) < 50
            | TRAFFIC_SIGNAL light_info light_status =>
                (exists k, traffic_lights_info_list !! k = Some light_info
                           /\ traffic_light_status_list !! k = Some light_status)
                /\ PlanarDistance trajectory_point
                     (CarlaTrafficLightInfo.trigger_volume_center light_info) < 50
            end)
         obstacles
    /\ forall k object,
         objects !! k = Some object -> k <> ego_id ->
         (make_obstacle cfg (DYNAMIC_OBJECT object) ∈ obstacles
          <-> PlanarDistance trajectory_point (Object.pose_position object) < 50
              /\ HeightDifference ego_object (Object.pose_position object) < 1.5).
Proof.
  intros Hego. unfold GetKeyObstacle. rewrite Hego. cbn [mbind option_bind].
  eexists. split; [reflexivity |]. split.
  - apply Forall_forall. intros ob Hin.
    apply elem_of_app in Hin as [Hin | Hin];
      apply list_elem_of_omap in Hin as ([k v] & Hentry & Hob);
      apply elem_of_map_to_list in Hentry.
    + apply KeyObstacleOfObject_Some in Hob as (Hne & Hrange & ->).
      apply InKeyRange_spec in Hrange as [Hdist _]. cbn in *. eauto.
    + apply KeyObstacleOfLight_Some in Hob as (light_status & Hst & Hrange & ->).
      apply InKeyRange_spec in Hrange as [Hdist _]. cbn in *. eauto.
  - intros k object Hk Hne. rewrite <- InKeyRange_spec. split.
    + intros Hin.
      apply elem_of_app in Hin as [Hin | Hin];
        apply list_elem_of_omap in Hin as ([k' v] & Hentry & Hob).
      * apply KeyObstacleOfObject_Some in Hob as (_ & Hrange & Heq).
        injection Heq as ->. exact Hrange.
      * apply KeyObstacleOfLight_Some in Hob as (light_status & _ & _ & Heq).
        discriminate Heq.
    + intros Hrange. apply elem_of_app. left.
      apply list_elem_of_omap. exists (k, object). split.
      * apply elem_of_map_to_list. exact Hk.
      * apply KeyObstacleOfObject_Some. auto.
Qed.

End KeyObstacle.

(** C8, at a concrete input: the example world, ego id 1, origin at (0, 0);
    the vehicle at (3, 4), 5 away, is selected. *)
Lemma GetKeyObstacle_selection_witness :
  example_objects !! 1%Z = Some example_ego_object
  /\ exists obstacles,
      @GetKeyObstacle example_prediction example_config example_objects ∅ ∅
        (example_origin 0) 1 = Some obstacles
      /\ @make_obstacle example_prediction example_config
           (DYNAMIC_OBJECT (Object.Build 2 (Point.Build 3 4 0))) ∈ obstacles.
Proof.
  assert (H : example_objects !! 1%Z = Some example_ego_object)
    by reflexivity.
  split; [exact H |].
  destruct (@GetKeyObstacle_selection example_prediction example_config
              example_objects ∅ ∅ (example_origin 0) 1 example_ego_object H)
    as (obstacles & Hsome & _ & Hiff).
  exists obstacles. split; [exact Hsome |].
  apply (Hiff 2%Z (Object.Build 2 (Point.Build 3 4 0)));
    [reflexivity | lia |].
  unfold PlanarDistance, HeightDifference, std_hypot.
  cbn [example_origin example_ego_object TrajectoryPoint.path_point
       PathPoint.x PathPoint.y Object.pose_position Point.x Point.y Point.z].
  replace ((0 - 3) * (0 - 3) + (0 - 4) * (0 - 4)) with (5 * 5) by lra.
  rewrite sqrt_square by lra.
  rewrite Rabs_pos_eq by lra. split; lra.
Defined.

(** ** Bisection *)

Section LowerBound.
Context {A : Type}.
Variable comp : A -> bool.
Variable l : list A.

(** The range is partitioned with respect to [comp]: the elements for
    which it holds come first. *)
Hypothesis partitioned :
  forall (i j : nat) (a b : A),
    (i <= j)%nat -> l !! i = Some a -> l !! j = Some b ->
    comp b = true -> comp a = true.

Lemma lower_bound_loop_spec (fuel : nat) :
  forall first len : nat,
    (len <= fuel)%nat -> (first + len <= length l)%nat ->
    (forall i a, (i < first)%nat -> l !! i = Some a -> comp a = true) ->
    (forall i a, (first + len <= i)%nat -> l !! i = Some a -> comp a = false) ->
    (first <= lower_bound_loop comp l fuel first len <= first + len)%nat
    /\ (forall i a, (i < lower_bound_loop comp l fuel first len)%nat ->
                    l !! i = Some a -> comp a = true)
    /\ (forall i a, (lower_bound_loop comp l fuel first len <= i)%nat ->
                    l !! i = Some a -> comp a = false).
Proof using partitioned.
  induction fuel as [| fuel IH]; intros first len Hfuel Hlen Hlow Hhigh.
  - cbn. replace (first + len)%nat with first in Hhigh by lia.
    split; [lia | auto].
  - cbn [lower_bound_loop].
    destruct (Nat.eqb_spec len 0) as [-> | Hpos].
    + replace (first + 0)%nat with first in Hhigh by lia.
      split; [lia | auto].
    + assert (Hhalf : (Nat.div2 len < len)%nat) by (apply Nat.lt_div2; lia).
      generalize dependent (Nat.div2 len). intros half Hhalf.
      destruct (lookup_lt_is_Some_2 l (first + half)%nat ltac:(lia))
        as [a Ha].
      rewrite Ha. destruct (comp a) eqn:Hcomp.
      * destruct (IH (S (first + half)) (len - half - 1)%nat)
          as (Hrange & Hbelow & Habove); try lia.
        -- intros i b Hi Hb. apply (partitioned i (first + half)%nat b a);
             [lia | exact Hb | exact Ha | exact Hcomp].
        -- intros i b Hi Hb. apply (Hhigh i b); [lia | exact Hb].
        -- split; [lia | auto].
      * destruct (IH first (half)) as (Hrange & Hbelow & Habove);
          try lia; auto.
        -- intros i b Hi Hb. destruct (comp b) eqn:Hcompb; [| reflexivity].
           rewrite <- Hcomp. symmetry.
           apply (partitioned (first + half)%nat i a b);
             [lia | exact Ha | exact Hb | exact Hcompb].
        -- split; [lia | auto].
Qed.

(** On a partitioned range, [lower_bound] returns the partition point. *)
Lemma lower_bound_spec :
  (lower_bound comp l <= length l)%nat
  /\ (forall i a, (i < lower_bound comp l)%nat -> l !! i = Some a -> comp a = true)
  /\ (forall i a, (lower_bound comp l <= i)%nat -> l !! i = Some a -> comp a = false).
Proof using partitioned.
  unfold lower_bound.
  destruct (lower_bound_loop_spec (length l) 0 (length l))
    as (Hrange & Hbelow & Habove); try lia.
  - intros i a Hi Ha. apply lookup_lt_Some in Ha. lia.
  - split; [lia | auto].
Qed.

End LowerBound.

(** ** Time matching *)

Lemma GetTimeMatchIndex_Some (relative eps : R)
    (trajectory : list TrajectoryPoint.t) :
  trajectory <> [] ->
  exists r, GetTimeMatchIndex relative eps trajectory = Some r.
Proof.
  intros Hne. unfold GetTimeMatchIndex.
  destruct (last trajectory) as [back |] eqn:Hlast.
  - cbn. destruct (Rltb _ _); eauto.
  - apply last_None in Hlast. contradiction.
Qed.

Section TimeMatch.
Variable trajectory : list TrajectoryPoint.t.
Variable eps : R.
Hypothesis ordered : TimeOrdered trajectory.
Hypothesis eps_nonneg : 0 <= eps.

Lemma TimeOrdered_partitioned (relative : R) :
  forall (i j : nat) (a b : TrajectoryPoint.t),
    (i <= j)%nat -> trajectory !! i = Some a -> trajectory !! j = Some b ->
    Rltb (TrajectoryPoint.relative_time b + eps) relative = true ->
    Rltb (TrajectoryPoint.relative_time a + eps) relative = true.
Proof using ordered.
  intros i j a b Hij Ha Hb Hcmp. apply Rltb_spec in Hcmp. apply Rltb_true.
  pose proof (ordered i j a b Hij Ha Hb). lra.
Qed.

(** The index returned by [GetTimeMatchIndex] on a time-ordered trajectory:
    the last index when [relative] is past the last point, otherwise the
    first index whose relative time plus [eps] reaches [relative]. *)
Lemma GetTimeMatchIndex_spec (relative : R) (back : TrajectoryPoint.t) :
  last trajectory = Some back ->
  exists r,
    GetTimeMatchIndex relative eps trajectory = Some r
    /\ (r < length trajectory)%nat
    /\ (TrajectoryPoint.relative_time back < relative ->
        r = (length trajectory - 1)%nat)
    /\ (relative <= TrajectoryPoint.relative_time back ->
        (forall i a, (i < r)%nat -> trajectory !! i = Some a ->
                     TrajectoryPoint.relative_time a + eps < relative)
        /\ (forall i a, (r <= i)%nat -> trajectory !! i = Some a ->
                        relative <= TrajectoryPoint.relative_time a + eps)).
Proof using ordered eps_nonneg.
  intros Hlast. unfold GetTimeMatchIndex. rewrite Hlast. cbn [mbind option_bind].
  assert (Hlen : (0 < length trajectory)%nat).
  { destruct trajectory; [discriminate | cbn; lia]. }
  destruct (Rltb (TrajectoryPoint.relative_time back) relative) eqn:Hpast.
  - apply Rltb_spec in Hpast. eexists. split; [reflexivity |].
    split; [lia |]. split; [reflexivity | lra].
  - apply Rltb_spec_false in Hpast.
    destruct (lower_bound_spec _ trajectory (TimeOrdered_partitioned relative))
      as (Hrange & Hbelow & Habove).
    eexists. split; [reflexivity |].
    assert (Hback : trajectory !! (length trajectory - 1)%nat = Some back).
    { rewrite last_lookup in Hlast.
      now replace (length trajectory - 1)%nat with (pred (length trajectory)) by lia. }
    split; [| split; [lra |]].
    + destruct (Nat.lt_ge_cases
                  (lower_bound
                     (fun tp => Rltb (TrajectoryPoint.relative_time tp + eps) relative)
                     trajectory) (length trajectory)) as [Hlt | Hge]; [exact Hlt |].
      specialize (Hbelow (length trajectory - 1)%nat back ltac:(lia) Hback).
      apply Rltb_spec in Hbelow. lra.
    + intros _. split.
      * intros i a Hi Ha. apply Rltb_spec. eauto.
      * intros i a Hi Ha. apply Rltb_spec_false. eauto.
Qed.

(** A later query time never matches an earlier index. *)
Lemma GetTimeMatchIndex_mono (relative relative' : R) (r r' : nat) :
  relative <= relative' ->
  GetTimeMatchIndex relative eps trajectory = Some r ->
  GetTimeMatchIndex relative' eps trajectory = Some r' ->
  (r <= r')%nat.
Proof using ordered eps_nonneg.
  intros Hle Hr Hr'.
  destruct (last trajectory) as [back |] eqn:Hlast;
    [| unfold GetTimeMatchIndex in Hr; rewrite Hlast in Hr; discriminate].
  destruct (GetTimeMatchIndex_spec relative back Hlast)
    as (q & Hq & Hqlt & Hqpast & Hqin).
  destruct (GetTimeMatchIndex_spec relative' back Hlast)
    as (q' & Hq' & Hqlt' & Hqpast' & Hqin').
  rewrite Hr in Hq. injection Hq as <-.
  rewrite Hr' in Hq'. injection Hq' as <-.
  destruct (Rlt_le_dec (TrajectoryPoint.relative_time back) relative') as [Hpast | Hin].
  - rewrite (Hqpast' Hpast). lia.
  - destruct (Hqin ltac:(lra)) as [Hbelow _].
    destruct (Hqin' Hin) as [_ Habove'].
    destruct (Nat.le_gt_cases r r') as [Hok | Hgt]; [exact Hok |].
    destruct (lookup_lt_is_Some_2 trajectory r' ltac:(lia)) as [a Ha].
    specialize (Hbelow r' a Hgt Ha).
    specialize (Habove' r' a ltac:(lia) Ha). lra.
Qed.

(** A query time before the first point matches index 0. *)
Lemma GetTimeMatchIndex_before_front (relative : R) (front : TrajectoryPoint.t) :
  head trajectory = Some front ->
  relative < TrajectoryPoint.relative_time front ->
  GetTimeMatchIndex relative eps trajectory = Some 0%nat.
Proof using ordered eps_nonneg.
  intros Hfront Hbefore.
  assert (Hfront0 : trajectory !! 0%nat = Some front).
  { destruct trajectory; [discriminate | exact Hfront]. }
  destruct (last trajectory) as [back |] eqn:Hlast;
    [| apply last_None in Hlast; rewrite Hlast in Hfront; discriminate].
  assert (Hback : trajectory !! (length trajectory - 1)%nat = Some back).
  { rewrite last_lookup in Hlast.
    now replace (length trajectory - 1)%nat with (pred (length trajectory)) by lia. }
  pose proof (ordered 0%nat (length trajectory - 1)%nat front back ltac:(lia) Hfront0 Hback)
    as Hspan.
  destruct (GetTimeMatchIndex_spec relative back Hlast)
    as (r & Hr & _ & _ & Hin).
  rewrite Hr. f_equal.
  destruct (Hin ltac:(lra)) as [Hbelow _].
  destruct r as [| r]; [reflexivity |].
  specialize (Hbelow 0%nat front ltac:(lia) Hfront0). lra.
Qed.

End TimeMatch.

(** ** Range of the position match *)

Lemma PositionMatchLoop_range (xy : R * R) (rest : list TrajectoryPoint.t) :
  forall (i : nat) (min_dist_sqr : R) (min_index : nat),
    PositionMatchLoop xy rest i min_dist_sqr min_index = min_index
    \/ (i <= PositionMatchLoop xy rest i min_dist_sqr min_index < i + length rest)%nat.
Proof.
  induction rest as [| tp rest IH]; intros i m mi; cbn [PositionMatchLoop length].
  - left. reflexivity.
  - destruct (Rltb (dist_sqr xy tp) (m + kEps)).
    + right. destruct (IH (S i) (dist_sqr xy tp) i) as [-> | Hr]; lia.
    + destruct (IH (S i) m mi) as [-> | Hr]; [left; reflexivity | right; lia].
Qed.

Lemma GetPositionMatchedIndex_range (xy : R * R)
    (trajectory : list TrajectoryPoint.t) :
  trajectory <> [] ->
  exists r,
    GetPositionMatchedIndex xy trajectory = Some r
    /\ (r < length trajectory)%nat.
Proof.
  intros Hne. destruct trajectory as [| tp rest]; [contradiction |].
  cbn [GetPositionMatchedIndex]. eexists. split; [reflexivity |].
  destruct (PositionMatchLoop_range xy (tp :: rest) 0 DBL_MAX 0) as [-> | Hr];
    cbn [length] in *; lia.
Qed.

(** ** The start of the stitched slice *)

Lemma size_t_to_int_le (z : Z) : (0 <= z)%Z -> (size_t_to_int z <= z)%Z.
Proof.
  intros Hz. unfold size_t_to_int.
  pose proof (Z.mod_le (z + 2 ^ 31) (2 ^ 32) ltac:(lia) ltac:(lia)). lia.
Qed.

(** When [preserve_points_num] fits an [int], the start index is between 0
    and [matched_index]. *)
Lemma StitchingStartIndex_bounds (matched_index preserve_points_num : Z) :
  (0 <= matched_index)%Z ->
  (0 <= preserve_points_num < 2 ^ 31)%Z ->
  (0 <= StitchingStartIndex matched_index preserve_points_num <= matched_index)%Z.
Proof.
  intros Hm Hp. unfold StitchingStartIndex. split; [lia |].
  apply Z.max_lub; [lia |].
  destruct (Z.le_gt_cases preserve_points_num matched_index) as [Hle | Hgt].
  - etransitivity; [apply size_t_to_int_le; unfold size_t_sub; apply Z.mod_pos_bound; lia |].
    unfold size_t_sub.
    pose proof (Z.mod_le (matched_index - preserve_points_num) (2 ^ 64)
                  ltac:(lia) ltac:(lia)). lia.
  - unfold size_t_to_int, size_t_sub.
    replace ((matched_index - preserve_points_num) mod 2 ^ 64)%Z
      with (matched_index - preserve_points_num + 2 ^ 64)%Z.
    + replace (matched_index - preserve_points_num + 2 ^ 64 + 2 ^ 31)%Z
        with (matched_index - preserve_points_num + 2 ^ 31 + 2 ^ 32 * 2 ^ 32)%Z
        by lia.
      rewrite Z.mod_add by lia.
      rewrite Z.mod_small by lia. lia.
    + apply Z.mod_unique with (q := (-1)%Z); lia.
Qed.

(** When both operands are below 2^31 the cast recovers the difference. *)
Lemma StitchingStartIndex_exact (matched_index preserve_points_num : Z) :
  (0 <= matched_index < 2 ^ 31)%Z ->
  (0 <= preserve_points_num < 2 ^ 31)%Z ->
  StitchingStartIndex matched_index preserve_points_num
  = Z.max 0 (matched_index - preserve_points_num).
Proof.
  intros Hm Hp. unfold StitchingStartIndex, size_t_to_int, size_t_sub. f_equal.
  destruct (Z.le_gt_cases preserve_points_num matched_index) as [Hle | Hgt].
  - rewrite (Z.mod_small (matched_index - preserve_points_num)) by lia.
    rewrite Z.mod_small by lia. lia.
  - replace ((matched_index - preserve_points_num) mod 2 ^ 64)%Z
      with (matched_index - preserve_points_num + 2 ^ 64)%Z.
    + replace (matched_index - preserve_points_num + 2 ^ 64 + 2 ^ 31)%Z
        with (matched_index - preserve_points_num + 2 ^ 31 + 2 ^ 32 * 2 ^ 32)%Z
        by lia.
      rewrite Z.mod_add by lia.
      rewrite Z.mod_small by lia. lia.
    + apply Z.mod_unique with (q := (-1)%Z); lia.
Qed.

Lemma vector_slice_nonempty {A : Type} (l : list A) (start stop : nat) :
  (start < stop <= length l)%nat ->
  exists slice,
    vector_slice l start stop = Some slice
    /\ slice = take (stop - start) (drop start l)
    /\ length slice = (stop - start)%nat
    /\ last slice = l !! (stop - 1)%nat.
Proof.
  intros Hrange. unfold vector_slice.
  destruct (Nat.leb_spec start stop) as [_ | Hbad]; [| lia].
  destruct (Nat.leb_spec stop (length l)) as [_ | Hbad]; [| lia].
  cbn. eexists. split; [reflexivity |]. split; [reflexivity |].
  assert (Hlen : length (take (stop - start) (drop start l)) = (stop - start)%nat).
  { rewrite length_take, length_drop. lia. }
  split; [exact Hlen |].
  rewrite last_lookup, Hlen.
  rewrite lookup_take_lt by lia. rewrite lookup_drop. f_equal. lia.
Qed.

(** ** Stitching *)

Lemma eps_time_nonneg : 0 <= 1.0e-5.
Proof. lra. Qed.

Section Stitching.
Context `{!VehicleModel}.
Variable cfg : PlanningConfig.t.
Variable state : KinoDynamicState.t.
Variable has_history_trajectory_ : bool.
Variable history_trajectory_ : Trajectory.t.
Variable current_time_stamp planning_cycle_time : R.
Variable preserve_points_num : Z.

Local Abbreviation points := (Trajectory.trajectory_points history_trajectory_).
Local Abbreviation relative_time :=
  (current_time_stamp - Trajectory.stamp history_trajectory_).
Local Abbreviation stitched :=
  (GetStitchingTrajectory cfg state has_history_trajectory_ history_trajectory_
     current_time_stamp planning_cycle_time preserve_points_num).
Local Abbreviation reinit :=
  (ComputeReinitStitchingTrajectory planning_cycle_time state).

Hypothesis ordered : TimeOrdered points.

(** The decision of [GetStitchingTrajectory] on a time-ordered history:
    either one of the reinit conditions holds and the one-point
    reinitialisation is returned, or none holds and the history is
    stitched. *)
Lemma GetStitchingTrajectory_decision :
  (ReinitCondition cfg state has_history_trajectory_ history_trajectory_
     current_time_stamp
   /\ stitched = Some reinit)
  \/ (has_history_trajectory_ = true
      /\ exists front ti pi lat_diff lon_diff,
          head points = Some front
          /\ TrajectoryPoint.relative_time front <= relative_time
          /\ TimeMatchedIndex history_trajectory_ current_time_stamp = Some ti
          /\ (ti < length points - 1)%nat
          /\ PositionMatchedIndex state history_trajectory_ = Some pi
          /\ StitchingDeviation state history_trajectory_ current_time_stamp
             = Some (lat_diff, lon_diff)
          /\ Rabs lat_diff <= PlanningConfig.max_replan_lat_distance_threshold cfg
          /\ Rabs lon_diff <= PlanningConfig.max_replan_lon_distance_threshold cfg
          /\ stitched
             = StitchHistory history_trajectory_ current_time_stamp
                 planning_cycle_time preserve_points_num pi ti).
Proof using ordered.
  unfold GetStitchingTrajectory, ReinitCondition.
  destruct has_history_trajectory_; cbn [negb]; [| left; auto].
  destruct points as [| front rest] eqn:Hpts; [left; auto |].
  rewrite <- Hpts in *.
  assert (Hne : points <> []) by (rewrite Hpts; discriminate).
  assert (Hfront : head points = Some front) by (rewrite Hpts; reflexivity).
  destruct (last points) as [back |] eqn:Hlast;
    [| apply last_None in Hlast; contradiction].
  destruct (GetTimeMatchIndex_spec points _ ordered eps_time_nonneg relative_time
              back Hlast) as (ti & Hti & Hti_lt & _ & _).
  rewrite Hti. cbn [mbind option_bind].
  destruct ((ti =? 0)%nat && Rltb relative_time (TrajectoryPoint.relative_time front))
    eqn:Hbefore.
  { left. split; [| reflexivity]. right. right. left. exists front.
    apply andb_true_iff in Hbefore as [_ Hbefore%Rltb_spec]. rewrite Hpts. auto. }
  assert (Hspan : TrajectoryPoint.relative_time front <= relative_time).
  { destruct (Rlt_le_dec relative_time (TrajectoryPoint.relative_time front))
      as [Hlt | Hle]; [| exact Hle].
    pose proof (GetTimeMatchIndex_before_front points _ ordered eps_time_nonneg
                  relative_time front Hfront Hlt) as Hzero.
    rewrite Hti in Hzero. injection Hzero as ->.
    rewrite (Rltb_true _ _ Hlt) in Hbefore. discriminate. }
  destruct (Nat.leb_spec (length points - 1) ti) as [Hlast_idx | Hinner].
  { left. split; [| reflexivity]. right. right. right. left.
    unfold TimeMatchedIndex. rewrite Hti. f_equal. lia. }
  destruct (lookup_lt_is_Some_2 points ti ltac:(lia)) as [time_matched_tp Http].
  rewrite Http. cbn [mbind option_bind].
  destruct (GetPositionMatchedIndex_range
              (KinoDynamicState.x state, KinoDynamicState.y state) points Hne)
    as (pi & Hpi & Hpi_lt).
  rewrite Hpi. cbn [mbind option_bind].
  destruct (lookup_lt_is_Some_2 points pi Hpi_lt) as [position_matched_tp Hptp].
  rewrite Hptp. cbn [mbind option_bind].
  set (sd := GetLatAndLonDistFromRefPoint (KinoDynamicState.x state)
               (KinoDynamicState.y state)
               (TrajectoryPoint.path_point position_matched_tp)).
  assert (Hdev : StitchingDeviation state history_trajectory_ current_time_stamp
                 = Some (sd.2, PathPoint.s (TrajectoryPoint.path_point time_matched_tp)
                               - sd.1)).
  { unfold StitchingDeviation, TimeMatchedIndex, PositionMatchedIndex.
    rewrite Hti. cbn [mbind option_bind]. rewrite Http. cbn [mbind option_bind].
    rewrite Hpi. cbn [mbind option_bind]. rewrite Hptp. reflexivity. }
  destruct (Rltb (PlanningConfig.max_replan_lat_distance_threshold cfg) (Rabs sd.2))
    eqn:Hlat.
  { left. split; [| reflexivity]. do 4 right.
    apply Rltb_spec in Hlat. eauto. }
  destruct (Rltb (PlanningConfig.max_replan_lon_distance_threshold cfg)
              (Rabs (PathPoint.s (TrajectoryPoint.path_point time_matched_tp) - sd.1)))
    eqn:Hlon.
  { left. split; [| reflexivity]. do 4 right.
    apply Rltb_spec in Hlon. eauto. }
  apply Rltb_spec_false in Hlat, Hlon.
  right. split; [reflexivity |].
  exists front, ti, pi, sd.2,
    (PathPoint.s (TrajectoryPoint.path_point time_matched_tp) - sd.1).
  repeat split; auto.
Qed.

(** The conditions of the stitched branch exclude every reinit condition. *)
Lemma ReinitCondition_excluded
    (front : TrajectoryPoint.t) (ti : nat) (lat_diff lon_diff : R) :
  has_history_trajectory_ = true ->
  head points = Some front ->
  TrajectoryPoint.relative_time front <= relative_time ->
  TimeMatchedIndex history_trajectory_ current_time_stamp = Some ti ->
  (ti < length points - 1)%nat ->
  StitchingDeviation state history_trajectory_ current_time_stamp
  = Some (lat_diff, lon_diff) ->
  Rabs lat_diff <= PlanningConfig.max_replan_lat_distance_threshold cfg ->
  Rabs lon_diff <= PlanningConfig.max_replan_lon_distance_threshold cfg ->
  ~ ReinitCondition cfg state has_history_trajectory_ history_trajectory_
      current_time_stamp.
Proof.
  intros Hhist Hfront Hspan Hti Hinner Hdev Hlat Hlon
    [Hno | [Hempty | [(front' & Hfront' & Hbefore) | [Hlast | Hexceed]]]].
  - congruence.
  - rewrite Hempty in Hfront. discriminate.
  - rewrite Hfront in Hfront'. injection Hfront' as <-. lra.
  - rewrite Hti in Hlast. injection Hlast as ->. lia.
  - destruct Hexceed as (lat' & lon' & Hdev' & Hover).
    rewrite Hdev in Hdev'. injection Hdev' as <- <-. lra.
Qed.

Hypothesis cycle_nonneg : 0 <= planning_cycle_time.
Hypothesis preserve_fits_int : (0 <= preserve_points_num < 2 ^ 31)%Z.

(** The stitched slice, when the time match is not the last index. *)
Lemma StitchHistory_slice (pi ti : nat) :
  TimeMatchedIndex history_trajectory_ current_time_stamp = Some ti ->
  (ti < length points - 1)%nat ->
  exists fi fwd_tp,
    ForwardMatchedIndex history_trajectory_ current_time_stamp
      planning_cycle_time = Some fi
    /\ (Z.to_nat (StitchingStartIndex (Z.of_nat (Nat.min pi ti))
                    preserve_points_num) <= Nat.min pi ti)%nat
    /\ (ti <= fi < length points)%nat
    /\ points !! fi = Some fwd_tp
    /\ last (take (fi + 1
                   - Z.to_nat (StitchingStartIndex
                                 (Z.of_nat (Nat.min pi ti))
                                 preserve_points_num))
               (drop (Z.to_nat (StitchingStartIndex
                                  (Z.of_nat (Nat.min pi ti))
                                  preserve_points_num))
                  points)) = Some fwd_tp
    /\ StitchHistory history_trajectory_ current_time_stamp
         planning_cycle_time preserve_points_num pi ti
       = Some (map (RebaseTrajectoryPoint
                      (Trajectory.stamp history_trajectory_ - current_time_stamp)
                      (PathPoint.s (TrajectoryPoint.path_point fwd_tp)))
                 (take (fi + 1
                        - Z.to_nat (StitchingStartIndex
                                      (Z.of_nat (Nat.min pi ti))
                                      preserve_points_num))
                    (drop (Z.to_nat (StitchingStartIndex
                                       (Z.of_nat (Nat.min pi ti))
                                       preserve_points_num))
                       points))).
Proof using ordered cycle_nonneg preserve_fits_int.
  intros Hti Hinner. unfold StitchHistory, ForwardMatchedIndex.
  destruct (last points) as [back |] eqn:Hlast;
    [| apply last_None in Hlast; rewrite Hlast in Hinner; cbn in Hinner; lia].
  destruct (GetTimeMatchIndex_spec points _ ordered eps_time_nonneg
              (relative_time + planning_cycle_time) back Hlast)
    as (fi & Hfi & Hfi_lt & _ & _).
  assert (Hmono : (ti <= fi)%nat).
  { apply (GetTimeMatchIndex_mono points _ ordered eps_time_nonneg
             relative_time (relative_time + planning_cycle_time));
      [lra | exact Hti | exact Hfi]. }
  rewrite Hfi. cbn [mbind option_bind].
  pose proof (StitchingStartIndex_bounds (Z.of_nat (Nat.min pi ti))
                preserve_points_num ltac:(lia) preserve_fits_int) as Hstart.
  set (start := Z.to_nat (StitchingStartIndex (Z.of_nat (Nat.min pi ti))
                            preserve_points_num)) in *.
  assert (Hstart_le : (start <= Nat.min pi ti)%nat) by (unfold start; lia).
  destruct (vector_slice_nonempty points start (fi + 1) ltac:(lia))
    as (slice & Hslice & Hslice_eq & _ & Hslice_last).
  rewrite Hslice. cbn [mbind option_bind].
  destruct (lookup_lt_is_Some_2 points fi Hfi_lt) as [fwd_tp Hfwd].
  replace (fi + 1 - 1)%nat with fi in Hslice_last by lia.
  rewrite Hslice_last, Hfwd. cbn [mbind option_bind].
  exists fi, fwd_tp. rewrite Hslice_eq in *.
  repeat split; auto; try lia. congruence.
Qed.

End Stitching.

Lemma last_map {A B : Type} (f : A -> B) (l : list A) :
  last (map f l) = option_map f (last l).
Proof.
  induction l as [| a [| b l] IH]; [reflexivity | reflexivity |].
  change (map f (a :: b :: l)) with (f a :: f b :: map f l).
  rewrite !last_cons_cons. exact IH.
Qed.

(** The lateral deviation of the code is the perpendicular offset from the
    position-matched point. *)
Lemma StitchingDeviation_lateral (state : KinoDynamicState.t)
    (history_trajectory_ : Trajectory.t) (current_time_stamp : R)
    (lat_diff lon_diff : R) (pi : nat) (position_matched_tp : TrajectoryPoint.t) :
  StitchingDeviation state history_trajectory_ current_time_stamp
  = Some (lat_diff, lon_diff) ->
  PositionMatchedIndex state history_trajectory_ = Some pi ->
  Trajectory.trajectory_points history_trajectory_ !! pi
  = Some position_matched_tp ->
  lat_diff
  = PerpendicularOffset (KinoDynamicState.x state) (KinoDynamicState.y state)
      (TrajectoryPoint.path_point position_matched_tp).
Proof.
  intros Hdev Hpi Hptp. unfold StitchingDeviation in Hdev.
  destruct (TimeMatchedIndex history_trajectory_ current_time_stamp)
    as [ti |]; [| discriminate].
  cbn [mbind option_bind] in Hdev.
  destruct (Trajectory.trajectory_points history_trajectory_ !! ti)
    as [time_matched_tp |]; [| discriminate].
  cbn [mbind option_bind] in Hdev.
  rewrite Hpi in Hdev. cbn [mbind option_bind] in Hdev.
  rewrite Hptp in Hdev. cbn [mbind option_bind] in Hdev.
  injection Hdev as <- _. reflexivity.
Qed.

(** C4, as the code has it.  On a time-ordered history, with no history, an
    empty history, a current time before the first point, a time match on
    the last index, or a perpendicular offset from the position-matched
    point over the lateral threshold, [GetStitchingTrajectory] returns
    exactly one point, the reinitialisation point; and with a non-negative
    cycle time and a preserve count that fits an [int], the returned
    sequence is never empty, in the reinit and in the stitched case. *)
Theorem GetStitchingTrajectory_reinit_one_point `{!VehicleModel}
    (cfg : PlanningConfig.t) (state : KinoDynamicState.t)
    (has_history_trajectory_ : bool) (history_trajectory_ : Trajectory.t)
    (current_time_stamp planning_cycle_time : R) (preserve_points_num : Z) :
  TimeOrdered (Trajectory.trajectory_points history_trajectory_) ->
  (has_history_trajectory_ = false
   \/ Trajectory.trajectory_points history_trajectory_ = []
   \/ (exists front,
         head (Trajectory.trajectory_points history_trajectory_) = Some front
         /\ current_time_stamp - Trajectory.stamp history_trajectory_
            < TrajectoryPoint.relative_time front)
   \/ TimeMatchedIndex history_trajectory_ current_time_stamp
      = Some (length (Trajectory.trajectory_points history_trajectory_) - 1)%nat
   \/ (exists pi position_matched_tp,
         PositionMatchedIndex state history_trajectory_ = Some pi
         /\ Trajectory.trajectory_points history_trajectory_ !! pi
            = Some position_matched_tp
         /\ PlanningConfig.max_replan_lat_distance_threshold cfg
            < Rabs (PerpendicularOffset (KinoDynamicState.x state)
                      (KinoDynamicState.y state)
                      (TrajectoryPoint.path_point position_matched_tp))) ->
   exists p,
     ComputeReinitStitchingTrajectory planning_cycle_time state = [p]
     /\ GetStitchingTrajectory cfg state has_history_trajectory_
          history_trajectory_ current_time_stamp planning_cycle_time
          preserve_points_num = Some [p])
  /\ (0 <= planning_cycle_time ->
      (0 <= preserve_points_num < 2 ^ 31)%Z ->
      exists out,
        GetStitchingTrajectory cfg state has_history_trajectory_
          history_trajectory_ current_time_stamp planning_cycle_time
          preserve_points_num = Some out
        /\ out <> []).
Proof.
  intros Hord.
  destruct (GetStitchingTrajectory_decision cfg state has_history_trajectory_
              history_trajectory_ current_time_stamp planning_cycle_time
              preserve_points_num Hord)
    as [[Htrig Hres]
       | (Hhist & front & ti & pi & lat_diff & lon_diff & Hfront & Hspan & Hti
          & Hinner & Hpi & Hdev & Hlat & Hlon & Hres)].
  - split; [intros _ | intros _ _]; rewrite Hres;
      unfold ComputeReinitStitchingTrajectory; eexists;
      [split; reflexivity | split; [reflexivity | discriminate]].
  - split.
    + intros [Hno | [Hempty | [(front' & Hfront' & Hbefore) | [Hlast | Hover]]]];
        exfalso.
      * congruence.
      * rewrite Hempty in Hfront. discriminate.
      * rewrite Hfront in Hfront'. injection Hfront' as <-. lra.
      * rewrite Hti in Hlast. injection Hlast as ->. lia.
      * destruct Hover as (pi' & position_matched_tp & Hpi' & Hptp & Hover).
        rewrite <- (StitchingDeviation_lateral state history_trajectory_
                      current_time_stamp lat_diff lon_diff pi'
                      position_matched_tp Hdev Hpi' Hptp) in Hover.
        lra.
    + intros Hcycle Hpreserve.
      destruct (StitchHistory_slice history_trajectory_ current_time_stamp
                  planning_cycle_time preserve_points_num Hord Hcycle Hpreserve
                  pi ti Hti Hinner)
        as (fi & fwd_tp & _ & _ & _ & _ & Hlast & Hslice).
      rewrite Hres, Hslice. eexists. split; [reflexivity |].
      intros Hnil. apply map_eq_nil in Hnil. rewrite Hnil in Hlast. discriminate.
Qed.

(** C7, as the code has it.  On a time-ordered history, with a non-negative
    cycle time and a preserve count that fits an [int]: when the current
    time is not before the first point, the time match is not the last
    index and both deviations are within their thresholds,
    [GetStitchingTrajectory] returns the history points from the start index
    to the forward time match (the match of the current time plus the cycle
    time), each with its arc length decreased by that of the forward-matched
    point and its relative time shifted by the history stamp minus the
    current time.  The result is not empty and its last point has the
    position of the forward-matched point and arc length 0. *)
Theorem GetStitchingTrajectory_stitched_slice `{!VehicleModel}
    (cfg : PlanningConfig.t) (state : KinoDynamicState.t)
    (history_trajectory_ : Trajectory.t)
    (current_time_stamp planning_cycle_time : R) (preserve_points_num : Z)
    (front : TrajectoryPoint.t) (ti : nat) (lat_diff lon_diff : R) :
  TimeOrdered (Trajectory.trajectory_points history_trajectory_) ->
  0 <= planning_cycle_time ->
  (0 <= preserve_points_num < 2 ^ 31)%Z ->
  head (Trajectory.trajectory_points history_trajectory_) = Some front ->
  TrajectoryPoint.relative_time front
  <= current_time_stamp - Trajectory.stamp history_trajectory_ ->
  TimeMatchedIndex history_trajectory_ current_time_stamp = Some ti ->
  (ti < length (Trajectory.trajectory_points history_trajectory_) - 1)%nat ->
  StitchingDeviation state history_trajectory_ current_time_stamp
  = Some (lat_diff, lon_diff) ->
  Rabs lat_diff <= PlanningConfig.max_replan_lat_distance_threshold cfg ->
  Rabs lon_diff <= PlanningConfig.max_replan_lon_distance_threshold cfg ->
  exists pi fi fwd_tp out back,
    PositionMatchedIndex state history_trajectory_ = Some pi
    /\ ForwardMatchedIndex history_trajectory_ current_time_stamp
         planning_cycle_time = Some fi
    /\ (ti <= fi)%nat
    /\ Trajectory.trajectory_points history_trajectory_ !! fi = Some fwd_tp
    /\ GetStitchingTrajectory cfg state true history_trajectory_
         current_time_stamp planning_cycle_time preserve_points_num = Some out
    /\ out
       = map (RebaseTrajectoryPoint
                (Trajectory.stamp history_trajectory_ - current_time_stamp)
                (PathPoint.s (TrajectoryPoint.path_point fwd_tp)))
           (take (fi + 1
                  - Z.to_nat (StitchingStartIndex (Z.of_nat (Nat.min pi ti))
                                preserve_points_num))
              (drop (Z.to_nat (StitchingStartIndex (Z.of_nat (Nat.min pi ti))
                                 preserve_points_num))
                 (Trajectory.trajectory_points history_trajectory_)))
    /\ out <> []
    /\ last out = Some back
    /\ PathPoint.x (TrajectoryPoint.path_point back)
       = PathPoint.x (TrajectoryPoint.path_point fwd_tp)
    /\ PathPoint.y (TrajectoryPoint.path_point back)
       = PathPoint.y (TrajectoryPoint.path_point fwd_tp)
    /\ PathPoint.s (TrajectoryPoint.path_point back) = 0.
Proof.
  intros Hord Hcycle Hpreserve Hfront Hspan Hti Hinner Hdev Hlat Hlon.
  destruct (GetStitchingTrajectory_decision cfg state true
              history_trajectory_ current_time_stamp planning_cycle_time
              preserve_points_num Hord)
    as [[Htrig _]
       | (_ & front' & ti' & pi & lat' & lon' & _ & _ & Hti'
          & _ & Hpi & _ & _ & _ & Hres)].
  - exfalso.
    exact (ReinitCondition_excluded cfg state true history_trajectory_
             current_time_stamp front ti lat_diff lon_diff
             eq_refl Hfront Hspan Hti Hinner Hdev Hlat Hlon Htrig).
  - rewrite Hti in Hti'. injection Hti' as <-.
    destruct (StitchHistory_slice history_trajectory_ current_time_stamp
                planning_cycle_time preserve_points_num Hord Hcycle Hpreserve
                pi ti Hti Hinner)
      as (fi & fwd_tp & Hfi & _ & [Hmono _] & Hfwd & Hlast & Hslice).
    exists pi, fi, fwd_tp. eexists. eexists.
    split; [exact Hpi |]. split; [exact Hfi |]. split; [exact Hmono |].
    split; [exact Hfwd |]. split; [rewrite Hres; exact Hslice |].
    split; [reflexivity |]. split.
    { intros Hnil. apply map_eq_nil in Hnil. rewrite Hnil in Hlast. discriminate. }
    split; [rewrite last_map, Hlast; reflexivity |].
    cbn. repeat split; lra.
Qed.

(** C10, as the code has it.  For a preserve count that fits an [int], the
    start index lies between 0 and the matched index, also when the preserve
    count exceeds the matched index; it is max(0, matched_index -
    preserve_points_num) when the matched index is below 2^31 as well; and
    the slice up to any forward index that is at least the matched index is
    defined and not empty. *)
Theorem StitchingStartIndex_valid {A : Type} (points : list A)
    (matched_index forward_index : nat) (preserve_points_num : Z) :
  (0 <= preserve_points_num < 2 ^ 31)%Z ->
  (matched_index <= forward_index < length points)%nat ->
  (0 <= StitchingStartIndex (Z.of_nat matched_index) preserve_points_num
   <= Z.of_nat matched_index)%Z
  /\ ((Z.of_nat matched_index < 2 ^ 31)%Z ->
      StitchingStartIndex (Z.of_nat matched_index) preserve_points_num
      = Z.max 0 (Z.of_nat matched_index - preserve_points_num))
  /\ exists slice,
      vector_slice points
        (Z.to_nat (StitchingStartIndex (Z.of_nat matched_index)
                     preserve_points_num))
        (forward_index + 1) = Some slice
      /\ slice <> [].
Proof.
  intros Hpreserve Hrange.
  pose proof (StitchingStartIndex_bounds (Z.of_nat matched_index)
                preserve_points_num ltac:(lia) Hpreserve) as Hbounds.
  split; [exact Hbounds |]. split.
  - intros Hm. apply StitchingStartIndex_exact; lia.
  - destruct (vector_slice_nonempty points
                (Z.to_nat (StitchingStartIndex (Z.of_nat matched_index)
                             preserve_points_num))
                (forward_index + 1) ltac:(lia))
      as (slice & Hslice & _ & Hlen & _).
    exists slice. split; [exact Hslice |].
    intros ->. cbn in Hlen. lia.
Qed.

(** ** The example history *)

(** Decide the absolute values and comparisons of numerals in the goal. *)
Ltac Reval :=
  rewrite ?cos_0, ?sin_0;
  repeat match goal with
    | |- context [Rabs ?a] =>
        first [ rewrite (Rabs_pos_eq a) by lra
              | rewrite (Rabs_left1 a) by lra ]
    end;
  Rcompare.

(** Evaluate the integer start index of a slice. *)
Ltac eval_start_index :=
  repeat match goal with
    | |- context [Z.to_nat ?z] =>
        let v := eval vm_compute in (Z.to_nat z) in
        change (Z.to_nat z) with v
    end.

Lemma example_history_ordered :
  TimeOrdered (Trajectory.trajectory_points example_history).
Proof.
  intros i j a b Hij Ha Hb.
  destruct i as [| [| [| [| i]]]]; cbn in Ha; try discriminate;
    destruct j as [| [| [| [| j]]]]; cbn in Hb; try discriminate; try lia;
    injection Ha as <-; injection Hb as <-; cbn; lra.
Qed.

Lemma example_time_match (relative : R) :
  0 + 1.0e-5 < relative <= 1 + 1.0e-5 ->
  GetTimeMatchIndex relative 1.0e-5
    (Trajectory.trajectory_points example_history) = Some 1%nat.
Proof.
  intros Hrel. unfold GetTimeMatchIndex, lower_bound.
  cbn -[Z.pow_pos]. Rcompare. reflexivity.
Qed.

Lemma example_forward_match (relative : R) :
  1 + 1.0e-5 < relative <= 2 + 1.0e-5 ->
  GetTimeMatchIndex relative 1.0e-5
    (Trajectory.trajectory_points example_history) = Some 2%nat.
Proof.
  intros Hrel. unfold GetTimeMatchIndex, lower_bound.
  cbn -[Z.pow_pos]. Rcompare. reflexivity.
Qed.

Lemma example_position_match :
  PositionMatchedIndex example_state example_history = Some 1%nat.
Proof.
  pose proof DBL_MAX_large as Hmax.
  unfold PositionMatchedIndex, GetPositionMatchedIndex.
  cbn -[Z.pow_pos DBL_MAX].
  cbv [dist_sqr kEps example_point fst snd PathPoint.x PathPoint.y
       TrajectoryPoint.path_point].
  Rcompare. reflexivity.
Qed.

Lemma example_deviation :
  StitchingDeviation example_state example_history 0.5 = Some (0, 0).
Proof.
  unfold StitchingDeviation, TimeMatchedIndex.
  rewrite example_time_match
    by (cbn [example_history Trajectory.stamp]; split; lra).
  cbn [mbind option_bind].
  rewrite example_position_match. cbn -[Z.pow_pos].
  rewrite cos_0, sin_0. do 2 f_equal; lra.
Qed.

(** The stitched result on the example: current time 0.5, cycle time 1,
    20 preserved points. *)
Lemma example_stitched :
  @GetStitchingTrajectory example_vehicle_model example_config example_state
    true example_history 0.5 1 20
  = Some (map (RebaseTrajectoryPoint (0 - 0.5) 2)
            [example_point 0 0 0 0; example_point 1 0 1 1; example_point 2 0 2 2]).
Proof.
  pose proof (example_time_match (0.5 - 0) ltac:(split; lra)) as Htime.
  pose proof (example_forward_match (0.5 - 0 + 1) ltac:(split; lra)) as Hfwd.
  pose proof example_position_match as Hpos.
  unfold PositionMatchedIndex in Hpos.
  cbn [example_history Trajectory.trajectory_points example_state
       KinoDynamicState.x KinoDynamicState.y] in Htime, Hfwd, Hpos.
  unfold GetStitchingTrajectory, StitchHistory.
  cbn [negb example_history Trajectory.trajectory_points Trajectory.stamp
       example_state KinoDynamicState.x KinoDynamicState.y].
  rewrite Htime. cbn [mbind option_bind].
  rewrite Hpos, Hfwd.
  cbn -[Z.pow_pos Z.to_nat StitchingStartIndex]. Reval.
  cbn -[Z.pow_pos Z.to_nat StitchingStartIndex].
  eval_start_index. reflexivity.
Qed.

(** C4, at a concrete input: the example history read at time 3.5, past its
    last point. *)
Lemma GetStitchingTrajectory_reinit_one_point_witness :
  (exists p,
      @ComputeReinitStitchingTrajectory example_vehicle_model 1 example_state
      = [p]
      /\ @GetStitchingTrajectory example_vehicle_model example_config
           example_state true example_history 3.5 1 20 = Some [p])
  /\ (exists out,
        @GetStitchingTrajectory example_vehicle_model example_config
          example_state true example_history 3.5 1 20 = Some out
        /\ out <> []).
Proof.
  assert (Hlast : TimeMatchedIndex example_history 3.5
                  = Some (length (Trajectory.trajectory_points example_history)
                          - 1)%nat).
  { unfold TimeMatchedIndex, GetTimeMatchIndex.
    cbn -[Z.pow_pos]. Rcompare. reflexivity. }
  destruct (@GetStitchingTrajectory_reinit_one_point example_vehicle_model
              example_config example_state true example_history 3.5 1 20
              example_history_ordered) as [Hone Hnonempty].
  split; [apply Hone; do 3 right; left; exact Hlast |].
  apply Hnonempty; [lra | lia].
Defined.

Lemma example_time_match_front (relative : R) :
  relative <= 0 + 1.0e-5 ->
  GetTimeMatchIndex relative 1.0e-5
    (Trajectory.trajectory_points example_history) = Some 0%nat.
Proof.
  intros Hrel. unfold GetTimeMatchIndex, lower_bound.
  cbn -[Z.pow_pos]. Rcompare. reflexivity.
Qed.

Lemma example_position_match_drifted :
  PositionMatchedIndex example_state_drifted example_history = Some 0%nat.
Proof.
  pose proof DBL_MAX_large as Hmax.
  unfold PositionMatchedIndex, GetPositionMatchedIndex.
  cbn -[Z.pow_pos DBL_MAX].
  cbv [dist_sqr kEps example_point fst snd PathPoint.x PathPoint.y
       TrajectoryPoint.path_point].
  Rcompare. reflexivity.
Qed.

(** C4, counterexample.  With the vehicle at (-1.75, 0.375) and the example
    history read at time 0.5, the time-matched point has arc length 1, the
    nearest point is the first one and the projected arc length of the
    vehicle is -1.75: the longitudinal deviation 2.75 is over the threshold
    2.5, yet the code computes 1 - (-1.375) = 2.375 and stitches three
    points.  And the returned sequence is not non-empty in every case: with
    a preserve count of 2^64 - 1, or with a cycle time of -1.5, the slice is
    empty and [back()] is undefined. *)
Lemma GetStitchingTrajectory_longitudinal_trigger_missed :
  ReinitTrigger example_config example_state_drifted true example_history 0.5
  /\ PathPoint.s (TrajectoryPoint.path_point (example_point 1 0 1 1))
     - ProjectedArcLength (-1.75) 0.375
         (TrajectoryPoint.path_point (example_point 0 0 0 0)) = 2.75
  /\ StitchingDeviation example_state_drifted example_history 0.5
     = Some (-0.375, 2.375)
  /\ (exists out,
        @GetStitchingTrajectory example_vehicle_model example_config
          example_state_drifted true example_history 0.5 1 20 = Some out
        /\ length out = 3%nat)
  /\ @GetStitchingTrajectory example_vehicle_model example_config
       example_state true example_history 0.5 0.25 (2 ^ 64 - 1) = None
  /\ @GetStitchingTrajectory example_vehicle_model example_config
       example_state true example_history 1.5 (-1.5) 0 = None.
Proof.
  pose proof (example_time_match (0.5 - 0) ltac:(split; lra)) as Htime.
  pose proof example_position_match_drifted as Hdrift.
  pose proof example_position_match as Hpos.
  unfold PositionMatchedIndex in Hdrift, Hpos.
  cbn [example_history Trajectory.trajectory_points example_state
       example_state_drifted KinoDynamicState.x KinoDynamicState.y]
    in Htime, Hdrift, Hpos.
  split; [| split; [| split; [| split; [| split]]]].
  - do 4 right.
    exists 1%nat, (example_point 1 0 1 1), 0%nat, (example_point 0 0 0 0).
    split; [exact Htime |]. split; [reflexivity |]. split.
    { exists (example_point 0 0 0 0). split; [reflexivity |]. split.
      - intros [| [| [| [| j]]]] q Hq; cbn in Hq; try discriminate;
          injection Hq as <-; unfold dist_sqr;
          cbn [example_point fst snd PathPoint.x PathPoint.y
               TrajectoryPoint.path_point example_state_drifted
               KinoDynamicState.x KinoDynamicState.y]; lra.
      - intros j q Hj. lia. }
    split; [reflexivity |]. right.
    unfold ProjectedArcLength.
    cbn [example_config PlanningConfig.max_replan_lon_distance_threshold
         example_point PathPoint.x PathPoint.y PathPoint.theta PathPoint.s
         TrajectoryPoint.path_point example_state_drifted
         KinoDynamicState.x KinoDynamicState.y].
    rewrite cos_0, sin_0. rewrite Rabs_pos_eq by lra. lra.
  - unfold ProjectedArcLength.
    cbn [example_point PathPoint.x PathPoint.y PathPoint.theta PathPoint.s
         TrajectoryPoint.path_point].
    rewrite cos_0, sin_0. lra.
  - unfold StitchingDeviation, TimeMatchedIndex, PositionMatchedIndex.
    cbn [example_history Trajectory.trajectory_points Trajectory.stamp
         example_state_drifted KinoDynamicState.x KinoDynamicState.y].
    rewrite Htime. cbn [mbind option_bind]. rewrite Hdrift.
    cbn -[Z.pow_pos]. rewrite cos_0, sin_0. do 2 f_equal; lra.
  - pose proof (example_forward_match (0.5 - 0 + 1) ltac:(split; lra)) as Hfwd.
    cbn [example_history Trajectory.trajectory_points] in Hfwd.
    unfold GetStitchingTrajectory, StitchHistory.
    cbn [negb example_history Trajectory.trajectory_points Trajectory.stamp
         example_state_drifted KinoDynamicState.x KinoDynamicState.y].
    rewrite Htime. cbn [mbind option_bind].
    rewrite Hdrift, Hfwd.
    cbn -[Z.pow_pos Z.to_nat StitchingStartIndex]. Reval.
    cbn -[Z.pow_pos Z.to_nat StitchingStartIndex].
    eval_start_index. eexists. split; reflexivity.
  - pose proof (example_time_match (0.5 - 0 + 0.25) ltac:(split; lra)) as Hfwd.
    cbn [example_history Trajectory.trajectory_points] in Hfwd.
    unfold GetStitchingTrajectory, StitchHistory.
    cbn [negb example_history Trajectory.trajectory_points Trajectory.stamp
         example_state KinoDynamicState.x KinoDynamicState.y].
    rewrite Htime. cbn [mbind option_bind].
    rewrite Hpos, Hfwd.
    cbn -[Z.pow_pos Z.to_nat StitchingStartIndex]. Reval.
    cbn -[Z.pow_pos Z.to_nat StitchingStartIndex].
    eval_start_index. reflexivity.
  - pose proof (example_forward_match (1.5 - 0) ltac:(split; lra)) as Hlate.
    pose proof (example_time_match_front (1.5 - 0 + -1.5) ltac:(lra)) as Hfwd.
    cbn [example_history Trajectory.trajectory_points] in Hlate, Hfwd.
    unfold GetStitchingTrajectory, StitchHistory.
    cbn [negb example_history Trajectory.trajectory_points Trajectory.stamp
         example_state KinoDynamicState.x KinoDynamicState.y].
    rewrite Hlate. cbn [mbind option_bind].
    rewrite Hpos, Hfwd.
    cbn -[Z.pow_pos Z.to_nat StitchingStartIndex]. Reval.
    cbn -[Z.pow_pos Z.to_nat StitchingStartIndex].
    eval_start_index. reflexivity.
Qed.

(** C7, at a concrete input: the example history read at time 0.5 by the
    vehicle at (1, 0), with cycle time 1 and 20 preserved points. *)
Lemma GetStitchingTrajectory_stitched_slice_witness :
  exists pi fi fwd_tp out back,
    PositionMatchedIndex example_state example_history = Some pi
    /\ ForwardMatchedIndex example_history 0.5 1 = Some fi
    /\ (1 <= fi)%nat
    /\ Trajectory.trajectory_points example_history !! fi = Some fwd_tp
    /\ @GetStitchingTrajectory example_vehicle_model example_config
         example_state true example_history 0.5 1 20 = Some out
    /\ out
       = map (RebaseTrajectoryPoint
                (Trajectory.stamp example_history - 0.5)
                (PathPoint.s (TrajectoryPoint.path_point fwd_tp)))
           (take (fi + 1
                  - Z.to_nat (StitchingStartIndex (Z.of_nat (Nat.min pi 1)) 20))
              (drop (Z.to_nat (StitchingStartIndex (Z.of_nat (Nat.min pi 1)) 20))
                 (Trajectory.trajectory_points example_history)))
    /\ out <> []
    /\ last out = Some back
    /\ PathPoint.x (TrajectoryPoint.path_point back)
       = PathPoint.x (TrajectoryPoint.path_point fwd_tp)
    /\ PathPoint.y (TrajectoryPoint.path_point back)
       = PathPoint.y (TrajectoryPoint.path_point fwd_tp)
    /\ PathPoint.s (TrajectoryPoint.path_point back) = 0.
Proof.
  apply (@GetStitchingTrajectory_stitched_slice example_vehicle_model
           example_config example_state example_history 0.5 1 20
           (example_point 0 0 0 0) 1%nat 0 0).
  - exact example_history_ordered.
  - lra.
  - lia.
  - reflexivity.
  - cbn. lra.
  - unfold TimeMatchedIndex. apply example_time_match.
    cbn [example_history Trajectory.stamp]. split; lra.
  - cbn. lia.
  - exact example_deviation.
  - rewrite Rabs_R0. cbn. lra.
  - rewrite Rabs_R0. cbn. lra.
Defined.

(** C7, counterexample.  On the example (time 0.5, cycle time 1, vehicle at
    (1, 0), both deviations 0) the time match and the position match are
    both index 1, so the matched index is 1, whose point is at x = 1; the
    last point of the stitched result is at x = 2, the point of the forward
    match. *)
Lemma GetStitchingTrajectory_last_point_not_matched_index :
  TimeMatchedIndex example_history 0.5 = Some 1%nat
  /\ PositionMatchedIndex example_state example_history = Some 1%nat
  /\ StitchingDeviation example_state example_history 0.5 = Some (0, 0)
  /\ exists out back matched_tp,
      @GetStitchingTrajectory example_vehicle_model example_config
        example_state true example_history 0.5 1 20 = Some out
      /\ last out = Some back
      /\ Trajectory.trajectory_points example_history !! Nat.min 1 1
         = Some matched_tp
      /\ PathPoint.x (TrajectoryPoint.path_point back) = 2
      /\ PathPoint.x (TrajectoryPoint.path_point matched_tp) = 1.
Proof.
  split.
  { unfold TimeMatchedIndex. apply example_time_match.
    cbn [example_history Trajectory.stamp]. split; lra. }
  split; [exact example_position_match |].
  split; [exact example_deviation |].
  rewrite example_stitched. do 3 eexists.
  split; [reflexivity |]. split; [reflexivity |]. split; [reflexivity |].
  cbn. split; lra.
Qed.

(** C10, at a concrete input: matched index 1, forward index 2 and 5
    preserved points on a vector of three elements. *)
Lemma StitchingStartIndex_valid_witness :
  (0 <= StitchingStartIndex (Z.of_nat 1) 5 <= Z.of_nat 1)%Z
  /\ ((Z.of_nat 1 < 2 ^ 31)%Z ->
      StitchingStartIndex (Z.of_nat 1) 5 = Z.max 0 (Z.of_nat 1 - 5))
  /\ exists slice,
      vector_slice [10; 20; 30]%nat
        (Z.to_nat (StitchingStartIndex (Z.of_nat 1) 5)) (2 + 1) = Some slice
      /\ slice <> [].
Proof.
  apply (StitchingStartIndex_valid [10; 20; 30]%nat 1 2 5).
  - lia.
  - cbn. lia.
Defined.

(** C10, counterexample.  With matched index 1 and a preserve count of
    2^64 - 1 the unsigned difference is 2, so the start index is 2, past
    the matched index; on the example history read at time 0.5 with cycle
    time 0.25 the forward match is index 1 as well, the slice from 2 to 2 is
    empty and [back()] is undefined. *)
Lemma StitchingStartIndex_wraps_past_matched_index :
  StitchingStartIndex 1 (2 ^ 64 - 1) = 2%Z
  /\ TimeMatchedIndex example_history 0.5 = Some 1%nat
  /\ PositionMatchedIndex example_state example_history = Some 1%nat
  /\ ForwardMatchedIndex example_history 0.5 0.25 = Some 1%nat
  /\ vector_slice (Trajectory.trajectory_points example_history) 2 (1 + 1)
     = Some []
  /\ @GetStitchingTrajectory example_vehicle_model example_config
       example_state true example_history 0.5 0.25 (2 ^ 64 - 1) = None.
Proof.
  split; [reflexivity |].
  split.
  { unfold TimeMatchedIndex. apply example_time_match.
    cbn [example_history Trajectory.stamp]. split; lra. }
  split; [exact example_position_match |].
  split.
  { unfold ForwardMatchedIndex. apply example_time_match.
    cbn [example_history Trajectory.stamp]. split; lra. }
  split; [reflexivity |].
  pose proof (example_time_match (0.5 - 0) ltac:(split; lra)) as Htime.
  pose proof (example_time_match (0.5 - 0 + 0.25) ltac:(split; lra)) as Hfwd.
  pose proof example_position_match as Hpos.
  unfold PositionMatchedIndex in Hpos.
  cbn [example_history Trajectory.trajectory_points example_state
       KinoDynamicState.x KinoDynamicState.y] in Htime, Hfwd, Hpos.
  unfold GetStitchingTrajectory, StitchHistory.
  cbn [negb example_history Trajectory.trajectory_points Trajectory.stamp
       example_state KinoDynamicState.x KinoDynamicState.y].
  rewrite Htime. cbn [mbind option_bind].
  rewrite Hpos, Hfwd.
  cbn -[Z.pow_pos Z.to_nat StitchingStartIndex]. Reval.
  cbn -[Z.pow_pos Z.to_nat StitchingStartIndex].
  eval_start_index. reflexivity.
Qed.

(** ** The planning cycle *)

(** With a horizon of a non-negative number of steps that fits an [int],
    the emergency-stop generator returns. *)
Lemma GenerateEmergencyStopTrajectory_returns
    (cfg : PlanningConfig.t) (init : TrajectoryPoint.t) (n : Z) :
  double_to_int (PlanningConfig.max_lookahead_time cfg / PlanningConfig.delta_t cfg)
  = Some n ->
  (0 <= n)%Z ->
  exists pts, GenerateEmergencyStopTrajectory cfg init = Some pts.
Proof.
  intros Hn Hpos. unfold GenerateEmergencyStopTrajectory.
  rewrite Hn. cbn [mbind option_bind].
  destruct (Z.ltb_spec n 0) as [Hneg | _]; [lia | eauto].
Qed.

Section CycleProperties.
Context {ReferenceLine VehicleState EgoStatus EgoInfo : Type}.
Context `{!ReferenceLineOps ReferenceLine}.
Context `{!VehicleStateOps VehicleState EgoStatus EgoInfo}.
Context `{!VehicleModel} `{!ObstaclePrediction}.
Variable cfg : PlanningConfig.t.
Variable env : @CycleEnv ReferenceLine.
Variable current_time_stamp : R.
Variable mp : MotionPlanner.t VehicleState EgoStatus EgoInfo.

Lemma PublishEmergencyStop_spec (init : TrajectoryPoint.t) (n : Z) :
  double_to_int (PlanningConfig.max_lookahead_time cfg / PlanningConfig.delta_t cfg)
  = Some n ->
  (0 <= n)%Z ->
  exists mp' published,
    PublishEmergencyStop cfg mp current_time_stamp init
    = Some (mp', Some published)
    /\ Trajectory.status published = EMERGENCYSTOP
    /\ Trajectory.stamp published = current_time_stamp
    /\ GenerateEmergencyStopTrajectory cfg init
       = Some (Trajectory.trajectory_points published)
    /\ MotionPlanner.has_history_trajectory_ mp' = false
    /\ MotionPlanner.history_trajectory_ mp'
       = MotionPlanner.history_trajectory_ mp.
Proof.
  intros Hn Hpos. unfold PublishEmergencyStop.
  destruct (GenerateEmergencyStopTrajectory_returns cfg init n Hn Hpos)
    as [pts Hpts].
  rewrite Hpts. cbn [mbind option_bind].
  do 2 eexists. split; [reflexivity |]. cbn. auto.
Qed.

(** C2.  In a cycle that reaches the reference-line query (the ego is known
    and present, stitching returned a sequence with a last point, and the
    configured horizon is a non-negative number of steps): when
    [GetReferenceLines] returns false, or when it returns true and [Process]
    returns false, [RunOnce] returns, the published trajectory is the
    emergency-stop trajectory of the origin with status EMERGENCYSTOP and
    the stamp of the cycle, the history flag is false and the history
    trajectory is the one the cycle started with. *)
Theorem RunOnce_failure_publishes_emergency_stop
    (ego_object : Object.t) (stitching_trajectory : list TrajectoryPoint.t)
    (init_trajectory_point : TrajectoryPoint.t) (n : Z) :
  MotionPlanner.ego_vehicle_id_ mp <> (-1)%Z ->
  MotionPlanner.objects_map_ mp !! MotionPlanner.ego_vehicle_id_ mp
  = Some ego_object ->
  GetStitchingTrajectory cfg
    (GetKinoDynamicVehicleState
       (Update (MotionPlanner.vehicle_state_ mp)
          (MotionPlanner.ego_vehicle_status_ mp)
          (MotionPlanner.ego_vehicle_info_ mp) ego_object))
    (MotionPlanner.has_history_trajectory_ mp)
    (MotionPlanner.history_trajectory_ mp)
    current_time_stamp
    (1.0 / IZR (PlanningConfig.loop_rate cfg))
    (PlanningConfig.preserve_history_trajectory_point_num cfg)
  = Some stitching_trajectory ->
  last stitching_trajectory = Some init_trajectory_point ->
  double_to_int (PlanningConfig.max_lookahead_time cfg / PlanningConfig.delta_t cfg)
  = Some n ->
  (0 <= n)%Z ->
  ((GetReferenceLines env).1 = false
   \/ forall obstacles,
        GetKeyObstacle cfg (MotionPlanner.objects_map_ mp)
          (MotionPlanner.traffic_light_status_list_ mp)
          (MotionPlanner.traffic_lights_info_list_ mp)
          init_trajectory_point (MotionPlanner.ego_vehicle_id_ mp)
        = Some obstacles ->
        (Process env obstacles init_trajectory_point
           (GetPlanningTargets cfg (GetReferenceLines env).2
              init_trajectory_point)).1 = false) ->
  exists mp' published,
    RunOnce cfg env current_time_stamp mp = Some (mp', Some published)
    /\ Trajectory.status published = EMERGENCYSTOP
    /\ Trajectory.stamp published = current_time_stamp
    /\ GenerateEmergencyStopTrajectory cfg init_trajectory_point
       = Some (Trajectory.trajectory_points published)
    /\ MotionPlanner.has_history_trajectory_ mp' = false
    /\ MotionPlanner.history_trajectory_ mp'
       = MotionPlanner.history_trajectory_ mp.
Proof.
  intros Hego Hobj Hstitch Hlast Hn Hpos Hfail.
  unfold RunOnce.
  rewrite bool_decide_eq_false_2 by exact Hego.
  rewrite Hobj.
  cbn [MotionPlanner.has_history_trajectory_ MotionPlanner.history_trajectory_
       MotionPlanner.objects_map_ MotionPlanner.traffic_light_status_list_
       MotionPlanner.traffic_lights_info_list_ MotionPlanner.ego_vehicle_id_].
  rewrite Hstitch. cbn [mbind option_bind]. rewrite Hlast.
  cbn [mbind option_bind].
  destruct (GetReferenceLines env) as [ok_lines ref_lines] eqn:Hlines.
  cbn [fst snd] in Hfail.
  destruct ok_lines; cbn [negb].
  - destruct Hfail as [Hfalse | Hplan]; [discriminate |].
    destruct (GetKeyObstacle cfg _ _ _ init_trajectory_point _)
      as [obstacles |] eqn:Hobstacles.
    + cbn [mbind option_bind].
      specialize (Hplan obstacles eq_refl).
      destruct (Process env obstacles init_trajectory_point _)
        as [ok_plan planned].
      cbn [fst] in Hplan. subst ok_plan. cbn [negb].
      unfold PublishEmergencyStop.
      destruct (GenerateEmergencyStopTrajectory_returns cfg init_trajectory_point
                  n Hn Hpos) as [pts Hpts].
      rewrite Hpts. cbn. do 2 eexists. split; [reflexivity |]. cbn. auto.
    + unfold GetKeyObstacle in Hobstacles. rewrite Hobj in Hobstacles.
      discriminate.
  - unfold PublishEmergencyStop.
    destruct (GenerateEmergencyStopTrajectory_returns cfg init_trajectory_point
                n Hn Hpos) as [pts Hpts].
    rewrite Hpts. cbn. do 2 eexists. split; [reflexivity |]. cbn. auto.
Qed.

End CycleProperties.

(** C2, at a concrete input: the example planner (ego 1 present, no
    history) in a cycle stamped 7 in which no reference line is available. *)
Lemma RunOnce_failure_publishes_emergency_stop_witness :
  exists mp' published,
    @RunOnce R KinoDynamicState.t unit unit example_reference_ops
      example_vehicle_state_ops example_vehicle_model example_prediction
      example_config example_env 7 example_planner
    = Some (mp', Some published)
    /\ Trajectory.status published = EMERGENCYSTOP
    /\ Trajectory.stamp published = 7
    /\ GenerateEmergencyStopTrajectory example_config
         (ComputeTrajectoryPointFromVehicleState (1.0 / IZR 10)
            (@GetNextStateAfterTime example_vehicle_model example_state
               (1.0 / IZR 10)))
       = Some (Trajectory.trajectory_points published)
    /\ MotionPlanner.has_history_trajectory_ mp' = false
    /\ MotionPlanner.history_trajectory_ mp' = example_history.
Proof.
  assert (Hstill : Rltb (Rabs (KinoDynamicState.a example_state)) 0.4
                   && Rltb (Rabs (KinoDynamicState.v example_state)) 0.1
                   = false).
  { cbn [example_state KinoDynamicState.a KinoDynamicState.v]. Reval. reflexivity. }
  eapply (@RunOnce_failure_publishes_emergency_stop R KinoDynamicState.t unit
            unit example_reference_ops example_vehicle_state_ops
            example_vehicle_model example_prediction example_config
            example_env 7 example_planner example_ego_object
            [ComputeTrajectoryPointFromVehicleState (1.0 / IZR 10)
               (@GetNextStateAfterTime example_vehicle_model example_state
                  (1.0 / IZR 10))]
            _ 8).
  - cbn. lia.
  - reflexivity.
  - cbn [example_planner MotionPlanner.has_history_trajectory_
         MotionPlanner.history_trajectory_ MotionPlanner.vehicle_state_
         MotionPlanner.ego_vehicle_status_ MotionPlanner.ego_vehicle_info_
         example_vehicle_state_ops Update GetKinoDynamicVehicleState
         example_config PlanningConfig.loop_rate
         PlanningConfig.preserve_history_trajectory_point_num].
    unfold GetStitchingTrajectory, ComputeReinitStitchingTrajectory.
    cbn [negb]. rewrite Hstill. reflexivity.
  - reflexivity.
  - exact example_config_num_traj_point.
  - lia.
  - left. reflexivity.
Defined.

(** * Further properties of the code *)

(** ** Time matching without the ordering *)

(** Whatever the range holds, the bisection ends either at its start or
    just after an element for which [comp] holds. *)
Lemma lower_bound_loop_reached {A : Type} (comp : A -> bool) (l : list A)
    (fuel : nat) :
  forall first len : nat,
    (first + len <= length l)%nat ->
    (first <= lower_bound_loop comp l fuel first len <= first + len)%nat
    /\ (lower_bound_loop comp l fuel first len = first
        \/ exists a,
             l !! (lower_bound_loop comp l fuel first len - 1)%nat = Some a
             /\ (first < lower_bound_loop comp l fuel first len)%nat
             /\ comp a = true).
Proof.
  induction fuel as [| fuel IH]; intros first len Hlen;
    cbn [lower_bound_loop]; [split; [lia | auto] |].
  destruct (Nat.eqb_spec len 0) as [-> | Hpos]; [split; [lia | auto] |].
  assert (Hhalf : (Nat.div2 len < len)%nat) by (apply Nat.lt_div2; lia).
  generalize dependent (Nat.div2 len). intros half Hhalf.
  destruct (lookup_lt_is_Some_2 l (first + half)%nat ltac:(lia)) as [a Ha].
  rewrite Ha. destruct (comp a) eqn:Hcomp.
  - destruct (IH (S (first + half)) (len - half - 1)%nat ltac:(lia))
      as [Hrange [Heq | (b & Hb & Hlt & Hcb)]].
    + split; [lia |]. right. exists a. rewrite Heq.
      replace (S (first + half) - 1)%nat with (first + half)%nat by lia.
      split; [exact Ha |]. split; [lia | exact Hcomp].
    + split; [lia |]. right. exists b. split; [exact Hb |].
      split; [lia | exact Hcb].
  - destruct (IH first half ltac:(lia)) as [Hrange [Heq | (b & Hb & Hlt & Hcb)]].
    + split; [lia |]. left. exact Heq.
    + split; [lia |]. right. exists b. auto.
Qed.

(** X1.  [GetTimeMatchIndex] fails its assertion on an empty trajectory,
    and on a non-empty one it returns an index of the trajectory, ordered
    or not, as long as the tolerance is not negative: the caller's
    [trajectory_points[time_matched_index]] is in range. *)
Theorem GetTimeMatchIndex_in_range (relative eps : R)
    (trajectory : list TrajectoryPoint.t) :
  0 <= eps ->
  GetTimeMatchIndex relative eps [] = None
  /\ (trajectory <> [] ->
      exists r,
        GetTimeMatchIndex relative eps trajectory = Some r
        /\ (r < length trajectory)%nat).
Proof.
  intros Heps. split; [reflexivity |]. intros Hne.
  unfold GetTimeMatchIndex.
  destruct (last trajectory) as [back |] eqn:Hlast;
    [| apply last_None in Hlast; contradiction].
  assert (Hlen : (0 < length trajectory)%nat).
  { destruct trajectory; [contradiction | cbn; lia]. }
  cbn [mbind option_bind].
  destruct (Rltb (TrajectoryPoint.relative_time back) relative) eqn:Hpast.
  - eexists. split; [reflexivity | lia].
  - apply Rltb_spec_false in Hpast.
    eexists. split; [reflexivity |]. unfold lower_bound.
    destruct (lower_bound_loop_reached
                (fun tp => Rltb (TrajectoryPoint.relative_time tp + eps) relative)
                trajectory (length trajectory) 0 (length trajectory) ltac:(lia))
      as [Hrange [Heq | (a & Ha & Hlt & Hcomp)]]; [lia |].
    destruct (Nat.lt_ge_cases
                (lower_bound_loop
                   (fun tp => Rltb (TrajectoryPoint.relative_time tp + eps) relative)
                   trajectory (length trajectory) 0 (length trajectory))
                (length trajectory)) as [Hok | Hge]; [exact Hok |].
    exfalso.
    replace (lower_bound_loop _ trajectory (length trajectory) 0 (length trajectory))
      with (length trajectory) in Ha by lia.
    rewrite last_lookup in Hlast.
    replace (pred (length trajectory)) with (length trajectory - 1)%nat in Hlast
      by lia.
    rewrite Hlast in Ha. injection Ha as <-.
    apply Rltb_spec in Hcomp. lra.
Qed.

Lemma GetTimeMatchIndex_in_range_witness :
  0 <= 1.0e-5
  /\ GetTimeMatchIndex 0.5 1.0e-5 [] = None
  /\ exists r,
      GetTimeMatchIndex 0.5 1.0e-5
        [example_point 2 0 2 2; example_point 0 0 0 0; example_point 1 0 1 1]
      = Some r
      /\ (r < 3)%nat.
Proof.
  assert (Heps : 0 <= 1.0e-5) by lra.
  split; [exact Heps |].
  destruct (GetTimeMatchIndex_in_range 0.5 1.0e-5
              [example_point 2 0 2 2; example_point 0 0 0 0; example_point 1 0 1 1]
              Heps) as [Hempty Hrange].
  split; [exact Hempty |]. apply Hrange. discriminate.
Defined.

(** ** Time matching on a time-ordered trajectory *)

(** X2.  On a time-ordered trajectory [GetTimeMatchIndex] returns the last
    index when the query time is past the last point, and otherwise the
    first index whose relative time plus the tolerance reaches the query
    time. *)
Theorem GetTimeMatchIndex_first_reaching (relative eps : R)
    (trajectory : list TrajectoryPoint.t) (back : TrajectoryPoint.t) :
  TimeOrdered trajectory ->
  0 <= eps ->
  last trajectory = Some back ->
  exists r tp,
    GetTimeMatchIndex relative eps trajectory = Some r
    /\ trajectory !! r = Some tp
    /\ (TrajectoryPoint.relative_time back < relative ->
        r = (length trajectory - 1)%nat)
    /\ (relative <= TrajectoryPoint.relative_time back ->
        relative <= TrajectoryPoint.relative_time tp + eps
        /\ forall i a, (i < r)%nat -> trajectory !! i = Some a ->
                       TrajectoryPoint.relative_time a + eps < relative).
Proof.
  intros Hord Heps Hlast.
  destruct (GetTimeMatchIndex_spec trajectory eps Hord Heps relative back Hlast)
    as (r & Hr & Hlt & Hpast & Hin).
  destruct (lookup_lt_is_Some_2 trajectory r Hlt) as [tp Htp].
  exists r, tp. split; [exact Hr |]. split; [exact Htp |].
  split; [exact Hpast |].
  intros Hle. destruct (Hin Hle) as [Hbelow Habove].
  split; [apply (Habove r tp); [lia | exact Htp] | exact Hbelow].
Qed.

Lemma GetTimeMatchIndex_first_reaching_witness :
  exists r tp,
    GetTimeMatchIndex 1.5 1.0e-5 (Trajectory.trajectory_points example_history)
    = Some r
    /\ Trajectory.trajectory_points example_history !! r = Some tp
    /\ (TrajectoryPoint.relative_time (example_point 3 0 3 3) < 1.5 ->
        r = (length (Trajectory.trajectory_points example_history) - 1)%nat)
    /\ (1.5 <= TrajectoryPoint.relative_time (example_point 3 0 3 3) ->
        1.5 <= TrajectoryPoint.relative_time tp + 1.0e-5
        /\ forall i a, (i < r)%nat ->
             Trajectory.trajectory_points example_history !! i = Some a ->
             TrajectoryPoint.relative_time a + 1.0e-5 < 1.5).
Proof.
  apply (GetTimeMatchIndex_first_reaching 1.5 1.0e-5
           (Trajectory.trajectory_points example_history)
           (example_point 3 0 3 3)).
  - exact example_history_ordered.
  - lra.
  - reflexivity.
Defined.

(** X3.  On a time-ordered trajectory a later query time never matches an
    earlier index. *)
Theorem GetTimeMatchIndex_monotone (relative relative' eps : R)
    (trajectory : list TrajectoryPoint.t) (r r' : nat) :
  TimeOrdered trajectory ->
  0 <= eps ->
  relative <= relative' ->
  GetTimeMatchIndex relative eps trajectory = Some r ->
  GetTimeMatchIndex relative' eps trajectory = Some r' ->
  (r <= r')%nat.
Proof.
  intros Hord Heps Hle Hr Hr'.
  exact (GetTimeMatchIndex_mono trajectory eps Hord Heps relative relative'
           r r' Hle Hr Hr').
Qed.

Lemma GetTimeMatchIndex_monotone_witness : (1 <= 2)%nat.
Proof.
  apply (GetTimeMatchIndex_monotone 0.5 1.5 1.0e-5
           (Trajectory.trajectory_points example_history) 1 2).
  - exact example_history_ordered.
  - lra.
  - lra.
  - apply example_time_match. split; lra.
  - apply example_forward_match. split; lra.
Defined.

(** ** Position matching *)

(** X4.  [GetPositionMatchedIndex] fails its assertion on an empty
    trajectory and returns an index of the trajectory on every other one. *)
Theorem GetPositionMatchedIndex_in_range (xy : R * R) :
  GetPositionMatchedIndex xy [] = None
  /\ forall (tp : TrajectoryPoint.t) (rest : list TrajectoryPoint.t),
       exists r,
         GetPositionMatchedIndex xy (tp :: rest) = Some r
         /\ (r < length (tp :: rest))%nat.
Proof.
  split; [reflexivity |]. intros tp rest.
  apply GetPositionMatchedIndex_range. discriminate.
Qed.

(** No remaining point is taken when each is at least [kEps] worse than
    the running minimum. *)
Lemma PositionMatchLoop_keeps (xy : R * R) (rest : list TrajectoryPoint.t) :
  forall (i : nat) (min_dist_sqr : R) (min_index : nat),
    (forall q, q ∈ rest -> min_dist_sqr + kEps <= dist_sqr xy q) ->
    PositionMatchLoop xy rest i min_dist_sqr min_index = min_index.
Proof.
  induction rest as [| tp rest IH]; intros i m mi Hall;
    cbn [PositionMatchLoop]; [reflexivity |].
  rewrite Rltb_false by (apply Hall; left).
  apply IH. intros q Hq. apply Hall. right. exact Hq.
Qed.

(** A point that beats every other remaining point by [kEps] and is within
    [kEps] of the running minimum is the one the scan ends on. *)
Lemma PositionMatchLoop_winner (xy : R * R) (rest : list TrajectoryPoint.t) :
  forall (i : nat) (min_dist_sqr : R) (min_index k : nat) (p : TrajectoryPoint.t),
    rest !! k = Some p ->
    dist_sqr xy p < min_dist_sqr + kEps ->
    (forall j q, j <> k -> rest !! j = Some q ->
                 dist_sqr xy p + kEps <= dist_sqr xy q) ->
    PositionMatchLoop xy rest i min_dist_sqr min_index = (i + k)%nat.
Proof.
  pose proof kEps_pos as Heps.
  induction rest as [| tp rest IH]; intros i m mi k p Hk Hnear Hothers;
    [discriminate |].
  cbn [PositionMatchLoop]. destruct k as [| k].
  - injection Hk as ->. rewrite Rltb_true by exact Hnear.
    rewrite PositionMatchLoop_keeps; [lia |].
    intros q Hq. apply list_elem_of_lookup_1 in Hq as [j Hj].
    apply (Hothers (S j) q); [lia | exact Hj].
  - cbn in Hk.
    pose proof (Hothers 0%nat tp ltac:(lia) eq_refl) as Htp.
    assert (Hrest : forall j q, j <> k -> rest !! j = Some q ->
                            dist_sqr xy p + kEps <= dist_sqr xy q).
    { intros j q Hj Hq. apply (Hothers (S j) q); [lia | exact Hq]. }
    destruct (Rltb (dist_sqr xy tp) (m + kEps)).
    + rewrite (IH (S i) (dist_sqr xy tp) i k p Hk ltac:(lra) Hrest). lia.
    + rewrite (IH (S i) m mi k p Hk Hnear Hrest). lia.
Qed.

(** X5.  A point of the trajectory whose squared distance to the query is
    smaller than every other point's by at least the tolerance [kEps] is
    the point [GetPositionMatchedIndex] returns. *)
Theorem GetPositionMatchedIndex_clear_winner (xy : R * R)
    (trajectory : list TrajectoryPoint.t) (k : nat) (p : TrajectoryPoint.t) :
  trajectory !! k = Some p ->
  dist_sqr xy p <= DBL_MAX ->
  (forall j q, j <> k -> trajectory !! j = Some q ->
               dist_sqr xy p + kEps <= dist_sqr xy q) ->
  GetPositionMatchedIndex xy trajectory = Some k.
Proof.
  intros Hk Hmax Hothers. pose proof kEps_pos as Heps.
  destruct trajectory as [| tp rest]; [discriminate |].
  cbn [GetPositionMatchedIndex]. f_equal.
  apply (PositionMatchLoop_winner xy (tp :: rest) 0 DBL_MAX 0 k p Hk);
    [lra | exact Hothers].
Qed.

Lemma GetPositionMatchedIndex_clear_winner_witness :
  GetPositionMatchedIndex (1, 0) (Trajectory.trajectory_points example_history)
  = Some 1%nat.
Proof.
  pose proof DBL_MAX_large as Hmax.
  apply (GetPositionMatchedIndex_clear_winner (1, 0)
           (Trajectory.trajectory_points example_history) 1
           (example_point 1 0 1 1)).
  - reflexivity.
  - unfold dist_sqr. cbn. lra.
  - intros j q Hj Hq. unfold kEps.
    destruct j as [| [| [| [| j]]]]; cbn in Hq; try discriminate; try lia;
      injection Hq as <-; unfold dist_sqr;
      cbn [example_point fst snd PathPoint.x PathPoint.y
           TrajectoryPoint.path_point]; lra.
Defined.

(** ** The lateral deviation *)

(** X6.  The lateral component of [GetLatAndLonDistFromRefPoint] is never
    larger in absolute value than the distance from the reference point to
    the query point, and it does not change when the query point moves along
    the heading of the reference point. *)
Theorem GetLatAndLonDistFromRefPoint_lateral (x y t : R) (p : PathPoint.t) :
  Rabs (GetLatAndLonDistFromRefPoint x y p).2
  <= std_hypot (x - PathPoint.x p) (y - PathPoint.y p)
  /\ (GetLatAndLonDistFromRefPoint
        (x + t * cos (PathPoint.theta p)) (y + t * sin (PathPoint.theta p)) p).2
     = (GetLatAndLonDistFromRefPoint x y p).2.
Proof.
  rewrite !GetLatAndLonDistFromRefPoint_eq. cbn [snd]. split; [| ring].
  set (dx := x - PathPoint.x p). set (dy := y - PathPoint.y p).
  set (c := cos (PathPoint.theta p)). set (s := sin (PathPoint.theta p)).
  assert (Hunit : s * s + c * c = 1).
  { pose proof (sin2_cos2 (PathPoint.theta p)) as H. unfold Rsqr in H. exact H. }
  unfold std_hypot.
  rewrite <- sqrt_Rsqr_abs. apply sqrt_le_1_alt. unfold Rsqr.
  assert (Hsplit : dx * dx + dy * dy
                   = (dx * s - dy * c) * (dx * s - dy * c)
                     + (dx * c + dy * s) * (dx * c + dy * s)).
  { transitivity ((dx * dx + dy * dy) * (s * s + c * c)); [rewrite Hunit |]; ring. }
  rewrite Hsplit.
  pose proof (Rle_0_sqr (dx * c + dy * s)) as Hsq. unfold Rsqr in Hsq. lra.
Qed.

(** ** More on the emergency-stop trajectory *)

(** The vector that [GenerateEmergencyStopTrajectory] returns for a horizon
    of [n] steps. *)
Lemma GenerateEmergencyStopTrajectory_eq
    (cfg : PlanningConfig.t) (init : TrajectoryPoint.t) (n : Z)
    (pts : list TrajectoryPoint.t) :
  double_to_int (PlanningConfig.max_lookahead_time cfg / PlanningConfig.delta_t cfg)
  = Some n ->
  GenerateEmergencyStopTrajectory cfg init = Some pts ->
  (0 <= n)%Z
  /\ pts
     = replicate (Z.to_nat n) TrajectoryPoint.default
       ++ EmergencyStopOrigin cfg init
          :: EmergencyStopLoopFrom (PlanningConfig.delta_t cfg)
               (PlanningConfig.max_lon_acc cfg)
               (TrajectoryPoint.vel init / PlanningConfig.max_lon_acc cfg)
               init (Z.to_nat (n - 1)) 1%Z
               (MkEmergencyStopLoop
                  (PathPoint.x (TrajectoryPoint.path_point init))
                  (PathPoint.y (TrajectoryPoint.path_point init))
                  (TrajectoryPoint.vel init)
                  (PlanningConfig.max_lon_acc cfg)
                  (PathPoint.theta (TrajectoryPoint.path_point init))
                  (PathPoint.s (TrajectoryPoint.path_point init))).
Proof.
  intros Hn. unfold GenerateEmergencyStopTrajectory. rewrite Hn.
  cbn [mbind option_bind].
  destruct (Z.ltb_spec n 0) as [Hneg | Hpos]; [discriminate |].
  intros [= <-]. split; [lia | reflexivity].
Qed.

(** Every point the loop pushes keeps the heading it started with and lies
    on the ray from the starting position along that heading, at the arc
    length it records. *)
Lemma EmergencyStopLoopFrom_along_heading
    (kTimeGap max_decel stop_time : R) (init : TrajectoryPoint.t) (count : nat) :
  forall (i : Z) (st : EmergencyStopLoop) (tp : TrajectoryPoint.t),
    tp ∈ EmergencyStopLoopFrom kTimeGap max_decel stop_time init count i st ->
    PathPoint.theta (TrajectoryPoint.path_point tp) = last_theta st
    /\ PathPoint.x (TrajectoryPoint.path_point tp)
       = last_x st
         + cos (last_theta st)
           * (PathPoint.s (TrajectoryPoint.path_point tp) - last_s st)
    /\ PathPoint.y (TrajectoryPoint.path_point tp)
       = last_y st
         + sin (last_theta st)
           * (PathPoint.s (TrajectoryPoint.path_point tp) - last_s st).
Proof.
  induction count as [| count IH]; intros i st tp Hin; cbn in Hin;
    [inversion Hin |].
  apply elem_of_cons in Hin as [-> | Hin].
  - cbn -[Z.pow_pos]. repeat split; ring.
  - apply IH in Hin as (Htheta & Hx & Hy). cbn -[Z.pow_pos] in Htheta, Hx, Hy.
    rewrite Htheta, Hx, Hy. repeat split; ring.
Qed.

(** X7.  Straight-line braking: every point that
    [GenerateEmergencyStopTrajectory] pushes (the points after the resized
    ones) has the heading of the origin and lies on the line through the
    origin along that heading, displaced by the difference of the arc
    lengths. *)
Theorem GenerateEmergencyStopTrajectory_along_heading
    (cfg : PlanningConfig.t) (init : TrajectoryPoint.t) (n : Z)
    (pts : list TrajectoryPoint.t) (tp : TrajectoryPoint.t) :
  double_to_int (PlanningConfig.max_lookahead_time cfg / PlanningConfig.delta_t cfg)
  = Some n ->
  GenerateEmergencyStopTrajectory cfg init = Some pts ->
  tp ∈ drop (Z.to_nat n) pts ->
  PathPoint.theta (TrajectoryPoint.path_point tp)
  = PathPoint.theta (TrajectoryPoint.path_point init)
  /\ PathPoint.x (TrajectoryPoint.path_point tp)
     = PathPoint.x (TrajectoryPoint.path_point init)
       + cos (PathPoint.theta (TrajectoryPoint.path_point init))
         * (PathPoint.s (TrajectoryPoint.path_point tp)
            - PathPoint.s (TrajectoryPoint.path_point init))
  /\ PathPoint.y (TrajectoryPoint.path_point tp)
     = PathPoint.y (TrajectoryPoint.path_point init)
       + sin (PathPoint.theta (TrajectoryPoint.path_point init))
         * (PathPoint.s (TrajectoryPoint.path_point tp)
            - PathPoint.s (TrajectoryPoint.path_point init)).
Proof.
  intros Hn Hpts Hin.
  destruct (GenerateEmergencyStopTrajectory_eq cfg init n pts Hn Hpts)
    as [Hpos ->].
  rewrite drop_app_length' in Hin by (now rewrite length_replicate).
  apply elem_of_cons in Hin as [-> | Hin].
  - cbn. repeat split; ring.
  - apply EmergencyStopLoopFrom_along_heading in Hin. exact Hin.
Qed.

Lemma GenerateEmergencyStopTrajectory_along_heading_witness :
  exists pts,
    GenerateEmergencyStopTrajectory example_config (example_origin 9) = Some pts
    /\ forall tp, tp ∈ drop (Z.to_nat 8) pts ->
         PathPoint.theta (TrajectoryPoint.path_point tp)
         = PathPoint.theta (TrajectoryPoint.path_point (example_origin 9))
         /\ PathPoint.x (TrajectoryPoint.path_point tp)
            = PathPoint.x (TrajectoryPoint.path_point (example_origin 9))
              + cos (PathPoint.theta (TrajectoryPoint.path_point (example_origin 9)))
                * (PathPoint.s (TrajectoryPoint.path_point tp)
                   - PathPoint.s (TrajectoryPoint.path_point (example_origin 9)))
         /\ PathPoint.y (TrajectoryPoint.path_point tp)
            = PathPoint.y (TrajectoryPoint.path_point (example_origin 9))
              + sin (PathPoint.theta (TrajectoryPoint.path_point (example_origin 9)))
                * (PathPoint.s (TrajectoryPoint.path_point tp)
                   - PathPoint.s (TrajectoryPoint.path_point (example_origin 9))).
Proof.
  destruct (GenerateEmergencyStopTrajectory_returns example_config
              (example_origin 9) 8 example_config_num_traj_point ltac:(lia))
    as [pts Hpts].
  exists pts. split; [exact Hpts |]. intros tp Hin.
  exact (GenerateEmergencyStopTrajectory_along_heading example_config
           (example_origin 9) 8 pts tp example_config_num_traj_point Hpts Hin).
Defined.

(** The point the loop pushes in its [k]-th iteration from index [i]. *)
Lemma EmergencyStopLoopFrom_lookup
    (kTimeGap max_decel stop_time : R) (init : TrajectoryPoint.t) (count : nat) :
  forall (i : Z) (st : EmergencyStopLoop) (k : nat) (tp : TrajectoryPoint.t),
    EmergencyStopLoopFrom kTimeGap max_decel stop_time init count i st !! k
    = Some tp ->
    TrajectoryPoint.relative_time tp
    = IZR (i + Z.of_nat k) * kTimeGap + TrajectoryPoint.relative_time init
    /\ TrajectoryPoint.acc tp
       = (if Rleb (TrajectoryPoint.relative_time tp) stop_time
          then - max_decel else 0)
    /\ TrajectoryPoint.jerk tp = 0
    /\ PathPoint.kappa (TrajectoryPoint.path_point tp) = 0
    /\ PathPoint.dkappa (TrajectoryPoint.path_point tp) = 0
    /\ TrajectoryPoint.steer_angle tp = TrajectoryPoint.steer_angle init.
Proof.
  induction count as [| count IH]; intros i st k tp Hk; cbn in Hk;
    [discriminate |].
  destruct k as [| k].
  - injection Hk as <-. cbn -[Z.pow_pos]. rewrite Z.add_0_r.
    repeat split; reflexivity.
  - cbn in Hk. apply IH in Hk.
    replace (i + Z.of_nat (S k))%Z with (i + 1 + Z.of_nat k)%Z by lia.
    exact Hk.
Qed.

(** X8.  The time grid of the emergency stop: the [k]-th point pushed by
    the loop (k = 1, 2, ...) has relative time k * delta_t plus the origin's
    relative time, acceleration -max_lon_acc while that time is at most
    vel / max_lon_acc and 0 afterwards, zero jerk, curvature and curvature
    rate, and the origin's steering angle. *)
Theorem GenerateEmergencyStopTrajectory_time_grid
    (cfg : PlanningConfig.t) (init : TrajectoryPoint.t) (n : Z)
    (pts : list TrajectoryPoint.t) (k : nat) (tp : TrajectoryPoint.t) :
  double_to_int (PlanningConfig.max_lookahead_time cfg / PlanningConfig.delta_t cfg)
  = Some n ->
  GenerateEmergencyStopTrajectory cfg init = Some pts ->
  pts !! (Z.to_nat n + S k)%nat = Some tp ->
  TrajectoryPoint.relative_time tp
  = IZR (Z.of_nat (S k)) * PlanningConfig.delta_t cfg
    + TrajectoryPoint.relative_time init
  /\ TrajectoryPoint.acc tp
     = (if Rleb (TrajectoryPoint.relative_time tp)
             (TrajectoryPoint.vel init / PlanningConfig.max_lon_acc cfg)
        then - PlanningConfig.max_lon_acc cfg else 0)
  /\ TrajectoryPoint.jerk tp = 0
  /\ PathPoint.kappa (TrajectoryPoint.path_point tp) = 0
  /\ PathPoint.dkappa (TrajectoryPoint.path_point tp) = 0
  /\ TrajectoryPoint.steer_angle tp = TrajectoryPoint.steer_angle init.
Proof.
  intros Hn Hpts Hk.
  destruct (GenerateEmergencyStopTrajectory_eq cfg init n pts Hn Hpts)
    as [Hpos ->].
  rewrite lookup_app_r in Hk by (rewrite length_replicate; lia).
  rewrite length_replicate in Hk.
  replace (Z.to_nat n + S k - Z.to_nat n)%nat with (S k) in Hk by lia.
  cbn [lookup list_lookup] in Hk.
  apply EmergencyStopLoopFrom_lookup in Hk.
  replace (1 + Z.of_nat k)%Z with (Z.of_nat (S k)) in Hk by lia.
  exact Hk.
Qed.

Lemma GenerateEmergencyStopTrajectory_time_grid_witness :
  exists pts tp,
    GenerateEmergencyStopTrajectory example_config (example_origin 9) = Some pts
    /\ pts !! (Z.to_nat 8 + 1)%nat = Some tp
    /\ TrajectoryPoint.relative_time tp
       = IZR (Z.of_nat 1) * PlanningConfig.delta_t example_config
         + TrajectoryPoint.relative_time (example_origin 9)
    /\ TrajectoryPoint.jerk tp = 0.
Proof.
  destruct (GenerateEmergencyStopTrajectory_points example_config
              (example_origin 9) 8 example_config_num_traj_point ltac:(lia))
    as (pts & Hpts & Hlen & _).
  destruct (lookup_lt_is_Some_2 pts (Z.to_nat 8 + 1)%nat ltac:(lia)) as [tp Htp].
  exists pts, tp. split; [exact Hpts |]. split; [exact Htp |].
  destruct (GenerateEmergencyStopTrajectory_time_grid example_config
              (example_origin 9) 8 pts 0 tp example_config_num_traj_point
              Hpts Htp) as (Htime & _ & Hjerk & _).
  split; [exact Htime | exact Hjerk].
Defined.

(** ** Invariants of the stitched prefix *)

Lemma lookup_map_Some {A B : Type} (f : A -> B) (l : list A) (i : nat) (b : B) :
  map f l !! i = Some b -> exists a, l !! i = Some a /\ b = f a.
Proof.
  revert i. induction l as [| a l IH]; intros i Hi; [discriminate |].
  destruct i as [| i]; cbn in Hi.
  - injection Hi as <-. eauto.
  - apply IH in Hi. exact Hi.
Qed.

(** What [GetStitchingTrajectory] returns on a time-ordered history: the
    reinitialisation, or a slice of the history that ends at the forward
    match, re-based on that point. *)
Lemma GetStitchingTrajectory_shape `{!VehicleModel}
    (cfg : PlanningConfig.t) (state : KinoDynamicState.t)
    (has_history_trajectory_ : bool) (history_trajectory_ : Trajectory.t)
    (current_time_stamp planning_cycle_time : R) (preserve_points_num : Z)
    (out : list TrajectoryPoint.t) :
  TimeOrdered (Trajectory.trajectory_points history_trajectory_) ->
  GetStitchingTrajectory cfg state has_history_trajectory_ history_trajectory_
    current_time_stamp planning_cycle_time preserve_points_num = Some out ->
  out = ComputeReinitStitchingTrajectory planning_cycle_time state
  \/ exists start fi fwd_tp,
       ForwardMatchedIndex history_trajectory_ current_time_stamp
         planning_cycle_time = Some fi
       /\ Trajectory.trajectory_points history_trajectory_ !! fi = Some fwd_tp
       /\ (start <= fi)%nat
       /\ last (take (fi + 1 - start)
                  (drop start (Trajectory.trajectory_points history_trajectory_)))
          = Some fwd_tp
       /\ out
          = map (RebaseTrajectoryPoint
                   (Trajectory.stamp history_trajectory_ - current_time_stamp)
                   (PathPoint.s (TrajectoryPoint.path_point fwd_tp)))
              (take (fi + 1 - start)
                 (drop start (Trajectory.trajectory_points history_trajectory_))).
Proof.
  intros Hord Hout.
  destruct (GetStitchingTrajectory_decision cfg state has_history_trajectory_
              history_trajectory_ current_time_stamp planning_cycle_time
              preserve_points_num Hord)
    as [[_ Hres]
       | (_ & front & ti & pi & lat_diff & lon_diff & _ & _ & _ & _ & _ & _ & _
          & _ & Hres)];
    rewrite Hres in Hout.
  - left. congruence.
  - right. unfold StitchHistory in Hout.
    fold (ForwardMatchedIndex history_trajectory_ current_time_stamp
            planning_cycle_time) in Hout.
    destruct (ForwardMatchedIndex history_trajectory_ current_time_stamp
                planning_cycle_time) as [fi |]; [| discriminate].
    cbn [mbind option_bind] in Hout.
    set (start := Z.to_nat (StitchingStartIndex (Z.of_nat (Nat.min pi ti))
                              preserve_points_num)) in *.
    destruct (vector_slice (Trajectory.trajectory_points history_trajectory_)
                start (fi + 1)%nat) as [slice |] eqn:Hslice; [| discriminate].
    cbn [mbind option_bind] in Hout.
    destruct (last slice) as [back |] eqn:Hback; [| discriminate].
    cbn [mbind option_bind] in Hout. injection Hout as <-.
    unfold vector_slice in Hslice.
    destruct (Nat.leb_spec start (fi + 1)%nat) as [Hle | _]; [| discriminate].
    destruct (Nat.leb_spec (fi + 1)%nat
                (length (Trajectory.trajectory_points history_trajectory_)))
      as [Hlen | _]; [| discriminate].
    cbn in Hslice. injection Hslice as <-.
    assert (Hlt : (start < fi + 1)%nat).
    { destruct (Nat.eq_dec start (fi + 1)%nat) as [Heq | Hne]; [| lia].
      rewrite Heq, Nat.sub_diag in Hback. discriminate. }
    destruct (vector_slice_nonempty
                (Trajectory.trajectory_points history_trajectory_) start (fi + 1)%nat
                ltac:(lia)) as (slice & _ & -> & _ & Hlast).
    replace (fi + 1 - 1)%nat with fi in Hlast by lia.
    rewrite Hback in Hlast.
    exists start, fi, back. repeat split; auto. lia.
Qed.

(** X10.  Stitching keeps the time order: on a time-ordered history, the
    sequence that [GetStitchingTrajectory] returns is time-ordered too. *)
Theorem GetStitchingTrajectory_time_ordered `{!VehicleModel}
    (cfg : PlanningConfig.t) (state : KinoDynamicState.t)
    (has_history_trajectory_ : bool) (history_trajectory_ : Trajectory.t)
    (current_time_stamp planning_cycle_time : R) (preserve_points_num : Z)
    (out : list TrajectoryPoint.t) :
  TimeOrdered (Trajectory.trajectory_points history_trajectory_) ->
  GetStitchingTrajectory cfg state has_history_trajectory_ history_trajectory_
    current_time_stamp planning_cycle_time preserve_points_num = Some out ->
  TimeOrdered out.
Proof.
  intros Hord Hout.
  destruct (GetStitchingTrajectory_shape cfg state has_history_trajectory_
              history_trajectory_ current_time_stamp planning_cycle_time
              preserve_points_num out Hord Hout)
    as [-> | (start & fi & fwd_tp & _ & _ & _ & _ & ->)].
  - intros i j a b Hij Ha Hb. unfold ComputeReinitStitchingTrajectory in Ha, Hb.
    destruct j as [| j]; [| discriminate].
    destruct i as [| i]; [| lia].
    rewrite Ha in Hb. injection Hb as <-. lra.
  - intros i j a b Hij Ha Hb.
    apply lookup_map_Some in Ha as (a0 & Ha0 & ->).
    apply lookup_map_Some in Hb as (b0 & Hb0 & ->).
    apply lookup_take_Some in Ha0 as [Ha0 _].
    apply lookup_take_Some in Hb0 as [Hb0 _].
    rewrite lookup_drop in Ha0, Hb0.
    pose proof (Hord (start + i)%nat (start + j)%nat a0 b0 ltac:(lia) Ha0 Hb0).
    cbn. lra.
Qed.

Lemma GetStitchingTrajectory_time_ordered_witness :
  TimeOrdered
    (map (RebaseTrajectoryPoint (0 - 0.5) 2)
       [example_point 0 0 0 0; example_point 1 0 1 1; example_point 2 0 2 2]).
Proof.
  exact (@GetStitchingTrajectory_time_ordered example_vehicle_model
           example_config example_state true example_history 0.5 1 20 _
           example_history_ordered example_stitched).
Defined.

(** X11.  When the arc lengths of a time-ordered history do not decrease,
    every point that [GetStitchingTrajectory] returns has an arc length of
    at most 0: the prefix lies behind the planning origin. *)
Theorem GetStitchingTrajectory_arc_length_nonpositive `{!VehicleModel}
    (cfg : PlanningConfig.t) (state : KinoDynamicState.t)
    (has_history_trajectory_ : bool) (history_trajectory_ : Trajectory.t)
    (current_time_stamp planning_cycle_time : R) (preserve_points_num : Z)
    (out : list TrajectoryPoint.t) (tp : TrajectoryPoint.t) :
  TimeOrdered (Trajectory.trajectory_points history_trajectory_) ->
  ArcLengthOrdered (Trajectory.trajectory_points history_trajectory_) ->
  GetStitchingTrajectory cfg state has_history_trajectory_ history_trajectory_
    current_time_stamp planning_cycle_time preserve_points_num = Some out ->
  tp ∈ out ->
  PathPoint.s (TrajectoryPoint.path_point tp) <= 0.
Proof.
  intros Hord Harc Hout Hin.
  destruct (GetStitchingTrajectory_shape cfg state has_history_trajectory_
              history_trajectory_ current_time_stamp planning_cycle_time
              preserve_points_num out Hord Hout)
    as [-> | (start & fi & fwd_tp & _ & Hfwd & Hle & _ & ->)].
  - unfold ComputeReinitStitchingTrajectory in Hin.
    apply list_elem_of_singleton in Hin as ->.
    destruct (_ && _); cbn -[Z.pow_pos]; lra.
  - apply list_elem_of_lookup_1 in Hin as [i Hi].
    apply lookup_map_Some in Hi as (a0 & Ha0 & ->).
    apply lookup_take_Some in Ha0 as [Ha0 Hlt].
    rewrite lookup_drop in Ha0.
    pose proof (Harc (start + i)%nat fi a0 fwd_tp ltac:(lia) Ha0 Hfwd).
    cbn. lra.
Qed.

Lemma example_history_arc_length_ordered :
  ArcLengthOrdered (Trajectory.trajectory_points example_history).
Proof.
  intros i j a b Hij Ha Hb.
  destruct i as [| [| [| [| i]]]]; cbn in Ha; try discriminate;
    destruct j as [| [| [| [| j]]]]; cbn in Hb; try discriminate; try lia;
    injection Ha as <-; injection Hb as <-; cbn; lra.
Qed.

Lemma GetStitchingTrajectory_arc_length_nonpositive_witness :
  PathPoint.s
    (TrajectoryPoint.path_point
       (RebaseTrajectoryPoint (0 - 0.5) 2 (example_point 1 0 1 1))) <= 0.
Proof.
  apply (@GetStitchingTrajectory_arc_length_nonpositive example_vehicle_model
           example_config example_state true example_history 0.5 1 20
           (map (RebaseTrajectoryPoint (0 - 0.5) 2)
              [example_point 0 0 0 0; example_point 1 0 1 1;
               example_point 2 0 2 2])
           (RebaseTrajectoryPoint (0 - 0.5) 2 (example_point 1 0 1 1))
           example_history_ordered example_history_arc_length_ordered
           example_stitched).
  cbn [map]. right. left.
Defined.

(** X12.  The planning origin lies a cycle ahead: on a time-ordered
    history whose last point is not earlier than the current time plus the
    cycle time, the last point that [GetStitchingTrajectory] returns has a
    relative time of at least the cycle time less the tolerance 1e-5,
    after a reinitialisation as well as after stitching. *)
Theorem GetStitchingTrajectory_origin_ahead `{!VehicleModel}
    (cfg : PlanningConfig.t) (state : KinoDynamicState.t)
    (has_history_trajectory_ : bool) (history_trajectory_ : Trajectory.t)
    (current_time_stamp planning_cycle_time : R) (preserve_points_num : Z)
    (out : list TrajectoryPoint.t) (origin : TrajectoryPoint.t) :
  TimeOrdered (Trajectory.trajectory_points history_trajectory_) ->
  (forall back,
      last (Trajectory.trajectory_points history_trajectory_) = Some back ->
      current_time_stamp - Trajectory.stamp history_trajectory_
      + planning_cycle_time <= TrajectoryPoint.relative_time back) ->
  GetStitchingTrajectory cfg state has_history_trajectory_ history_trajectory_
    current_time_stamp planning_cycle_time preserve_points_num = Some out ->
  last out = Some origin ->
  planning_cycle_time - 1.0e-5 <= TrajectoryPoint.relative_time origin.
Proof.
  intros Hord Hspan Hout Hlast.
  destruct (GetStitchingTrajectory_shape cfg state has_history_trajectory_
              history_trajectory_ current_time_stamp planning_cycle_time
              preserve_points_num out Hord Hout)
    as [-> | (start & fi & fwd_tp & Hfi & Hfwd & _ & Hslice & ->)].
  - unfold ComputeReinitStitchingTrajectory in Hlast. injection Hlast as <-.
    destruct (_ && _); cbn -[Z.pow_pos]; lra.
  - rewrite last_map, Hslice in Hlast. injection Hlast as <-.
    destruct (last (Trajectory.trajectory_points history_trajectory_))
      as [back |] eqn:Hback.
    + destruct (GetTimeMatchIndex_spec _ _ Hord eps_time_nonneg
                  (current_time_stamp - Trajectory.stamp history_trajectory_
                   + planning_cycle_time) back Hback)
        as (r & Hr & _ & _ & Hin).
      unfold ForwardMatchedIndex in Hfi. rewrite Hfi in Hr. injection Hr as <-.
      destruct (Hin (Hspan back eq_refl)) as [_ Habove].
      specialize (Habove fi fwd_tp ltac:(lia) Hfwd).
      cbn -[Z.pow_pos]. lra.
    + apply last_None in Hback. rewrite Hback in Hfwd. discriminate.
Qed.

Lemma GetStitchingTrajectory_origin_ahead_witness :
  1 - 1.0e-5
  <= TrajectoryPoint.relative_time
       (RebaseTrajectoryPoint (0 - 0.5) 2 (example_point 2 0 2 2)).
Proof.
  apply (@GetStitchingTrajectory_origin_ahead example_vehicle_model
           example_config example_state true example_history 0.5 1 20
           (map (RebaseTrajectoryPoint (0 - 0.5) 2)
              [example_point 0 0 0 0; example_point 1 0 1 1;
               example_point 2 0 2 2])
           (RebaseTrajectoryPoint (0 - 0.5) 2 (example_point 2 0 2 2))
           example_history_ordered).
  - intros back [= <-]. cbn -[Z.pow_pos]. lra.
  - exact example_stitched.
  - reflexivity.
Defined.

(** ** More on the planning cycle *)

Section CycleOutcomes.
Context {ReferenceLine VehicleState EgoStatus EgoInfo : Type}.
Context `{!ReferenceLineOps ReferenceLine}.
Context `{!VehicleStateOps VehicleState EgoStatus EgoInfo}.
Context `{!VehicleModel} `{!ObstaclePrediction}.
Variable cfg : PlanningConfig.t.
Variable env : @CycleEnv ReferenceLine.
Variable current_time_stamp : R.
Variable mp : MotionPlanner.t VehicleState EgoStatus EgoInfo.

(** What a cycle that returns has done to the planner and what it has
    published. *)
Lemma RunOnce_outcome
    (mp' : MotionPlanner.t VehicleState EgoStatus EgoInfo)
    (published : option Trajectory.t) :
  RunOnce cfg env current_time_stamp mp = Some (mp', published) ->
  MotionPlanner.ego_vehicle_id_ mp' = MotionPlanner.ego_vehicle_id_ mp
  /\ MotionPlanner.objects_map_ mp' = MotionPlanner.objects_map_ mp
  /\ MotionPlanner.traffic_light_status_list_ mp'
     = MotionPlanner.traffic_light_status_list_ mp
  /\ MotionPlanner.traffic_lights_info_list_ mp'
     = MotionPlanner.traffic_lights_info_list_ mp
  /\ match published with
     | None => mp' = mp
     | Some t =>
         Trajectory.stamp t = current_time_stamp
         /\ MotionPlanner.ego_vehicle_id_ mp <> (-1)%Z
         /\ is_Some (MotionPlanner.objects_map_ mp
                       !! MotionPlanner.ego_vehicle_id_ mp)
         /\ ((Trajectory.status t = EMERGENCYSTOP
              /\ MotionPlanner.has_history_trajectory_ mp' = false
              /\ MotionPlanner.history_trajectory_ mp'
                 = MotionPlanner.history_trajectory_ mp)
             \/ (Trajectory.status t <> EMERGENCYSTOP
                 /\ MotionPlanner.has_history_trajectory_ mp' = true
                 /\ MotionPlanner.history_trajectory_ mp' = t))
     end.
Proof.
  unfold RunOnce. case_bool_decide as Hego; [intros [= <- <-]; auto |].
  destruct (MotionPlanner.objects_map_ mp !! MotionPlanner.ego_vehicle_id_ mp)
    as [ego_object |] eqn:Hobj; [| intros [= <- <-]; auto].
  destruct (GetStitchingTrajectory _ _ _ _ _ _ _) as [stitching |];
    [| discriminate].
  cbn [mbind option_bind].
  destruct (last stitching) as [init |]; [| discriminate].
  cbn [mbind option_bind].
  destruct (GetReferenceLines env) as [ok_lines ref_lines].
  assert (Hstop :
    forall mp1 : MotionPlanner.t VehicleState EgoStatus EgoInfo,
      MotionPlanner.ego_vehicle_id_ mp1 = MotionPlanner.ego_vehicle_id_ mp ->
      MotionPlanner.objects_map_ mp1 = MotionPlanner.objects_map_ mp ->
      MotionPlanner.traffic_light_status_list_ mp1
      = MotionPlanner.traffic_light_status_list_ mp ->
      MotionPlanner.traffic_lights_info_list_ mp1
      = MotionPlanner.traffic_lights_info_list_ mp ->
      MotionPlanner.history_trajectory_ mp1 = MotionPlanner.history_trajectory_ mp ->
      PublishEmergencyStop cfg mp1 current_time_stamp init = Some (mp', published) ->
      MotionPlanner.ego_vehicle_id_ mp' = MotionPlanner.ego_vehicle_id_ mp
      /\ MotionPlanner.objects_map_ mp' = MotionPlanner.objects_map_ mp
      /\ MotionPlanner.traffic_light_status_list_ mp'
         = MotionPlanner.traffic_light_status_list_ mp
      /\ MotionPlanner.traffic_lights_info_list_ mp'
         = MotionPlanner.traffic_lights_info_list_ mp
      /\ match published with
         | None => mp' = mp
         | Some t =>
             Trajectory.stamp t = current_time_stamp
             /\ MotionPlanner.ego_vehicle_id_ mp <> (-1)%Z
             /\ is_Some (Some ego_object)
             /\ ((Trajectory.status t = EMERGENCYSTOP
                  /\ MotionPlanner.has_history_trajectory_ mp' = false
                  /\ MotionPlanner.history_trajectory_ mp'
                     = MotionPlanner.history_trajectory_ mp)
                 \/ (Trajectory.status t <> EMERGENCYSTOP
                     /\ MotionPlanner.has_history_trajectory_ mp' = true
                     /\ MotionPlanner.history_trajectory_ mp' = t))
         end).
  { intros mp1 Hid Hobjs Hstatus Hinfo Hhist. unfold PublishEmergencyStop.
    destruct (GenerateEmergencyStopTrajectory cfg init) as [pts |];
      [| discriminate].
    cbn [mbind option_bind]. intros [= <- <-]. cbn.
    repeat split; eauto. }
  destruct ok_lines; cbn [negb]; [| apply Hstop; reflexivity].
  destruct (GetKeyObstacle _ _ _ _ _ _) as [obstacles |]; [| discriminate].
  cbn [mbind option_bind].
  destruct (Process env obstacles init _) as [ok_plan planned].
  destruct ok_plan; cbn [negb]; [| apply Hstop; reflexivity].
  intros [= <- <-]. cbn.
  repeat split; eauto. right. split; [| auto].
  destruct (take _ _ ++ _); discriminate.
Qed.

(** X13.  A cycle leaves the ego identity and the three snapshot maps as
    they were.  A cycle that publishes nothing leaves the whole planner as
    it was.  A cycle that publishes does so with the stamp of the cycle,
    only when the ego is known and present, and either the status is
    EMERGENCYSTOP, the history flag is false and the history trajectory is
    untouched, or the status is not EMERGENCYSTOP, the flag is true and the
    history trajectory is the published one. *)
Theorem RunOnce_history_invariant
    (mp' : MotionPlanner.t VehicleState EgoStatus EgoInfo)
    (published : option Trajectory.t) :
  RunOnce cfg env current_time_stamp mp = Some (mp', published) ->
  MotionPlanner.ego_vehicle_id_ mp' = MotionPlanner.ego_vehicle_id_ mp
  /\ MotionPlanner.objects_map_ mp' = MotionPlanner.objects_map_ mp
  /\ MotionPlanner.traffic_light_status_list_ mp'
     = MotionPlanner.traffic_light_status_list_ mp
  /\ MotionPlanner.traffic_lights_info_list_ mp'
     = MotionPlanner.traffic_lights_info_list_ mp
  /\ match published with
     | None => mp' = mp
     | Some t =>
         Trajectory.stamp t = current_time_stamp
         /\ MotionPlanner.ego_vehicle_id_ mp <> (-1)%Z
         /\ is_Some (MotionPlanner.objects_map_ mp
                       !! MotionPlanner.ego_vehicle_id_ mp)
         /\ ((Trajectory.status t = EMERGENCYSTOP
              /\ MotionPlanner.has_history_trajectory_ mp' = false
              /\ MotionPlanner.history_trajectory_ mp'
                 = MotionPlanner.history_trajectory_ mp)
             \/ (Trajectory.status t <> EMERGENCYSTOP
                 /\ MotionPlanner.has_history_trajectory_ mp' = true
                 /\ MotionPlanner.history_trajectory_ mp' = t))
     end.
Proof. exact (RunOnce_outcome mp' published). Qed.

(** X14.  After a cycle that published an emergency stop, the next call of
    [GetStitchingTrajectory] reinitialises, whatever the vehicle state, the
    time and the parameters: it returns the one-point sequence and does not
    read the history. *)
Theorem RunOnce_emergency_stop_then_reinit
    (mp' : MotionPlanner.t VehicleState EgoStatus EgoInfo) (t : Trajectory.t)
    (state : KinoDynamicState.t) (next_time_stamp planning_cycle_time : R)
    (preserve_points_num : Z) :
  RunOnce cfg env current_time_stamp mp = Some (mp', Some t) ->
  Trajectory.status t = EMERGENCYSTOP ->
  GetStitchingTrajectory cfg state
    (MotionPlanner.has_history_trajectory_ mp')
    (MotionPlanner.history_trajectory_ mp')
    next_time_stamp planning_cycle_time preserve_points_num
  = Some (ComputeReinitStitchingTrajectory planning_cycle_time state).
Proof.
  intros Hrun Hstatus.
  destruct (RunOnce_outcome mp' (Some t) Hrun)
    as (_ & _ & _ & _ & _ & _ & _ & [(_ & Hflag & _) | (Hne & _)]);
    [| contradiction].
  unfold GetStitchingTrajectory. rewrite Hflag. reflexivity.
Qed.

(** The cycle in which both collaborators succeed. *)
Lemma RunOnce_success_eq
    (ego_object : Object.t) (stitching_trajectory : list TrajectoryPoint.t)
    (init_trajectory_point : TrajectoryPoint.t)
    (ref_lines : list ReferenceLine) (obstacles : list Obstacle.t)
    (planned : Trajectory.t) :
  MotionPlanner.ego_vehicle_id_ mp <> (-1)%Z ->
  MotionPlanner.objects_map_ mp !! MotionPlanner.ego_vehicle_id_ mp
  = Some ego_object ->
  GetStitchingTrajectory cfg
    (GetKinoDynamicVehicleState
       (Update (MotionPlanner.vehicle_state_ mp)
          (MotionPlanner.ego_vehicle_status_ mp)
          (MotionPlanner.ego_vehicle_info_ mp) ego_object))
    (MotionPlanner.has_history_trajectory_ mp)
    (MotionPlanner.history_trajectory_ mp)
    current_time_stamp
    (1.0 / IZR (PlanningConfig.loop_rate cfg))
    (PlanningConfig.preserve_history_trajectory_point_num cfg)
  = Some stitching_trajectory ->
  last stitching_trajectory = Some init_trajectory_point ->
  GetReferenceLines env = (true, ref_lines) ->
  GetKeyObstacle cfg (MotionPlanner.objects_map_ mp)
    (MotionPlanner.traffic_light_status_list_ mp)
    (MotionPlanner.traffic_lights_info_list_ mp)
    init_trajectory_point (MotionPlanner.ego_vehicle_id_ mp)
  = Some obstacles ->
  Process env obstacles init_trajectory_point
    (GetPlanningTargets cfg ref_lines init_trajectory_point)
  = (true, planned) ->
  exists mp' t,
    RunOnce cfg env current_time_stamp mp = Some (mp', Some t)
    /\ MotionPlanner.history_trajectory_ mp' = t
    /\ MotionPlanner.has_history_trajectory_ mp' = true
    /\ Trajectory.stamp t = current_time_stamp
    /\ Trajectory.trajectory_points t
       = take (length stitching_trajectory - 1) stitching_trajectory
         ++ Trajectory.trajectory_points planned
    /\ Trajectory.status t
       = match Trajectory.trajectory_points t with
         | [] => EMPTY
         | _ => NORMAL
         end.
Proof.
  intros Hego Hobj Hstitch Hlast Hlines Hobstacles Hplan.
  unfold RunOnce.
  rewrite bool_decide_eq_false_2 by exact Hego.
  rewrite Hobj.
  cbn [MotionPlanner.has_history_trajectory_ MotionPlanner.history_trajectory_
       MotionPlanner.objects_map_ MotionPlanner.traffic_light_status_list_
       MotionPlanner.traffic_lights_info_list_ MotionPlanner.ego_vehicle_id_].
  rewrite Hstitch. cbn [mbind option_bind]. rewrite Hlast.
  cbn [mbind option_bind]. rewrite Hlines. cbn [negb].
  rewrite Hobstacles. cbn [mbind option_bind]. rewrite Hplan. cbn [negb].
  do 2 eexists. split; [reflexivity |]. cbn. auto.
Qed.

(** X15.  The splice of a successful cycle: the published trajectory
    holds the stitched points but the last, followed by the planner's
    points; when the planner's first point is the planning origin, as the
    planner is expected to return it, the stitched sequence is a prefix of
    the published one; and the status is EMPTY exactly when the stitching
    had a single point and the planner returned none.  The published
    trajectory becomes the history. *)
Theorem RunOnce_success_splice
    (ego_object : Object.t) (stitching_trajectory : list TrajectoryPoint.t)
    (init_trajectory_point : TrajectoryPoint.t)
    (ref_lines : list ReferenceLine) (obstacles : list Obstacle.t)
    (planned : Trajectory.t) :
  MotionPlanner.ego_vehicle_id_ mp <> (-1)%Z ->
  MotionPlanner.objects_map_ mp !! MotionPlanner.ego_vehicle_id_ mp
  = Some ego_object ->
  GetStitchingTrajectory cfg
    (GetKinoDynamicVehicleState
       (Update (MotionPlanner.vehicle_state_ mp)
          (MotionPlanner.ego_vehicle_status_ mp)
          (MotionPlanner.ego_vehicle_info_ mp) ego_object))
    (MotionPlanner.has_history_trajectory_ mp)
    (MotionPlanner.history_trajectory_ mp)
    current_time_stamp
    (1.0 / IZR (PlanningConfig.loop_rate cfg))
    (PlanningConfig.preserve_history_trajectory_point_num cfg)
  = Some stitching_trajectory ->
  last stitching_trajectory = Some init_trajectory_point ->
  GetReferenceLines env = (true, ref_lines) ->
  GetKeyObstacle cfg (MotionPlanner.objects_map_ mp)
    (MotionPlanner.traffic_light_status_list_ mp)
    (MotionPlanner.traffic_lights_info_list_ mp)
    init_trajectory_point (MotionPlanner.ego_vehicle_id_ mp)
  = Some obstacles ->
  Process env obstacles init_trajectory_point
    (GetPlanningTargets cfg ref_lines init_trajectory_point)
  = (true, planned) ->
  exists mp' t,
    RunOnce cfg env current_time_stamp mp = Some (mp', Some t)
    /\ MotionPlanner.history_trajectory_ mp' = t
    /\ MotionPlanner.has_history_trajectory_ mp' = true
    /\ Trajectory.stamp t = current_time_stamp
    /\ Trajectory.trajectory_points t
       = take (length stitching_trajectory - 1) stitching_trajectory
         ++ Trajectory.trajectory_points planned
    /\ (forall rest,
          Trajectory.trajectory_points planned = init_trajectory_point :: rest ->
          Trajectory.trajectory_points t = stitching_trajectory ++ rest)
    /\ (Trajectory.status t = EMPTY
        <-> length stitching_trajectory = 1%nat
            /\ Trajectory.trajectory_points planned = [])
    /\ (Trajectory.status t = NORMAL \/ Trajectory.status t = EMPTY).
Proof.
  intros Hego Hobj Hstitch Hlast Hlines Hobstacles Hplan.
  destruct (RunOnce_success_eq ego_object stitching_trajectory
              init_trajectory_point ref_lines obstacles planned
              Hego Hobj Hstitch Hlast Hlines Hobstacles Hplan)
    as (mp' & t & Hrun & Hhist & Hflag & Hstamp & Hpoints & Hstatus).
  exists mp', t. split; [exact Hrun |]. split; [exact Hhist |].
  split; [exact Hflag |]. split; [exact Hstamp |]. split; [exact Hpoints |].
  apply last_Some in Hlast as [prefix ->].
  rewrite length_app in Hpoints. cbn [length] in Hpoints.
  replace (length prefix + 1 - 1)%nat with (length prefix) in Hpoints by lia.
  rewrite take_app_length in Hpoints.
  split; [| split].
  - intros rest Hrest. rewrite Hpoints, Hrest, <- app_assoc. reflexivity.
  - rewrite Hstatus, Hpoints, length_app. cbn [length]. split.
    + destruct prefix as [| a prefix]; cbn.
      * destruct (Trajectory.trajectory_points planned); [auto | discriminate].
      * discriminate.
    + intros [Hlen ->]. destruct prefix; [reflexivity | cbn in Hlen; lia].
  - rewrite Hstatus. destruct (Trajectory.trajectory_points t); auto.
Qed.

End CycleOutcomes.

(** ** The example cycle *)

Lemma example_cycle_stitching :
  @GetStitchingTrajectory example_vehicle_model example_config
    (@GetKinoDynamicVehicleState _ _ _ example_vehicle_state_ops
       (@Update _ _ _ example_vehicle_state_ops
          (MotionPlanner.vehicle_state_ example_planner)
          (MotionPlanner.ego_vehicle_status_ example_planner)
          (MotionPlanner.ego_vehicle_info_ example_planner)
          example_ego_object))
    (MotionPlanner.has_history_trajectory_ example_planner)
    (MotionPlanner.history_trajectory_ example_planner)
    7 (1.0 / IZR (PlanningConfig.loop_rate example_config))
    (PlanningConfig.preserve_history_trajectory_point_num example_config)
  = Some [ComputeTrajectoryPointFromVehicleState (1.0 / IZR 10)
            (@GetNextStateAfterTime example_vehicle_model example_state
               (1.0 / IZR 10))].
Proof.
  assert (Hstill : Rltb (Rabs (KinoDynamicState.a example_state)) 0.4
                   && Rltb (Rabs (KinoDynamicState.v example_state)) 0.1
                   = false).
  { cbn [example_state KinoDynamicState.a KinoDynamicState.v]. Reval. reflexivity. }
  cbn [example_planner MotionPlanner.has_history_trajectory_
       MotionPlanner.history_trajectory_ MotionPlanner.vehicle_state_
       MotionPlanner.ego_vehicle_status_ MotionPlanner.ego_vehicle_info_
       example_vehicle_state_ops Update GetKinoDynamicVehicleState
       example_config PlanningConfig.loop_rate
       PlanningConfig.preserve_history_trajectory_point_num].
  unfold GetStitchingTrajectory, ComputeReinitStitchingTrajectory.
  cbn [negb]. rewrite Hstill. reflexivity.
Qed.

Lemma example_cycle_obstacles (init : TrajectoryPoint.t) :
  exists obstacles,
    @GetKeyObstacle example_prediction example_config
      (MotionPlanner.objects_map_ example_planner)
      (MotionPlanner.traffic_light_status_list_ example_planner)
      (MotionPlanner.traffic_lights_info_list_ example_planner)
      init (MotionPlanner.ego_vehicle_id_ example_planner) = Some obstacles.
Proof.
  unfold GetKeyObstacle.
  replace (MotionPlanner.objects_map_ example_planner
             !! MotionPlanner.ego_vehicle_id_ example_planner)
    with (Some example_ego_object) by reflexivity.
  cbn [mbind option_bind]. eauto.
Qed.

(** The example planner in a cycle stamped 7 in which both collaborators
    succeed. *)
Lemma example_cycle_succeeds :
  exists mp' t,
    @RunOnce R KinoDynamicState.t unit unit example_reference_ops
      example_vehicle_state_ops example_vehicle_model example_prediction
      example_config example_env_ok 7 example_planner = Some (mp', Some t).
Proof.
  destruct (example_cycle_obstacles
              (ComputeTrajectoryPointFromVehicleState (1.0 / IZR 10)
                 (@GetNextStateAfterTime example_vehicle_model example_state
                    (1.0 / IZR 10)))) as [obstacles Hobstacles].
  destruct (@RunOnce_success_eq R KinoDynamicState.t unit unit
              example_reference_ops example_vehicle_state_ops
              example_vehicle_model example_prediction example_config
              example_env_ok 7 example_planner example_ego_object
              _ _ [0.5] obstacles
              (Trajectory.Build 0 NORMAL
                 [ComputeTrajectoryPointFromVehicleState (1.0 / IZR 10)
                    (@GetNextStateAfterTime example_vehicle_model example_state
                       (1.0 / IZR 10));
                  example_point 5 0 5 5])
              ltac:(cbn; lia) eq_refl example_cycle_stitching eq_refl eq_refl
              Hobstacles eq_refl)
    as (mp' & t & Hrun & _).
  eauto.
Qed.

(** The example planner in a cycle stamped 7 in which no reference line is
    available. *)
Lemma example_cycle_fails :
  exists mp' t,
    @RunOnce R KinoDynamicState.t unit unit example_reference_ops
      example_vehicle_state_ops example_vehicle_model example_prediction
      example_config example_env 7 example_planner = Some (mp', Some t)
    /\ Trajectory.status t = EMERGENCYSTOP.
Proof.
  destruct (GenerateEmergencyStopTrajectory_returns example_config
              (ComputeTrajectoryPointFromVehicleState (1.0 / IZR 10)
                 (@GetNextStateAfterTime example_vehicle_model example_state
                    (1.0 / IZR 10)))
              8 example_config_num_traj_point ltac:(lia)) as [pts Hpts].
  unfold RunOnce.
  rewrite bool_decide_eq_false_2 by (cbn; lia).
  replace (MotionPlanner.objects_map_ example_planner
             !! MotionPlanner.ego_vehicle_id_ example_planner)
    with (Some example_ego_object) by reflexivity.
  cbn [MotionPlanner.has_history_trajectory_ MotionPlanner.history_trajectory_
       MotionPlanner.objects_map_ MotionPlanner.traffic_light_status_list_
       MotionPlanner.traffic_lights_info_list_ MotionPlanner.ego_vehicle_id_].
  pose proof example_cycle_stitching as Hstitch.
  cbn [MotionPlanner.has_history_trajectory_ MotionPlanner.history_trajectory_]
    in Hstitch.
  rewrite Hstitch. cbn [mbind option_bind last].
  cbn [example_env GetReferenceLines negb].
  unfold PublishEmergencyStop. rewrite Hpts. cbn [mbind option_bind].
  do 2 eexists. split; reflexivity.
Qed.

Lemma RunOnce_history_invariant_witness :
  exists mp' t,
    @RunOnce R KinoDynamicState.t unit unit example_reference_ops
      example_vehicle_state_ops example_vehicle_model example_prediction
      example_config example_env_ok 7 example_planner = Some (mp', Some t)
    /\ MotionPlanner.objects_map_ mp' = example_objects
    /\ Trajectory.stamp t = 7
    /\ ((Trajectory.status t = EMERGENCYSTOP
         /\ MotionPlanner.has_history_trajectory_ mp' = false
         /\ MotionPlanner.history_trajectory_ mp' = example_history)
        \/ (Trajectory.status t <> EMERGENCYSTOP
            /\ MotionPlanner.has_history_trajectory_ mp' = true
            /\ MotionPlanner.history_trajectory_ mp' = t)).
Proof.
  destruct example_cycle_succeeds as (mp' & t & Hrun).
  exists mp', t. split; [exact Hrun |].
  destruct (@RunOnce_history_invariant R KinoDynamicState.t unit unit
              example_reference_ops example_vehicle_state_ops
              example_vehicle_model example_prediction example_config
              example_env_ok 7 example_planner mp' (Some t) Hrun)
    as (_ & Hobjs & _ & _ & Hstamp & _ & _ & Hcases).
  auto.
Defined.

Lemma RunOnce_emergency_stop_then_reinit_witness :
  exists mp' : MotionPlanner.t KinoDynamicState.t unit unit,
    @GetStitchingTrajectory example_vehicle_model example_config example_state
      (MotionPlanner.has_history_trajectory_ mp')
      (MotionPlanner.history_trajectory_ mp') 8 1 20
    = Some (@ComputeReinitStitchingTrajectory example_vehicle_model 1
              example_state).
Proof.
  destruct example_cycle_fails as (mp' & t & Hrun & Hstatus).
  exists mp'.
  exact (@RunOnce_emergency_stop_then_reinit R KinoDynamicState.t unit unit
           example_reference_ops example_vehicle_state_ops
           example_vehicle_model example_prediction example_config
           example_env 7 example_planner mp' t example_state 8 1 20
           Hrun Hstatus).
Defined.

Lemma RunOnce_success_splice_witness :
  exists mp' t,
    @RunOnce R KinoDynamicState.t unit unit example_reference_ops
      example_vehicle_state_ops example_vehicle_model example_prediction
      example_config example_env_ok 7 example_planner = Some (mp', Some t)
    /\ MotionPlanner.history_trajectory_ mp' = t
    /\ Trajectory.trajectory_points t
       = [ComputeTrajectoryPointFromVehicleState (1.0 / IZR 10)
            (@GetNextStateAfterTime example_vehicle_model example_state
               (1.0 / IZR 10));
          example_point 5 0 5 5]
    /\ Trajectory.status t = NORMAL.
Proof.
  destruct (example_cycle_obstacles
              (ComputeTrajectoryPointFromVehicleState (1.0 / IZR 10)
                 (@GetNextStateAfterTime example_vehicle_model example_state
                    (1.0 / IZR 10)))) as [obstacles Hobstacles].
  destruct (@RunOnce_success_splice R KinoDynamicState.t unit unit
              example_reference_ops example_vehicle_state_ops
              example_vehicle_model example_prediction example_config
              example_env_ok 7 example_planner example_ego_object
              _ _ [0.5] obstacles
              (Trajectory.Build 0 NORMAL
                 [ComputeTrajectoryPointFromVehicleState (1.0 / IZR 10)
                    (@GetNextStateAfterTime example_vehicle_model example_state
                       (1.0 / IZR 10));
                  example_point 5 0 5 5])
              ltac:(cbn; lia) eq_refl example_cycle_stitching eq_refl eq_refl
              Hobstacles eq_refl)
    as (mp' & t & Hrun & Hhist & _ & _ & Hpoints & Hprefix & Hempty & Hstatus).
  exists mp', t. split; [exact Hrun |]. split; [exact Hhist |].
  split; [exact (Hprefix _ eq_refl) |].
  destruct Hstatus as [Hnormal | Hisempty]; [exact Hnormal |].
  apply Hempty in Hisempty as [_ Hnil]. discriminate Hnil.
Defined.

(** ** The subscriber callbacks *)

Lemma map_emplace_lookup {A : Type} (m : gmap Z A) (k k' : Z) (v : A) :
  map_emplace m k v !! k'
  = match m !! k' with
    | Some w => Some w
    | None => if bool_decide (k = k') then Some v else None
    end.
Proof.
  unfold map_emplace. destruct (m !! k) as [w |] eqn:Hk.
  - destruct (m !! k') as [w' |] eqn:Hk'; [reflexivity |].
    case_bool_decide as Heq; [congruence | reflexivity].
  - case_bool_decide as Heq.
    + subst k'. rewrite lookup_insert_eq, Hk. reflexivity.
    + rewrite lookup_insert_ne by exact Heq.
      destruct (m !! k'); reflexivity.
Qed.

Lemma emplace_fold_lookup {A : Type} (key : A -> Z) (l : list A) :
  forall (m : gmap Z A) (k : Z),
    fold_left (fun m a => map_emplace m (key a) a) l m !! k
    = match m !! k with
      | Some v => Some v
      | None => head (filter (fun a => key a = k) l)
      end.
Proof.
  induction l as [| a l IH]; intros m k; cbn [fold_left].
  - destruct (m !! k); reflexivity.
  - rewrite IH, map_emplace_lookup, filter_cons.
    destruct (m !! k) as [v |]; [reflexivity |].
    case_bool_decide as Heq; destruct (decide (key a = k)); try contradiction;
      reflexivity.
Qed.

Lemma emplace_all_lookup {A : Type} (key : A -> Z) (l : list A) (k : Z) :
  emplace_all key l !! k = head (filter (fun a => key a = k) l).
Proof. unfold emplace_all. rewrite emplace_fold_lookup, lookup_empty. reflexivity. Qed.

Lemma emplace_all_lookup_Some {A : Type} (key : A -> Z) (l : list A) (k : Z)
    (a : A) :
  emplace_all key l !! k = Some a -> key a = k /\ a ∈ l.
Proof.
  rewrite emplace_all_lookup. intros Hhead.
  apply head_Some_elem_of in Hhead.
  apply list_elem_of_filter in Hhead. exact Hhead.
Qed.

(** X16.  The maps the callbacks build: each key of [objects_map_],
    [traffic_light_status_list_] and [traffic_lights_info_list_] holds the
    first element of the message that carries this id (a later element with
    the same id is not inserted), so every entry is keyed by its own id. *)
Theorem Callback_maps_first_by_id
    (objects : list Object.t)
    (statuses : list CarlaTrafficLightStatus.t)
    (infos : list CarlaTrafficLightInfo.t) (k : Z) :
  ObjectsCallback objects !! k
  = head (filter (fun o => Object.id o = k) objects)
  /\ TrafficLightsCallback statuses !! k
     = head (filter (fun st => CarlaTrafficLightStatus.id st = k) statuses)
  /\ TrafficLightsInfoCallback infos !! k
     = head (filter (fun i => CarlaTrafficLightInfo.id i = k) infos).
Proof.
  unfold ObjectsCallback, TrafficLightsCallback, TrafficLightsInfoCallback.
  rewrite !emplace_all_lookup. auto.
Qed.

(** X17.  With the objects map built by the objects callback, no obstacle
    that [GetKeyObstacle] builds from a dynamic object carries the id of the
    ego, and each such object is one of the message. *)
Theorem GetKeyObstacle_after_callback `{!ObstaclePrediction}
    (cfg : PlanningConfig.t) (objects : list Object.t)
    (traffic_light_status_list : gmap Z CarlaTrafficLightStatus.t)
    (traffic_lights_info_list : gmap Z CarlaTrafficLightInfo.t)
    (trajectory_point : TrajectoryPoint.t) (ego_id : Z)
    (obstacles : list Obstacle.t) :
  GetKeyObstacle cfg (ObjectsCallback objects) traffic_light_status_list
    traffic_lights_info_list trajectory_point ego_id = Some obstacles ->
  Forall
    (fun ob =>
       match Obstacle.source ob with
       | DYNAMIC_OBJECT object => Object.id object <> ego_id /\ object ∈ objects
       | TRAFFIC_SIGNAL _ _ => True
       end)
    obstacles.
Proof.
  unfold GetKeyObstacle.
  destruct (ObjectsCallback objects !! ego_id) as [ego_object |];
    [| discriminate].
  cbn [mbind option_bind]. intros [= <-].
  apply Forall_forall. intros ob Hin.
  apply elem_of_app in Hin as [Hin | Hin];
    apply list_elem_of_omap in Hin as ([k v] & Hentry & Hob).
  - apply elem_of_map_to_list in Hentry.
    apply KeyObstacleOfObject_Some in Hob as (Hne & _ & ->).
    apply emplace_all_lookup_Some in Hentry as [Hid Hmem].
    cbn in *. split; [congruence | exact Hmem].
  - apply KeyObstacleOfLight_Some in Hob as (light_status & _ & _ & ->).
    exact I.
Qed.

Lemma GetKeyObstacle_after_callback_witness :
  exists obstacles,
    @GetKeyObstacle example_prediction example_config
      (ObjectsCallback
         [example_ego_object; Object.Build 2 (Point.Build 3 4 0);
          Object.Build 1 (Point.Build 9 9 0)])
      ∅ ∅ (example_origin 0) 1 = Some obstacles
    /\ Forall
         (fun ob =>
            match Obstacle.source ob with
            | DYNAMIC_OBJECT object =>
                Object.id object <> 1%Z
                /\ object ∈ [example_ego_object;
                             Object.Build 2 (Point.Build 3 4 0);
                             Object.Build 1 (Point.Build 9 9 0)]
            | TRAFFIC_SIGNAL _ _ => True
            end)
         obstacles.
Proof.
  assert (Hsome : exists obstacles,
            @GetKeyObstacle example_prediction example_config
              (ObjectsCallback
                 [example_ego_object; Object.Build 2 (Point.Build 3 4 0);
                  Object.Build 1 (Point.Build 9 9 0)])
              ∅ ∅ (example_origin 0) 1 = Some obstacles).
  { unfold GetKeyObstacle.
    replace (ObjectsCallback _ !! 1%Z) with (Some example_ego_object)
      by reflexivity.
    cbn [mbind option_bind]. eauto. }
  destruct Hsome as [obstacles Hsome]. exists obstacles.
  split; [exact Hsome |].
  exact (@GetKeyObstacle_after_callback example_prediction example_config _
           ∅ ∅ (example_origin 0) 1 obstacles Hsome).
Defined.

(** ** Traffic signals and the size of the obstacle set *)

Section KeyObstacleMore.
Context `{!ObstaclePrediction}.
Variable cfg : PlanningConfig.t.
Variable objects : gmap Z Object.t.
Variable traffic_light_status_list : gmap Z CarlaTrafficLightStatus.t.
Variable traffic_lights_info_list : gmap Z CarlaTrafficLightInfo.t.
Variable trajectory_point : TrajectoryPoint.t.
Variable ego_id : Z.

Lemma KeyObstacleOfLight_iff (ego_object : Object.t)
    (entry : Z * CarlaTrafficLightInfo.t) (ob : Obstacle.t) :
  KeyObstacleOfLight cfg traffic_light_status_list trajectory_point ego_object
    entry = Some ob
  <-> exists light_status,
        traffic_light_status_list !! entry.1 = Some light_status
        /\ CarlaTrafficLightStatus.state light_status <> GREEN
        /\ CarlaTrafficLightStatus.state light_status <> UNKNOWN
        /\ InKeyRange trajectory_point ego_object
             (CarlaTrafficLightInfo.trigger_volume_center entry.2) = true
        /\ ob = make_obstacle cfg (TRAFFIC_SIGNAL entry.2 light_status).
Proof.
  unfold KeyObstacleOfLight.
  destruct (traffic_light_status_list !! entry.1) as [light_status |].
  - split.
    + intros Hob. exists light_status.
      destruct (CarlaTrafficLightStatus.state light_status);
        try discriminate;
        destruct (InKeyRange _ _ _); try discriminate;
        injection Hob as <-; repeat split; auto; discriminate.
    + intros (st & [= <-] & Hgreen & Hunknown & Hrange & ->).
      rewrite Hrange.
      destruct (CarlaTrafficLightStatus.state light_status);
        try reflexivity; contradiction.
  - split; [discriminate | intros (st & Hst & _); discriminate].
Qed.

(** X18.  When the objects map holds the ego, the obstacle of a traffic
    signal is in the list that [GetKeyObstacle] returns exactly when the
    signal has an info entry and a status entry under one id, its state is
    neither GREEN nor UNKNOWN (so RED, YELLOW and OFF signals are
    obstacles), and the centre of its trigger volume is at planar distance
    below 50 from the origin point and within 1.5 of the ego's height. *)
Theorem GetKeyObstacle_traffic_signals (ego_object : Object.t)
    (light_info : CarlaTrafficLightInfo.t)
    (light_status : CarlaTrafficLightStatus.t) :
  objects !! ego_id = Some ego_object ->
  exists obstacles,
    GetKeyObstacle cfg objects traffic_light_status_list
      traffic_lights_info_list trajectory_point ego_id = Some obstacles
    /\ (make_obstacle cfg (TRAFFIC_SIGNAL light_info light_status) ∈ obstacles
        <-> exists k,
              traffic_lights_info_list !! k = Some light_info
              /\ traffic_light_status_list !! k = Some light_status
              /\ CarlaTrafficLightStatus.state light_status <> GREEN
              /\ CarlaTrafficLightStatus.state light_status <> UNKNOWN
              /\ PlanarDistance trajectory_point
                   (CarlaTrafficLightInfo.trigger_volume_center light_info) < 50
              /\ HeightDifference ego_object
                   (CarlaTrafficLightInfo.trigger_volume_center light_info) < 1.5).
Proof.
  intros Hego. unfold GetKeyObstacle. rewrite Hego. cbn [mbind option_bind].
  eexists. split; [reflexivity |]. split.
  - intros Hin.
    apply elem_of_app in Hin as [Hin | Hin];
      apply list_elem_of_omap in Hin as ([k v] & Hentry & Hob).
    + apply KeyObstacleOfObject_Some in Hob as (_ & _ & Heq). discriminate Heq.
    + apply elem_of_map_to_list in Hentry.
      apply KeyObstacleOfLight_iff in Hob
        as (st & Hst & Hgreen & Hunknown & Hrange & Heq).
      injection Heq as -> ->. cbn in *.
      apply InKeyRange_spec in Hrange as [Hdist Hheight].
      exists k. auto 10.
  - intros (k & Hinfo & Hst & Hgreen & Hunknown & Hdist & Hheight).
    apply elem_of_app. right.
    apply list_elem_of_omap. exists (k, light_info). split.
    + apply elem_of_map_to_list. exact Hinfo.
    + apply KeyObstacleOfLight_iff. exists light_status. cbn.
      rewrite (proj2 (InKeyRange_spec trajectory_point ego_object _))
        by (split; assumption).
      auto 10.
Qed.

Lemma length_omap_le {A B : Type} (f : A -> option B) (l : list A) :
  (length (omap f l) <= length l)%nat.
Proof.
  induction l as [| a l IH]; cbn; [lia |].
  destruct (f a); cbn; lia.
Qed.

Lemma length_omap_lt {A B : Type} (f : A -> option B) (l : list A) (a : A) :
  a ∈ l -> f a = None -> (length (omap f l) < length l)%nat.
Proof.
  intros Hin Hnone. induction Hin as [a l | a b l Hin IH]; cbn.
  - rewrite Hnone. pose proof (length_omap_le f l). lia.
  - specialize (IH Hnone). destruct (f b); cbn; lia.
Qed.

(** X19.  [GetKeyObstacle] throws exactly when the objects map lacks the
    ego id; otherwise it returns at most one obstacle per other object and
    one per traffic-signal info entry. *)
Theorem GetKeyObstacle_size :
  (GetKeyObstacle cfg objects traffic_light_status_list
     traffic_lights_info_list trajectory_point ego_id = None
   <-> objects !! ego_id = None)
  /\ forall obstacles,
       GetKeyObstacle cfg objects traffic_light_status_list
         traffic_lights_info_list trajectory_point ego_id = Some obstacles ->
       (length obstacles + 1 <= size objects + size traffic_lights_info_list)%nat.
Proof.
  unfold GetKeyObstacle.
  destruct (objects !! ego_id) as [ego_object |] eqn:Hego;
    cbn [mbind option_bind].
  - split; [split; discriminate |].
    intros obstacles [= <-]. rewrite length_app.
    pose proof (length_omap_lt
                  (KeyObstacleOfObject cfg trajectory_point ego_object ego_id)
                  (map_to_list objects) (ego_id, ego_object)) as Hlt.
    pose proof (length_omap_le
                  (KeyObstacleOfLight cfg traffic_light_status_list
                     trajectory_point ego_object)
                  (map_to_list traffic_lights_info_list)) as Hle.
    rewrite !length_map_to_list in *.
    assert (Hself : KeyObstacleOfObject cfg trajectory_point ego_object ego_id
                      (ego_id, ego_object) = None).
    { unfold KeyObstacleOfObject. cbn.
      rewrite bool_decide_eq_true_2 by reflexivity. reflexivity. }
    specialize (Hlt ltac:(apply elem_of_map_to_list; exact Hego) Hself). lia.
  - split; [split; reflexivity | discriminate].
Qed.

End KeyObstacleMore.

Lemma GetKeyObstacle_traffic_signals_witness :
  exists obstacles,
    @GetKeyObstacle example_prediction example_config example_objects
      (<[7%Z := CarlaTrafficLightStatus.Build 7 OFF]> ∅)
      (<[7%Z := CarlaTrafficLightInfo.Build 7 (Point.Build 3 4 0)]> ∅)
      (example_origin 0) 1 = Some obstacles
    /\ @make_obstacle example_prediction example_config
         (TRAFFIC_SIGNAL (CarlaTrafficLightInfo.Build 7 (Point.Build 3 4 0))
            (CarlaTrafficLightStatus.Build 7 OFF)) ∈ obstacles.
Proof.
  destruct (@GetKeyObstacle_traffic_signals example_prediction example_config
              example_objects
              (<[7%Z := CarlaTrafficLightStatus.Build 7 OFF]> ∅)
              (<[7%Z := CarlaTrafficLightInfo.Build 7 (Point.Build 3 4 0)]> ∅)
              (example_origin 0) 1 example_ego_object
              (CarlaTrafficLightInfo.Build 7 (Point.Build 3 4 0))
              (CarlaTrafficLightStatus.Build 7 OFF) eq_refl)
    as (obstacles & Hsome & Hiff).
  exists obstacles. split; [exact Hsome |].
  apply Hiff. exists 7%Z.
  split; [reflexivity |]. split; [reflexivity |].
  split; [discriminate |]. split; [discriminate |].
  unfold PlanarDistance, HeightDifference, std_hypot.
  cbn [example_origin example_ego_object TrajectoryPoint.path_point
       PathPoint.x PathPoint.y Object.pose_position Point.x Point.y Point.z
       CarlaTrafficLightInfo.trigger_volume_center].
  replace ((0 - 3) * (0 - 3) + (0 - 4) * (0 - 4)) with (5 * 5) by lra.
  rewrite sqrt_square by lra.
  rewrite Rabs_pos_eq by lra. split; lra.
Defined.

Lemma GetKeyObstacle_size_witness :
  exists obstacles,
    @GetKeyObstacle example_prediction example_config example_objects ∅ ∅
      (example_origin 0) 1 = Some obstacles
    /\ (length obstacles + 1 <= 2)%nat.
Proof.
  destruct (example_cycle_obstacles (example_origin 0)) as [obstacles Hsome].
  exists obstacles. split; [exact Hsome |].
  exact (proj2 (@GetKeyObstacle_size example_prediction example_config
                  example_objects ∅ ∅ (example_origin 0) 1) obstacles Hsome).
Defined.

(** ** More on the planning targets *)

Section PlanningTargetsMore.
Context {ReferenceLine : Type} `{!ReferenceLineOps ReferenceLine}.
Variable cfg : PlanningConfig.t.
Variable init_point : TrajectoryPoint.t.

Lemma PlanningTargetOfLine_fields (ref_line : ReferenceLine)
    (target : PlanningTarget.t ReferenceLine) :
  PlanningTargetOfLine cfg init_point ref_line = Some target ->
  exists sl_point,
    XYToSL ref_line
      (PathPoint.x (TrajectoryPoint.path_point init_point))
      (PathPoint.y (TrajectoryPoint.path_point init_point)) = Some sl_point
    /\ PlanningTarget.ref_lane target = ref_line
    /\ PlanningTarget.has_stop_point target
       = Rltb (Length ref_line) (SLPoint.s sl_point + 50.0)
    /\ PlanningTarget.stop_s target
       = (if PlanningTarget.has_stop_point target
          then Length ref_line else DBL_MAX)
    /\ PlanningTarget.is_best_behaviour target = IsOnLane ref_line sl_point
    /\ PlanningTarget.desired_vel target
       = Rmin (PlanningConfig.desired_velocity cfg)
           (CurvatureSpeedBound cfg ref_line (SLPoint.s sl_point)).
Proof.
  unfold PlanningTargetOfLine.
  destruct (XYToSL ref_line _ _) as [sl_point |]; [| discriminate].
  intros [= <-]. exists sl_point. cbn -[Z.pow_pos].
  rewrite std_min_Rmin. auto 10.
Qed.

(** X20.  One target per projecting line, in order: the reference lines
    of the targets that [GetPlanningTargets] returns are the input lines on
    which the origin projects, in the order of the input; a line on which
    the projection fails is dropped and the others are kept. *)
Theorem GetPlanningTargets_lanes (ref_lines : list ReferenceLine) :
  map PlanningTarget.ref_lane (GetPlanningTargets cfg ref_lines init_point)
  = filter
      (fun ref_line =>
         is_Some (XYToSL ref_line
                    (PathPoint.x (TrajectoryPoint.path_point init_point))
                    (PathPoint.y (TrajectoryPoint.path_point init_point))))
      ref_lines.
Proof.
  unfold GetPlanningTargets.
  induction ref_lines as [| ref_line ref_lines IH]; [reflexivity |].
  cbn [omap list_omap]. rewrite filter_cons. cbn beta.
  unfold PlanningTargetOfLine at 1.
  destruct (XYToSL ref_line _ _) as [sl |] eqn:Hsl.
  - rewrite decide_True by eauto.
    cbn [map PlanningTarget.ref_lane]. f_equal. exact IH.
  - rewrite decide_False by apply is_Some_None. exact IH.
Qed.

(** X21.  The stop point of every target: [has_stop_point] holds exactly
    when the line ends less than 50 beyond the projected arc length; then
    [stop_s] is the length of the line, and otherwise it is the largest
    double; [is_best_behaviour] says whether the projected point is on the
    lane. *)
Theorem GetPlanningTargets_stop_point (ref_lines : list ReferenceLine) :
  Forall
    (fun target : PlanningTarget.t ReferenceLine =>
       exists sl_point,
         XYToSL (PlanningTarget.ref_lane target)
           (PathPoint.x (TrajectoryPoint.path_point init_point))
           (PathPoint.y (TrajectoryPoint.path_point init_point))
         = Some sl_point
         /\ (PlanningTarget.has_stop_point target = true
             <-> Length (PlanningTarget.ref_lane target)
                 < SLPoint.s sl_point + 50)
         /\ (PlanningTarget.has_stop_point target = true ->
             PlanningTarget.stop_s target
             = Length (PlanningTarget.ref_lane target))
         /\ (PlanningTarget.has_stop_point target = false ->
             PlanningTarget.stop_s target = DBL_MAX)
         /\ PlanningTarget.is_best_behaviour target
            = IsOnLane (PlanningTarget.ref_lane target) sl_point)
    (GetPlanningTargets cfg ref_lines init_point).
Proof.
  apply Forall_forall. intros target Hin. unfold GetPlanningTargets in Hin.
  apply list_elem_of_omap in Hin as (ref_line & _ & Htarget).
  apply PlanningTargetOfLine_fields in Htarget
    as (sl & Hsl & Hlane & Hstop & Hstop_s & Hbest & _).
  exists sl. rewrite Hlane, Hstop_s, Hstop, Hbest.
  split; [exact Hsl |]. split.
  - rewrite Rltb_spec. split; intros H; lra.
  - split; [intros ->; reflexivity |].
    split; [intros ->; reflexivity | reflexivity].
Qed.

(** X22.  With a positive velocity cap and a positive lateral acceleration
    limit, the desired velocity of every target is positive, whatever the
    curvature (the 1e-4 in the denominator keeps it defined on straight
    segments), and at most max_lat_acc / 1e-4. *)
Theorem GetPlanningTargets_desired_vel_positive
    (ref_lines : list ReferenceLine) :
  0 < PlanningConfig.desired_velocity cfg ->
  0 < PlanningConfig.max_lat_acc cfg ->
  Forall
    (fun target : PlanningTarget.t ReferenceLine =>
       0 < PlanningTarget.desired_vel target
       /\ PlanningTarget.desired_vel target
          <= PlanningConfig.max_lat_acc cfg / 1e-4)
    (GetPlanningTargets cfg ref_lines init_point).
Proof.
  intros Hcap Hacc. apply Forall_forall. intros target Hin.
  unfold GetPlanningTargets in Hin.
  apply list_elem_of_omap in Hin as (ref_line & _ & Htarget).
  apply PlanningTargetOfLine_fields in Htarget
    as (sl & _ & _ & _ & _ & _ & ->).
  unfold CurvatureSpeedBound.
  set (k := Rabs (ReferencePointKappa ref_line (SLPoint.s sl))).
  assert (Hk : 0 <= k) by apply Rabs_pos.
  assert (Hden : 0 < k + 1e-4) by lra.
  assert (Hbound_pos : 0 < PlanningConfig.max_lat_acc cfg / (k + 1e-4)).
  { apply Rdiv_lt_0_compat; assumption. }
  assert (Hbound_le : PlanningConfig.max_lat_acc cfg / (k + 1e-4)
                      <= PlanningConfig.max_lat_acc cfg / 1e-4).
  { unfold Rdiv. apply Rmult_le_compat_l; [lra |].
    apply Rinv_le_contravar; lra. }
  split.
  - apply Rmin_glb_lt; assumption.
  - etransitivity; [apply Rmin_r | exact Hbound_le].
Qed.

End PlanningTargetsMore.

Lemma GetPlanningTargets_desired_vel_positive_witness :
  Forall
    (fun target : PlanningTarget.t R =>
       0 < PlanningTarget.desired_vel target
       /\ PlanningTarget.desired_vel target
          <= PlanningConfig.max_lat_acc example_config / 1e-4)
    (@GetPlanningTargets R example_reference_ops example_config [0.5; 0]
       (example_origin 0)).
Proof.
  apply (@GetPlanningTargets_desired_vel_positive R example_reference_ops
           example_config (example_origin 0) [0.5; 0]);
    cbn [example_config PlanningConfig.desired_velocity
         PlanningConfig.max_lat_acc]; lra.
Defined.

(** ** Potential reference lines of an agent *)

Section AgentLanes.
Context {ReferenceLine WayPoint : Type}.
Context `{!ReferenceRetrieval ReferenceLine WayPoint}.
Variable service : Z -> option (list (Lane.t WayPoint)).
Variable agent_state : KinoDynamicState.t.
Variable agent_id : Z.
Variable lookahead_length lookback_length : R.

(** The line a lane contributes: none when it has no way point or when the
    retrieval fails. *)
Lemma AddAgentPotentialReferenceLines_eq (lane : Lane.t WayPoint) (smooth : bool)
    (lines : list ReferenceLine) :
  (AddAgentPotentialReferenceLines agent_state lane lookahead_length
     lookback_length smooth (Some lines)).2
  = Some (lines
          ++ option_list
               (match Lane.way_points lane with
                | [] => None
                | _ => RetriveReferenceLine agent_state (Lane.way_points lane)
                         lookahead_length lookback_length
                end)).
Proof.
  unfold AddAgentPotentialReferenceLines.
  destruct (Lane.way_points lane) as [| w ws];
    [cbn; now rewrite app_nil_r |].
  destruct (RetriveReferenceLine agent_state (w :: ws) _ _); cbn;
    [reflexivity | now rewrite app_nil_r].
Qed.

(** X23.  [GetAgentPotentialRefLanes] returns false and leaves the vector
    alone when the pointer is null or the route service fails.  When the
    service answers, it returns true, also when no lane yields a line, and
    the vector is the one it was given followed, in the order of the lanes,
    by the retrieved line of every lane that has way points and whose
    retrieval succeeds. *)
Theorem GetAgentPotentialRefLanes_appends :
  GetAgentPotentialRefLanes service agent_state agent_id lookahead_length
    lookback_length None = (false, None)
  /\ (forall lines,
        service agent_id = None ->
        GetAgentPotentialRefLanes service agent_state agent_id
          lookahead_length lookback_length (Some lines)
        = (false, Some lines))
  /\ (forall lines lane_arrays,
        service agent_id = Some lane_arrays ->
        GetAgentPotentialRefLanes service agent_state agent_id
          lookahead_length lookback_length (Some lines)
        = (true,
           Some (lines
                 ++ omap
                      (fun lane =>
                         match Lane.way_points lane with
                         | [] => None
                         | _ => RetriveReferenceLine agent_state
                                  (Lane.way_points lane) lookahead_length
                                  lookback_length
                         end)
                      lane_arrays))).
Proof.
  split; [reflexivity |]. split.
  - intros lines Hfail. unfold GetAgentPotentialRefLanes. now rewrite Hfail.
  - intros lines lane_arrays Hok. unfold GetAgentPotentialRefLanes.
    rewrite Hok. clear Hok. f_equal. revert lines.
    induction lane_arrays as [| lane lane_arrays IH]; intros lines.
    + cbn. now rewrite app_nil_r.
    + cbn [fold_left]. rewrite AddAgentPotentialReferenceLines_eq, IH.
      cbn [omap list_omap].
      destruct (match Lane.way_points lane with
                | [] => None
                | _ => RetriveReferenceLine agent_state (Lane.way_points lane)
                         lookahead_length lookback_length
                end) as [ref_lane |]; cbn [option_list].
      * now rewrite <- app_assoc.
      * now rewrite app_nil_r.
Qed.

End AgentLanes.

(** On three lanes, one without way points and one whose retrieval fails,
    only the remaining lane adds a line. *)
Lemma GetAgentPotentialRefLanes_appends_witness :
  @GetAgentPotentialRefLanes R R example_retrieval
    (fun _ => Some [Lane.Build []; Lane.Build [0; 3]; Lane.Build [2; 3]])
    example_state 2 100 20 (Some [1])
  = (true, Some [1; 2]).
Proof.
  destruct (@GetAgentPotentialRefLanes_appends R R example_retrieval
              (fun _ => Some [Lane.Build []; Lane.Build [0; 3]; Lane.Build [2; 3]])
              example_state 2 100 20) as (_ & _ & Hok).
  rewrite (Hok [1] _ eq_refl).
  cbn [omap list_omap Lane.way_points example_retrieval RetriveReferenceLine].
  Rcompare. reflexivity.
Defined.
